(** * Expense-Calculator: identity and salary-reminder core

    A shallow embedding of the TypeScript sources
      - frontend/src/components/SalaryReminder.tsx  ([calculateDaysRemaining])
      - backend/src/utils/auth.ts                   ([generateToken], [verifyToken];
                                                     the second half of utils/sanitize.ts)
      - backend/src/middleware/auth.ts              ([authenticate])
      - backend/src/routes/auth.ts                  (register, GET /auth/me; unnamed/part_005)
      - backend/src/routes/salary.ts                (POST and DELETE /salary; unnamed/part_003)
      - backend/src/db.ts                           ([executeQuery], the schema; unnamed/part_007)
    together with the parts of their platform they rest on: the ECMAScript
    [Date] arithmetic, the jsonwebtoken compact serialisation, and the
    relational store.  Line numbers in comments are those of these files. *)

From Stdlib Require Import ZArith Lia Bool List QArith Qround Ascii String.
From stdpp Require Import base option strings gmap.

Local Open Scope Z_scope.

(* ===================================================================== *)
(** * ECMAScript time values (ECMA-262, "Date objects")

    A time value is a number of milliseconds since the epoch.  Every value
    that occurs below is an integer far smaller than 2^53, where the
    arithmetic of JavaScript numbers is exact, so time values are modelled
    by [Z]. *)
(* ===================================================================== *)

Module JsDate.

Definition msPerDay : Z := 86400000.
Definition msPerHour : Z := 3600000.

Definition Day (t : Z) : Z := t / msPerDay.

Definition isLeapYear (y : Z) : bool :=
  if negb (y mod 4 =? 0) then false
  else if negb (y mod 100 =? 0) then true
  else if negb (y mod 400 =? 0) then false
  else true.

Definition DaysInYear (y : Z) : Z := if isLeapYear y then 366 else 365.

Definition DayFromYear (y : Z) : Z :=
  365 * (y - 1970) + (y - 1969) / 4 - (y - 1901) / 100 + (y - 1601) / 400.

(** [YearFromTime] is specified as "the largest integer y such that
    TimeFromYear(y) <= t".  The executable form estimates the year from the
    mean length of a Gregorian year (146097 days in 400 years) and corrects
    the estimate by at most one; [YearFromDay_spec] below shows that it
    meets the specification. *)
Definition YearFromDay (d : Z) : Z :=
  let y0 := 1970 + (d * 400) / 146097 in
  if d <? DayFromYear y0 then y0 - 1
  else if DayFromYear (y0 + 1) <=? d then y0 + 1
  else y0.

Definition DayWithinYear (d : Z) : Z := d - DayFromYear (YearFromDay d).

(** The month and date tables of ECMA-262, on the day within the year [k]
    and the leap-year indicator [L]. *)
Definition monthOfYearDay (L k : Z) : Z :=
  if k <? 31 then 0
  else if k <? 59 + L then 1
  else if k <? 90 + L then 2
  else if k <? 120 + L then 3
  else if k <? 151 + L then 4
  else if k <? 181 + L then 5
  else if k <? 212 + L then 6
  else if k <? 243 + L then 7
  else if k <? 273 + L then 8
  else if k <? 304 + L then 9
  else if k <? 334 + L then 10
  else 11.

Definition monthStart (L m : Z) : Z :=
  match m with
  | 0 => 0
  | 1 => 31
  | 2 => 59 + L
  | 3 => 90 + L
  | 4 => 120 + L
  | 5 => 151 + L
  | 6 => 181 + L
  | 7 => 212 + L
  | 8 => 243 + L
  | 9 => 273 + L
  | 10 => 304 + L
  | _ => 334 + L
  end.

Definition leapDays (y : Z) : Z := if isLeapYear y then 1 else 0.

Definition MonthFromDay (d : Z) : Z :=
  monthOfYearDay (leapDays (YearFromDay d)) (DayWithinYear d).

Definition DateFromDay (d : Z) : Z :=
  let L := leapDays (YearFromDay d) in
  let k := DayWithinYear d in
  k - monthStart L (monthOfYearDay L k) + 1.

Definition DaysInMonth (y m : Z) : Z :=
  match m with
  | 1 => 28 + leapDays y
  | 3 | 5 | 8 | 10 => 30
  | _ => 31
  end.

(** [MakeDay year month date]: the day number of the first of the month
    [month mod 12] of the year [year + month / 12], moved by [date - 1]
    days.  A month index of 12 is January of the next year, a date of 0 the
    last day of the month before, a date past the end of the month a day of
    the month after. *)
Definition MakeDay (year month date : Z) : Z :=
  let ym := year + month / 12 in
  let mn := month mod 12 in
  DayFromYear ym + monthStart (leapDays ym) mn + date - 1.

(** ** Local time

    [LocalTZA(t, isUTC)] is the offset of local time from UTC in
    milliseconds: [tzaOfUTC] reads [t] as a UTC time value, [tzaOfLocal]
    reads it as a local one. *)
Record Zone : Type := mkZone {
  tzaOfUTC : Z -> Z;
  tzaOfLocal : Z -> Z
}.

Definition LocalTime (z : Zone) (t : Z) : Z := t + tzaOfUTC z t.
Definition UTC (z : Zone) (t : Z) : Z := t - tzaOfLocal z t.

(** A zone whose clocks never change: the offset is the same at all times. *)
Definition fixedZone (off : Z) : Zone := mkZone (fun _ => off) (fun _ => off).

Definition fixedOffset (z : Zone) (off : Z) : Prop :=
  forall t, tzaOfUTC z t = off /\ tzaOfLocal z t = off.

(** A zone in which every local midnight exists and is read back as a time
    of the same day.  Zones with a fixed offset are such, and so are zones
    that change their clocks at any other hour. *)
Definition keepsMidnights (z : Zone) : Prop :=
  forall d, Day (LocalTime z (UTC z (d * msPerDay))) = d.

Definition utc : Zone := fixedZone 0.

(** India Standard Time, UTC+05:30. *)
Definition ist : Zone := fixedZone 19800000.

(** America/New_York during 2025: daylight time (UTC-4) from 9 March 07:00
    UTC to 2 November 06:00 UTC, standard time (UTC-5) otherwise.  A local
    time that occurs twice or not at all is read with the offset in force
    before the change, as ECMA-262 prescribes. *)
Definition newYork2025 : Zone :=
  let est := -5 * msPerHour in
  let edt := -4 * msPerHour in
  mkZone
    (fun t =>
       if (MakeDay 2025 2 9 * msPerDay + 7 * msPerHour <=? t)
          && (t <? MakeDay 2025 10 2 * msPerDay + 6 * msPerHour)
       then edt else est)
    (fun t =>
       if (MakeDay 2025 2 9 * msPerDay + 3 * msPerHour <=? t)
          && (t <? MakeDay 2025 10 2 * msPerDay + 2 * msPerHour)
       then edt else est).

(** [new Date(year, month, date)]: the time value of local midnight.  A
    year from 0 to 99 stands for 1900 + year.  (The range check TimeClip,
    at 8.64e15 ms from the epoch, is left out.) *)
Definition newDate (z : Zone) (year month date : Z) : Z :=
  let yr := if (0 <=? year) && (year <=? 99) then 1900 + year else year in
  UTC z (MakeDay yr month date * msPerDay).

Definition getFullYear (z : Zone) (t : Z) : Z := YearFromDay (Day (LocalTime z t)).
Definition getMonth (z : Zone) (t : Z) : Z := MonthFromDay (Day (LocalTime z t)).
Definition getDate (z : Zone) (t : Z) : Z := DateFromDay (Day (LocalTime z t)).
Definition getTime (t : Z) : Z := t.

(** [Date.UTC]-style constructor of a time value, used to write instants in
    examples: year, month index, date, hours, minutes (UTC). *)
Definition instant (year month date hours minutes : Z) : Z :=
  MakeDay year month date * msPerDay + hours * msPerHour + minutes * 60000.

(** [Math.ceil(x / d)] for integers [x] and [d > 0]: the quotient of two
    integers below 2^53 is rounded to a double that is an integer only when
    the division is exact, so the ceiling is that of the exact quotient.
    (Where JavaScript yields -0 the model has 0; the two compare equal and
    print alike.) *)
Definition ceilDiv (x d : Z) : Z := - ((- x) / d).

End JsDate.

(* ===================================================================== *)
(** * frontend/src/components/SalaryReminder.tsx *)
(* ===================================================================== *)

Module SalaryReminder.
Import JsDate.

(** The value of the local variable [nextSalaryDate] when the difference is
    taken (line 47); [now] is the time value of [new Date()].  [salaryDay]
    is the stored day of the month, an integer column of the store. *)
Definition nextSalaryDate (z : Zone) (now : Z) (salaryDay : Z) : Z :=
  let today := now in
  let currentYear := getFullYear z today in
  let currentMonth := getMonth z today in
  let currentDay := getDate z today in
  let next := newDate z currentYear currentMonth salaryDay in
  let next :=
    if salaryDay <? currentDay
    then newDate z currentYear (currentMonth + 1) salaryDay
    else next in
  if (salaryDay =? 31) && negb (getDate z next =? 31)
  then newDate z currentYear (currentMonth + 1) 0
  else next.

Definition diffDays (z : Zone) (now : Z) (salaryDay : Z) : Z :=
  let diffTime := getTime (nextSalaryDate z now salaryDay) - getTime now in
  ceilDiv diffTime (1000 * 60 * 60 * 24).

(** [None] is the [null] result. *)
Definition calculateDaysRemaining (z : Zone) (now : Z) (salaryDay : Z) : option Z :=
  if (salaryDay <? 1) || (salaryDay >? 31) then None
  else
    let d := diffDays z now salaryDay in
    if d >=? 0 then Some d else None.

End SalaryReminder.

(* ===================================================================== *)
(** * JavaScript values, exceptions and logging *)
(* ===================================================================== *)

Module Js.

(** A value read from a JSON document or from an object field.  The value
    of a number is the rational its double denotes; arrays and nested
    objects are not looked into by the code below. *)
Inductive JsValue : Type :=
  | JUndefined
  | JNull
  | JBool (b : bool)
  | JNum (q : Q)
  | JStr (s : string)
  | JObject.

(** [!!v]: truthiness. *)
Definition truthy (v : JsValue) : bool :=
  match v with
  | JUndefined | JNull => false
  | JBool b => b
  | JNum q => negb (Qeq_bool q 0)
  | JStr s => negb (String.eqb s "")
  | JObject => true
  end.

Definition isNumber (v : JsValue) : bool :=
  match v with JNum _ => true | _ => false end.

(** Truthiness of a [string | undefined]. *)
Definition truthyStr (s : option string) : bool :=
  match s with
  | Some s => negb (String.eqb s "")
  | None => false
  end.

(** [s] with the character at index [i] replaced by [c]. *)
Fixpoint replaceAt (i : nat) (c : ascii) (s : string) : string :=
  match s, i with
  | EmptyString, _ => EmptyString
  | String _ rest, O => String c rest
  | String a rest, S k => String a (replaceAt k c rest)
  end.

(** [s.startsWith(p)] and [s.substring(n)]. *)
Definition startsWith (p s : string) : bool := String.prefix p s.
Definition substringFrom (n : nat) (s : string) : string :=
  String.substring n (String.length s - n) s.

(** Thrown values, by class. *)
Inductive Exn : Type :=
  | Error (message : string)
  | JsonWebTokenError (message : string)
  | TokenExpiredError (message : string)
  | NotBeforeError (message : string)
  | AppError (statusCode : Z) (message : string)
  | SqlError (code : string) (message : string).

Definition exnMessage (e : Exn) : string :=
  match e with
  | Error m | JsonWebTokenError m | TokenExpiredError m | NotBeforeError m => m
  | AppError _ m => m
  | SqlError _ m => m
  end.

(** The result of evaluating a call: a value, or an exception in flight. *)
Inductive Outcome (A : Type) : Type :=
  | Returned (a : A)
  | Thrown (e : Exn).
Arguments Returned {A} a.
Arguments Thrown {A} e.

Definition bind {A B : Type} (m : Outcome A) (k : A -> Outcome B) : Outcome B :=
  match m with
  | Returned a => k a
  | Thrown e => Thrown e
  end.

(** [try { body } catch (error) { handler }]. *)
Definition tryCatch {A : Type} (body : Outcome A) (handler : Exn -> Outcome A) : Outcome A :=
  match body with
  | Returned a => Returned a
  | Thrown e => handler e
  end.

(** [process.env]. *)
Abbreviation Env := (gmap string string).

(** A call of [logger.info / warn / error]. *)
Inductive LogLevel : Type := Info | Warn | LogError.

Record LogEntry : Type := mkLog {
  level : LogLevel;
  logMessage : string;
  logData : list (string * JsValue)
}.

End Js.

Notation "'let!' x ':=' m 'in' k" := (Js.bind m (fun x => k))
  (at level 10, x name, m at level 100, k at level 200).

(* ===================================================================== *)
(** * The jsonwebtoken package (HMAC algorithms, compact serialisation)

    The token is [header.payload.signature].  The three primitives the
    format is built from are parameters: the keyed hash of the JWA
    algorithm, and base64url(JSON) as an encoder and a decoder of objects.
    What the proofs use of them is collected in [JoseLaws].  [sign] and
    [verify] follow the order of the checks in the package; its messages
    are given without their quotation marks. *)
(* ===================================================================== *)

Module Jwt.
Import Js.

Abbreviation JsonObject := (gmap string JsValue).

Class Jose : Type := {
  (** [hmac alg key input]: the base64url signature segment. *)
  hmac : string -> string -> string -> string;
  (** base64url(JSON.stringify(object)). *)
  encodeJson : JsonObject -> string;
  (** JSON.parse(base64url-decode(segment)), when that is an object. *)
  decodeJson : string -> option JsonObject;
  (** The [ms] package: a time span such as ["7d"] in milliseconds. *)
  ms : string -> option Z
}.

Fixpoint dotFree (s : string) : bool :=
  match s with
  | EmptyString => true
  | String c rest => negb (Ascii.eqb c "."%char) && dotFree rest
  end.

Record JoseLaws (J : Jose) : Prop := {
  decode_encode : forall o, decodeJson (encodeJson o) = Some o;
  encode_dotFree : forall o, dotFree (encodeJson o) = true;
  hmac_dotFree : forall alg key input, dotFree (hmac alg key input) = true;
  hmac_nonempty : forall alg key input, hmac alg key input <> ""
}.

(** [s.split('.')]. *)
Fixpoint splitDot (s : string) : list string :=
  match s with
  | EmptyString => [EmptyString]
  | String c rest =>
      if Ascii.eqb c "."%char then EmptyString :: splitDot rest
      else match splitDot rest with
           | x :: xs => String c x :: xs
           | [] => [String c EmptyString]
           end
  end.

Section WithJose.
Context {J : Jose}.

Definition hmacAlgorithms : list string := ["HS256"; "HS384"; "HS512"].

Definition joseHeader (alg : string) : JsonObject :=
  {[ "alg" := JStr alg; "typ" := JStr "JWT" ]}.

(** [jws.sign]: the compact serialisation. *)
Definition signingInput (header payload : JsonObject) : string :=
  encodeJson header ++ "." ++ encodeJson payload.

Definition compact (header payload : JsonObject) (secret : string) (alg : string) : string :=
  signingInput header payload ++ "." ++ hmac alg secret (signingInput header payload).

(** The payload with the registered claims [iat] and [exp], in seconds. *)
Definition stamp (payload : JsonObject) (iat exp : Z) : JsonObject :=
  <[ "exp" := JNum (inject_Z exp) ]> (<[ "iat" := JNum (inject_Z iat) ]> payload).

(** [jwt.sign(payload, secret, { expiresIn })] at the time [nowMs]. *)
Definition sign (payload : JsonObject) (secret : string) (expiresIn : string)
    (nowMs : Z) : Outcome string :=
  let timestamp := nowMs / 1000 in
  if String.eqb expiresIn ""
  then Thrown (Error "expiresIn should be a number of seconds or string representing a timespan")
  else
    match ms expiresIn with
    | None =>
        Thrown (Error "expiresIn should be a number of seconds or string representing a timespan eg: 1d, 20h, 60")
    | Some span =>
        let exp := timestamp + span / 1000 in
        Returned (compact (joseHeader "HS256") (stamp payload timestamp exp) secret "HS256")
    end.

(** What [jwt.verify] returns: the payload object, or the payload segment
    when it does not hold an object. *)
Inductive Decoded : Type :=
  | DecodedObject (o : JsonObject)
  | DecodedString (s : string).

Definition checkTimes (o : JsonObject) (clock : Z) : Outcome Decoded :=
  match o !! "nbf" with
  | Some (JNum nbf) =>
      if Qle_bool nbf (inject_Z clock) then
        match o !! "exp" with
        | Some (JNum exp) =>
            if Qle_bool exp (inject_Z clock)
            then Thrown (TokenExpiredError "jwt expired")
            else Returned (DecodedObject o)
        | Some _ => Thrown (JsonWebTokenError "invalid exp value")
        | None => Returned (DecodedObject o)
        end
      else Thrown (NotBeforeError "jwt not active")
  | Some _ => Thrown (JsonWebTokenError "invalid nbf value")
  | None =>
      match o !! "exp" with
      | Some (JNum exp) =>
          if Qle_bool exp (inject_Z clock)
          then Thrown (TokenExpiredError "jwt expired")
          else Returned (DecodedObject o)
      | Some _ => Thrown (JsonWebTokenError "invalid exp value")
      | None => Returned (DecodedObject o)
      end
  end.

(** [jwt.verify(token, secret)] with a secret key and no options. *)
Definition verify (token secret : string) (nowMs : Z) : Outcome Decoded :=
  let clock := nowMs / 1000 in
  if String.eqb token "" then Thrown (JsonWebTokenError "jwt must be provided")
  else
    match splitDot token with
    | [h; p; s] =>
        match decodeJson h with
        | None => Thrown (JsonWebTokenError "invalid token")
        | Some header =>
            if String.eqb s "" then Thrown (JsonWebTokenError "jwt signature is required")
            else if String.eqb secret ""
            then Thrown (JsonWebTokenError "secret or public key must be provided")
            else
              match header !! "alg" with
              | Some (JStr alg) =>
                  if negb (existsb (String.eqb alg) hmacAlgorithms)
                  then Thrown (JsonWebTokenError "invalid algorithm")
                  else if negb (String.eqb s (hmac alg secret (h ++ "." ++ p)))
                  then Thrown (JsonWebTokenError "invalid signature")
                  else
                    match decodeJson p with
                    | Some o => checkTimes o clock
                    | None => Returned (DecodedString p)
                    end
              | _ => Thrown (JsonWebTokenError "invalid algorithm")
              end
        end
    | _ => Thrown (JsonWebTokenError "jwt malformed")
    end.

End WithJose.
End Jwt.

(* ===================================================================== *)
(** * backend/src/utils/auth.ts *)
(* ===================================================================== *)

Module AuthUtils.
Import Js Jwt.

(** The payload at its declared type [{ userId: string; email: string }].
    The cast in [verifyToken] checks nothing, so the fields hold whatever
    the payload holds. *)
Record Identity : Type := mkIdentity {
  userId : JsValue;
  email : JsValue
}.

Definition getJWTSecret (env : Env) : Outcome string :=
  match env !! "JWT_SECRET" with
  | Some secret =>
      if String.eqb secret ""
      then Thrown (Error "JWT_SECRET environment variable is required. Please set it in your .env file.")
      else Returned secret
  | None =>
      Thrown (Error "JWT_SECRET environment variable is required. Please set it in your .env file.")
  end.

Definition JWT_EXPIRES_IN (env : Env) : string :=
  match env !! "JWT_EXPIRES_IN" with
  | Some v => if String.eqb v "" then "7d" else v
  | None => "7d"
  end.

Section WithJose.
Context {J : Jose}.

Definition identityPayload (userId email : string) : JsonObject :=
  {[ "userId" := JStr userId; "email" := JStr email ]}.

Definition generateToken (env : Env) (nowMs : Z) (userId email : string) : Outcome string :=
  let! secret := getJWTSecret env in
  sign (identityPayload userId email) secret (JWT_EXPIRES_IN env) nowMs.

(** [Returned None] is the [null] result. *)
Definition verifyToken (env : Env) (nowMs : Z) (token : string) : Outcome (option Identity) :=
  tryCatch
    (let! secret := getJWTSecret env in
     let! decoded := verify token secret nowMs in
     match decoded with
     | DecodedObject o =>
         match o !! "userId", o !! "email" with
         | Some u, Some e => Returned (Some (mkIdentity u e))
         | _, _ => Returned None
         end
     | DecodedString _ => Returned None
     end)
    (fun _ => Returned None).

End WithJose.
End AuthUtils.

(* ===================================================================== *)
(** * HTTP requests and responses (express) *)
(* ===================================================================== *)

Module Http.
Import Js.

(** [AuthRequest]: the request, with the fields [authenticate] attaches. *)
Record Request : Type := mkRequest {
  authorization : option string;          (* req.headers.authorization *)
  cookies : option (gmap string string);  (* req.cookies *)
  body : gmap string JsValue;             (* req.body *)
  ip : string;
  path : string;
  reqUserId : option JsValue;             (* req.userId *)
  reqUserEmail : option JsValue           (* req.userEmail *)
}.

(** The [data] of a response: nothing, the four fields of a salary
    reminder, or the token and user of a login. *)
Inductive ResponseData : Type :=
  | DataNone
  | DataReminder (id salaryDate createdAt updatedAt : JsValue)
  | DataLogin (token : string) (id name email : string).

(** [res.status(status).json({ success, data, message, error })]. *)
Record Response : Type := mkResponse {
  status : Z;
  success : bool;
  data : ResponseData;
  message : option string;
  error : option string
}.

Definition failure (status : Z) (error : string) : Response :=
  mkResponse status false DataNone None (Some error).

End Http.

(* ===================================================================== *)
(** * backend/src/middleware/auth.ts *)
(* ===================================================================== *)

Module AuthMiddleware.
Import Js Jwt AuthUtils Http.

(** The middleware either answers the request or calls [next()] with the
    request it has extended. *)
Inductive Result : Type :=
  | Respond (r : Response)
  | Next (req : Request).

(** [req.cookies?.authToken] *)
Definition cookieAuthToken (req : Request) : option string :=
  match cookies req with
  | Some jar => jar !! "authToken"
  | None => None
  end.

(** The variable [token] after lines 30-39. *)
Definition requestToken (req : Request) : option string :=
  match authorization req with
  | Some authHeader =>
      if negb (String.eqb authHeader "") && startsWith "Bearer " authHeader
      then Some (substringFrom 7 authHeader)
      else cookieAuthToken req
  | None => cookieAuthToken req
  end.

Section WithJose.
Context {J : Jose}.

Definition authenticate (env : Env) (nowMs : Z) (req : Request)
    : Result * list LogEntry :=
  let attempt : Outcome (Result * list LogEntry) :=
    match requestToken req with
    | Some token =>
        if String.eqb token ""
        then Returned (Respond (failure 401 "No token provided. Please login first."), [])
        else
          let! decoded := verifyToken env nowMs token in
          match decoded with
          | None =>
              Returned
                (Respond (failure 401 "Invalid or expired token. Please login again."),
                 [mkLog Warn "Invalid token attempt"
                    [("ip", JStr (ip req)); ("path", JStr (path req))]])
          | Some ident =>
              Returned
                (Next (mkRequest (authorization req) (cookies req) (body req)
                         (ip req) (path req)
                         (Some (userId ident)) (Some (email ident))),
                 [])
          end
    | None =>
        Returned (Respond (failure 401 "No token provided. Please login first."), [])
    end in
  match attempt with
  | Returned r => r
  | Thrown e =>
      (Respond (failure 401 "Authentication failed"),
       [mkLog LogError "Authentication error"
          [("error", JStr (exnMessage e)); ("ip", JStr (ip req)); ("path", JStr (path req))]])
  end.

End WithJose.
End AuthMiddleware.

(* ===================================================================== *)
(** * backend/src/routes/auth.ts, GET /auth/me: the token lookup *)
(* ===================================================================== *)

Module AuthRoutes.
Import Js Http AuthMiddleware.

(** The variable [token] after lines 266-278. *)
Definition meToken (req : Request) : option string :=
  let token :=
    match authorization req with
    | Some authHeader =>
        if negb (String.eqb authHeader "") && startsWith "Bearer " authHeader
        then Some (substringFrom 7 authHeader)
        else None
    | None => None
    end in
  if negb (truthyStr token) && truthyStr (cookieAuthToken req)
  then cookieAuthToken req
  else token.

End AuthRoutes.

(* ===================================================================== *)
(** * An instance of the token primitives that computes

    A self-delimiting binary rendering of objects stands for
    base64url(JSON), and a rendering of algorithm, key and input for the
    keyed hash.  It serves to run the functions on examples; no security is
    claimed for it. *)
(* ===================================================================== *)

Module ToyJose.
Import Js Jwt.

Definition bit (b : bool) : ascii := if b then "1"%char else "0"%char.

Definition unbit (c : ascii) : option bool :=
  if Ascii.eqb c "1" then Some true
  else if Ascii.eqb c "0" then Some false
  else None.

Definition encAscii (a : ascii) (rest : string) : string :=
  let 'Ascii b0 b1 b2 b3 b4 b5 b6 b7 := a in
  String (bit b0) (String (bit b1) (String (bit b2) (String (bit b3)
    (String (bit b4) (String (bit b5) (String (bit b6) (String (bit b7) rest))))))).

Definition decAscii (s : string) : option (ascii * string) :=
  match s with
  | String c0 (String c1 (String c2 (String c3
      (String c4 (String c5 (String c6 (String c7 rest))))))) =>
      match unbit c0, unbit c1, unbit c2, unbit c3,
            unbit c4, unbit c5, unbit c6, unbit c7 with
      | Some b0, Some b1, Some b2, Some b3, Some b4, Some b5, Some b6, Some b7 =>
          Some (Ascii b0 b1 b2 b3 b4 b5 b6 b7, rest)
      | _, _, _, _, _, _, _, _ => None
      end
  | _ => None
  end.

(** Every rendering takes the text that follows it as an argument. *)
Fixpoint encCount (n : nat) (rest : string) : string :=
  match n with
  | O => String "o" rest
  | S k => String "i" (encCount k rest)
  end.

Fixpoint decCount (s : string) : option (nat * string) :=
  match s with
  | String c r =>
      if Ascii.eqb c "o" then Some (O, r)
      else if Ascii.eqb c "i" then
        match decCount r with
        | Some (n, r') => Some (S n, r')
        | None => None
        end
      else None
  | EmptyString => None
  end.

Fixpoint encChars (s : string) (rest : string) : string :=
  match s with
  | EmptyString => rest
  | String a r => encAscii a (encChars r rest)
  end.

Fixpoint decChars (n : nat) (s : string) : option (string * string) :=
  match n with
  | O => Some (EmptyString, s)
  | S k =>
      match decAscii s with
      | Some (a, r) =>
          match decChars k r with
          | Some (t, r') => Some (String a t, r')
          | None => None
          end
      | None => None
      end
  end.

Definition encString (s : string) (rest : string) : string :=
  encCount (String.length s) (encChars s rest).

Definition decString (s : string) : option (string * string) :=
  match decCount s with
  | Some (n, r) => decChars n r
  | None => None
  end.

Fixpoint encPositive (p : positive) (rest : string) : string :=
  match p with
  | xI q => String "I" (encPositive q rest)
  | xO q => String "O" (encPositive q rest)
  | xH => String "H" rest
  end.

Fixpoint decPositive (s : string) : option (positive * string) :=
  match s with
  | String c r =>
      if Ascii.eqb c "H" then Some (xH, r)
      else if Ascii.eqb c "I" then
        match decPositive r with
        | Some (p, r') => Some (xI p, r')
        | None => None
        end
      else if Ascii.eqb c "O" then
        match decPositive r with
        | Some (p, r') => Some (xO p, r')
        | None => None
        end
      else None
  | EmptyString => None
  end.

Definition encZ (z : Z) (rest : string) : string :=
  match z with
  | Z0 => String "z" rest
  | Zpos p => String "p" (encPositive p rest)
  | Zneg p => String "n" (encPositive p rest)
  end.

Definition decZ (s : string) : option (Z * string) :=
  match s with
  | String c r =>
      if Ascii.eqb c "z" then Some (Z0, r)
      else if Ascii.eqb c "p" then
        match decPositive r with
        | Some (p, r') => Some (Zpos p, r')
        | None => None
        end
      else if Ascii.eqb c "n" then
        match decPositive r with
        | Some (p, r') => Some (Zneg p, r')
        | None => None
        end
      else None
  | EmptyString => None
  end.

Definition encValue (v : JsValue) (rest : string) : string :=
  match v with
  | JUndefined => String "U" rest
  | JNull => String "N" rest
  | JBool b => String "B" (String (bit b) rest)
  | JNum q => String "Q" (encZ (Qnum q) (encPositive (Qden q) rest))
  | JStr s => String "S" (encString s rest)
  | JObject => String "X" rest
  end.

Definition decValue (s : string) : option (JsValue * string) :=
  match s with
  | String c r =>
      if Ascii.eqb c "U" then Some (JUndefined, r)
      else if Ascii.eqb c "N" then Some (JNull, r)
      else if Ascii.eqb c "X" then Some (JObject, r)
      else if Ascii.eqb c "B" then
        match r with
        | String d r' =>
            match unbit d with
            | Some b => Some (JBool b, r')
            | None => None
            end
        | EmptyString => None
        end
      else if Ascii.eqb c "Q" then
        match decZ r with
        | Some (n, r') =>
            match decPositive r' with
            | Some (d, r'') => Some (JNum (Qmake n d), r'')
            | None => None
            end
        | None => None
        end
      else if Ascii.eqb c "S" then
        match decString r with
        | Some (t, r') => Some (JStr t, r')
        | None => None
        end
      else None
  | EmptyString => None
  end.

Fixpoint encFields (l : list (string * JsValue)) (rest : string) : string :=
  match l with
  | [] => rest
  | (k, v) :: tl => encString k (encValue v (encFields tl rest))
  end.

Fixpoint decFields (n : nat) (s : string) : option (list (string * JsValue) * string) :=
  match n with
  | O => Some ([], s)
  | S k =>
      match decString s with
      | Some (key, r) =>
          match decValue r with
          | Some (v, r') =>
              match decFields k r' with
              | Some (tl, r'') => Some ((key, v) :: tl, r'')
              | None => None
              end
          | None => None
          end
      | None => None
      end
  end.

Definition toyEncodeJson (o : JsonObject) : string :=
  let l := map_to_list o in
  encCount (List.length l) (encFields l EmptyString).

Definition toyDecodeJson (s : string) : option JsonObject :=
  match decCount s with
  | Some (n, r) =>
      match decFields n r with
      | Some (l, EmptyString) => Some (list_to_map l)
      | _ => None
      end
  | None => None
  end.

Definition toyHmac (alg key input : string) : string :=
  String "m" (encString alg (encString key (encString input EmptyString))).

Definition toyMs (span : string) : option Z :=
  if String.eqb span "7d" then Some 604800000
  else if String.eqb span "1h" then Some 3600000
  else None.

Definition toy : Jose :=
  {| hmac := toyHmac; encodeJson := toyEncodeJson;
     decodeJson := toyDecodeJson; ms := toyMs |}.

End ToyJose.
(* ===================================================================== *)
(** * backend/src/utils/sanitize.ts

    A string is the sequence of its code units; the characters of [string]
    stand for the code units below 256, so the functions are modelled on
    the strings made of those. *)
(* ===================================================================== *)

Module Sanitize.
Import Js.

Definition codeUnit (c : ascii) : N := N_of_ascii c.

(** The class [[\x00-\x1F\x7F]]. *)
Definition isControl (c : ascii) : bool :=
  (codeUnit c <=? 31)%N || (codeUnit c =? 127)%N.

(** The pattern [\0]. *)
Definition isNul (c : ascii) : bool := (codeUnit c =? 0)%N.

(** WhiteSpace and LineTerminator of ECMA-262 below 256: TAB, LF, VT, FF,
    CR, SP and NBSP.  It is what [trim] strips and what [\s] matches. *)
Definition isWhiteSpace (c : ascii) : bool :=
  ((9 <=? codeUnit c) && (codeUnit c <=? 13))%N
  || (codeUnit c =? 32)%N || (codeUnit c =? 160)%N.

(** [s.replace(/p/g, '')] for a pattern [p] of one character. *)
Fixpoint removeAll (p : ascii -> bool) (s : string) : string :=
  match s with
  | EmptyString => EmptyString
  | String c rest => if p c then removeAll p rest else String c (removeAll p rest)
  end.

Fixpoint trimStart (s : string) : string :=
  match s with
  | EmptyString => EmptyString
  | String c rest => if isWhiteSpace c then trimStart rest else s
  end.

Fixpoint trimEnd (s : string) : string :=
  match s with
  | EmptyString => EmptyString
  | String c rest =>
      match trimEnd rest with
      | EmptyString => if isWhiteSpace c then EmptyString else String c EmptyString
      | kept => String c kept
      end
  end.

Definition trim (s : string) : string := trimEnd (trimStart s).

(** Lines 11-21.  The argument is whatever the caller passes. *)
Definition sanitizeString (input : JsValue) : string :=
  match input with
  | JStr s => trim (removeAll isControl (removeAll isNul s))
  | _ => EmptyString
  end.

(** [toLowerCase] on strings of code units below 256.  There the Unicode
    conversion is a map on single characters: the letters A-Z and the
    capital letters of the Latin-1 supplement (all of 0xC0-0xDE but the
    multiplication sign) move up by 32.  Beyond these strings it is not (a
    capital sigma is lowered by its place in the word), and nothing below
    speaks of them. *)
Definition toLowerCaseChar (c : ascii) : ascii :=
  if (((65 <=? codeUnit c) && (codeUnit c <=? 90))
      || ((192 <=? codeUnit c) && (codeUnit c <=? 222) && negb (codeUnit c =? 215)))%N
  then ascii_of_N (codeUnit c + 32)
  else c.

Fixpoint toLowerCase (s : string) : string :=
  match s with
  | EmptyString => EmptyString
  | String c rest => String (toLowerCaseChar c) (toLowerCase rest)
  end.

(** The class [[^\s@]]. *)
Definition plain (c : ascii) : bool :=
  negb (isWhiteSpace c) && negb (Ascii.eqb c "@"%char).

(** A matcher for [x+ k]: one or more characters of the class, then what
    [k] matches, every split tried. *)
Fixpoint plus (class : ascii -> bool) (k : string -> bool) (s : string) : bool :=
  match s with
  | EmptyString => false
  | String c rest => class c && (k rest || plus class k rest)
  end.

(** A matcher for one literal character, then [k]. *)
Definition lit (a : ascii) (k : string -> bool) (s : string) : bool :=
  match s with
  | EmptyString => false
  | String c rest => Ascii.eqb c a && k rest
  end.

(** [$]. *)
Definition atEnd (s : string) : bool :=
  match s with
  | EmptyString => true
  | String _ _ => false
  end.

(** [/^[^\s@]+@[^\s@]+\.[^\s@]+$/.test(s)], line 47. *)
Definition emailRegex (s : string) : bool :=
  plus plain (lit "@"%char (plus plain (lit "."%char (plus plain atEnd)))) s.

(** Lines 44-49. *)
Definition sanitizeEmail (email : JsValue) : string :=
  let sanitized := sanitizeString email in
  if emailRegex sanitized then toLowerCase sanitized else EmptyString.

(** What the properties below talk about. *)
Fixpoint allChars (p : ascii -> bool) (s : string) : bool :=
  match s with
  | EmptyString => true
  | String c rest => p c && allChars p rest
  end.

Fixpoint count (a : ascii) (s : string) : nat :=
  match s with
  | EmptyString => O
  | String c rest => (if Ascii.eqb c a then 1 else 0) + count a rest
  end.

Definition firstChar (s : string) : option ascii :=
  match s with
  | EmptyString => None
  | String c _ => Some c
  end.

Fixpoint lastChar (s : string) : option ascii :=
  match s with
  | EmptyString => None
  | String c EmptyString => Some c
  | String _ rest => lastChar rest
  end.

Definition whiteOpt (c : option ascii) : bool :=
  match c with
  | Some c => isWhiteSpace c
  | None => false
  end.

End Sanitize.

(* ===================================================================== *)
(** * backend/src/config/env.ts *)
(* ===================================================================== *)

Module Config.
Import Js.

(** [!!process.env[key]] *)
Definition isSet (env : Env) (key : string) : bool := truthyStr (env !! key).

Definition isProduction (env : Env) : bool :=
  match env !! "NODE_ENV" with
  | Some v => String.eqb v "production"
  | None => false
  end.

Definition newline : string := String (ascii_of_N 10) EmptyString.

(** [validateEnv]: it returns after having written the given warnings to
    the console, or throws.  (The warning is given without its sign.) *)
Definition validateEnv (env : Env) : Outcome (list string) :=
  let required := if isProduction env then ["JWT_SECRET"] else [] in
  let warned :=
    if isProduction env then []
    else if negb (isSet env "JWT_SECRET")
    then ["WARNING: JWT_SECRET not set. Using default (INSECURE - only for development)"]
    else [] in
  let missing := List.filter (fun key => negb (isSet env key)) required in
  if 0 <? Z.of_nat (List.length missing)
  then Thrown (Error ("Missing required environment variables: "
                      ++ String.concat ", " missing ++ newline
                      ++ "Please set them in your .env file or environment."))
  else Returned warned.

(** [process.env[key] || defaultValue] *)
Definition getEnv (env : Env) (key defaultValue : string) : string :=
  match env !! key with
  | Some v => if String.eqb v "" then defaultValue else v
  | None => defaultValue
  end.

Definition getRequiredEnv (env : Env) (key : string) : Outcome string :=
  match env !! key with
  | Some v =>
      if String.eqb v ""
      then Thrown (Error ("Required environment variable " ++ key ++ " is not set"))
      else Returned v
  | None => Thrown (Error ("Required environment variable " ++ key ++ " is not set"))
  end.

End Config.

(* ===================================================================== *)
(** * frontend/src/components/SalaryReminder.tsx: the component *)
(* ===================================================================== *)

Module SalaryView.
Import Js Sanitize.

Definition digit (c : ascii) : option Z :=
  let n := Z.of_N (codeUnit c) in
  if (48 <=? n) && (n <=? 57) then Some (n - 48) else None.

(** The value of the longest prefix of decimal digits of [s], read after
    the digits whose value is [acc]; [None] when there is no digit. *)
Fixpoint digits (acc : option Z) (s : string) : option Z :=
  match s with
  | EmptyString => acc
  | String c rest =>
      match digit c with
      | Some d => digits (Some (10 * default 0 acc + d)) rest
      | None => acc
      end
  end.

(** [parseInt(s, 10)]; [None] is NaN.  The result is the integer the
    digits denote; the double JavaScript rounds it to is the same number up
    to 2^53 and compares with 1 and 31 as the integer does. *)
Definition parseInt (s : string) : option Z :=
  match trimStart s with
  | String c rest =>
      if Ascii.eqb c "-"%char then option_map Z.opp (digits None rest)
      else if Ascii.eqb c "+"%char then digits None rest
      else digits None (String c rest)
  | EmptyString => None
  end.

(** What [handleSave] does with the text of the input field. *)
Inductive SaveAction : Type :=
  | ToastError (message : string)
  | SetSalaryReminder (day : Z).

(** Lines 96-106. *)
Definition handleSave (salaryDate : string) : SaveAction :=
  match parseInt salaryDate with
  | None => ToastError "Please enter a valid day (1-31)"
  | Some day =>
      if (day <? 1) || (day >? 31)
      then ToastError "Please enter a valid day (1-31)"
      else SetSalaryReminder day
  end.

(** The body [setSalaryReminder(day)] posts: [JSON.stringify({ salaryDate })]. *)
Definition salaryBody (day : Z) : gmap string JsValue :=
  {[ "salaryDate" := JNum (inject_Z day) ]}.

(** Lines 230-236. *)
Definition ordinalSuffix (salaryDate : Z) : string :=
  if (salaryDate =? 1) || (salaryDate =? 21) || (salaryDate =? 31) then "st"
  else if (salaryDate =? 2) || (salaryDate =? 22) then "nd"
  else if (salaryDate =? 3) || (salaryDate =? 23) then "rd"
  else "th".

End SalaryView.

(* ===================================================================== *)
(** * The relational store (MySQL through mysql2)

    The tables [users] and [salary_reminders] of [initializeSchema] with
    their constraints, and the statements the routes send. *)
(* ===================================================================== *)

Module Db.
Import Js.

Record UserRow : Type := mkUser {
  user_id : string;          (* VARCHAR(36) PRIMARY KEY *)
  user_name : string;
  user_email : string;       (* VARCHAR(255) NOT NULL UNIQUE *)
  user_password : string;
  user_createdAt : Z
}.

Record ReminderRow : Type := mkReminder {
  rem_id : string;           (* VARCHAR(36) PRIMARY KEY *)
  rem_userId : string;       (* NOT NULL UNIQUE, REFERENCES users(id) *)
  rem_salaryDate : Z;        (* INT, CHECK (1 <= salaryDate <= 31) *)
  rem_createdAt : Z;
  rem_updatedAt : Z
}.

Record Database : Type := mkDatabase {
  users : list UserRow;
  salary_reminders : list ReminderRow
}.

(** A result row, or a result header, as mysql2 hands it over: an object. *)
Abbreviation Row := (gmap string JsValue).

(** The first component of what [connection.query] resolves to: an array
    of rows for a SELECT, a [ResultSetHeader] for a statement that writes. *)
Inductive RawResult : Type :=
  | RawRows (rows : list Row)
  | RawHeader (affected : Z).

Inductive Statement : Type :=
  | SelectReminderByUser (userId : JsValue)
  | SelectReminderIdByUser (userId : JsValue)
  | SelectReminderById (id : string)
  | UpdateReminder (salaryDate userId : JsValue)
  | InsertReminder (id : string) (userId salaryDate : JsValue)
  | DeleteReminder (userId : JsValue).

(** [column = ?] for a string column. *)
Definition matches (param : JsValue) (column : string) : bool :=
  match param with
  | JStr s => String.eqb s column
  | _ => false
  end.

(** A number assigned to an INT column is rounded to the nearest integer,
    halves away from zero. *)
Definition roundToInt (q : Q) : Z :=
  if Qle_bool 0 q then Qfloor (q + (1 # 2)) else - Qfloor (- q + (1 # 2)).

Definition reminderRow (r : ReminderRow) : Row :=
  {[ "id" := JStr (rem_id r);
     "salaryDate" := JNum (inject_Z (rem_salaryDate r));
     "createdAt" := JNum (inject_Z (rem_createdAt r));
     "updatedAt" := JNum (inject_Z (rem_updatedAt r)) ]}.

Definition reminderIdRow (r : ReminderRow) : Row :=
  {[ "id" := JStr (rem_id r) ]}.

Definition ownedBy (userId : JsValue) (r : ReminderRow) : bool :=
  matches userId (rem_userId r).

Definition withReminders (db : Database) (l : list ReminderRow) : Database :=
  mkDatabase (users db) l.

(** [run now statement db]: the result of the statement, or the error the
    server raises, and the database after it; [now] is CURRENT_TIMESTAMP. *)
Definition run (now : Z) (st : Statement) (db : Database) : Outcome RawResult * Database :=
  match st with
  | SelectReminderByUser u =>
      (Returned (RawRows (map reminderRow (List.filter (ownedBy u) (salary_reminders db)))), db)
  | SelectReminderIdByUser u =>
      (Returned (RawRows (map reminderIdRow (List.filter (ownedBy u) (salary_reminders db)))), db)
  | SelectReminderById id =>
      (Returned (RawRows (map reminderRow
         (List.filter (fun r => String.eqb id (rem_id r)) (salary_reminders db)))), db)
  | UpdateReminder v u =>
      let hit := List.filter (ownedBy u) (salary_reminders db) in
      match hit, v with
      | [], _ => (Returned (RawHeader 0), db)
      | _ :: _, JNum q =>
          let d := roundToInt q in
          if (1 <=? d) && (d <=? 31)
          then (Returned (RawHeader (Z.of_nat (List.length hit))),
                withReminders db
                  (map (fun r => if ownedBy u r
                                 then mkReminder (rem_id r) (rem_userId r) d (rem_createdAt r) now
                                 else r)
                       (salary_reminders db)))
          else (Thrown (SqlError "ER_CHECK_CONSTRAINT_VIOLATED" "Check constraint is violated."), db)
      | _ :: _, _ =>
          (Thrown (SqlError "ER_TRUNCATED_WRONG_VALUE_FOR_FIELD" "Incorrect integer value"), db)
      end
  | InsertReminder id u v =>
      match u, v with
      | JStr uid, JNum q =>
          let d := roundToInt q in
          if existsb (fun r => String.eqb id (rem_id r) || String.eqb uid (rem_userId r))
               (salary_reminders db)
          then (Thrown (SqlError "ER_DUP_ENTRY" "Duplicate entry"), db)
          else if negb (existsb (fun x => String.eqb uid (user_id x)) (users db))
          then (Thrown (SqlError "ER_NO_REFERENCED_ROW_2" "a foreign key constraint fails"), db)
          else if (1 <=? d) && (d <=? 31)
          then (Returned (RawHeader 1),
                withReminders db (salary_reminders db ++ [mkReminder id uid d now now]))
          else (Thrown (SqlError "ER_CHECK_CONSTRAINT_VIOLATED" "Check constraint is violated."), db)
      | _, _ =>
          (Thrown (SqlError "ER_TRUNCATED_WRONG_VALUE_FOR_FIELD" "Incorrect value"), db)
      end
  | DeleteReminder u =>
      let hit := List.filter (ownedBy u) (salary_reminders db) in
      (Returned (RawHeader (Z.of_nat (List.length hit))),
       withReminders db (List.filter (fun r => negb (ownedBy u r)) (salary_reminders db)))
  end.

End Db.

(* ===================================================================== *)
(** * backend/src/db.ts: [executeQuery], and the effects of a handler *)
(* ===================================================================== *)

Module DbWrapper.
Import Js Db.

(** What a handler acts on: the database, the statements sent so far and
    the calls of the logger so far. *)
Record World : Type := mkWorld {
  database : Database;
  trace : list Statement;
  logs : list LogEntry
}.

Definition M (A : Type) : Type := World -> Outcome A * World.

Definition ret {A : Type} (a : A) : M A := fun w => (Returned a, w).
Definition throw {A : Type} (e : Exn) : M A := fun w => (Thrown e, w).

Definition mbind {A B : Type} (m : M A) (k : A -> M B) : M B :=
  fun w =>
    match m w with
    | (Returned a, w') => k a w'
    | (Thrown e, w') => (Thrown e, w')
    end.

Definition catch {A : Type} (body : M A) (handler : Exn -> M A) : M A :=
  fun w =>
    match body w with
    | (Returned a, w') => (Returned a, w')
    | (Thrown e, w') => handler e w'
    end.

Definition logCall (l : LogLevel) (msg : string) (data : list (string * JsValue)) : M unit :=
  fun w => (Returned tt, mkWorld (database w) (trace w) (logs w ++ [mkLog l msg data])).

(** The object [executeQuery] returns. *)
Record QueryResult : Type := mkQueryResult {
  rows : list Row;
  rowCount : Z;
  affectedRows : Z
}.

(** The header seen as an object, where the wrapper puts it in [rows]. *)
Definition headerRow (affected : Z) : Row :=
  {[ "affectedRows" := JNum (inject_Z affected) ]}.

(** Lines 235-240.  [result] is an array or a header object, so it is
    truthy; [result?.affectedRows] is undefined on an array, and [a || b]
    is [b] when [a] is undefined or 0. *)
Definition wrap (result : RawResult) : QueryResult :=
  match result with
  | RawRows l =>
      mkQueryResult l (Z.of_nat (List.length l)) (Z.of_nat (List.length l))
  | RawHeader affected =>
      mkQueryResult [headerRow affected] 1 (if affected =? 0 then 1 else affected)
  end.

Definition executeQuery (now : Z) (st : Statement) : M QueryResult :=
  fun w =>
    let '(result, db') := run now st (database w) in
    let w' := mkWorld db' (trace w ++ [st]) (logs w) in
    match result with
    | Returned raw => (Returned (wrap raw), w')
    | Thrown e => (Thrown e, w')
    end.

(** What a handler sends is added to the end of the trace. *)
Definition extends {A : Type} (m : M A) : Prop :=
  forall w, exists l, trace (snd (m w)) = trace w ++ l.

End DbWrapper.

Notation "'do!' x ':=' m 'in' k" := (DbWrapper.mbind m (fun x => k))
  (at level 10, x name, m at level 100, k at level 200).

(* ===================================================================== *)
(** * backend/src/routes/salary.ts *)
(* ===================================================================== *)

Module SalaryRoutes.
Import Js Http Db DbWrapper.

Definition field (r : Row) (k : string) : JsValue := default JUndefined (r !! k).

Definition truthyOpt (v : option JsValue) : bool :=
  match v with
  | Some v => truthy v
  | None => false
  end.

Definition orUndefined (v : option JsValue) : JsValue := default JUndefined v.

(** Lines 87-102: the answer that turns the request down, if any. *)
Definition rejectSalaryDate (salaryDate : JsValue) : option Response :=
  if negb (truthy salaryDate) || negb (isNumber salaryDate)
  then Some (failure 400 "Salary date is required and must be a number (day of month, 1-31)")
  else
    match salaryDate with
    | JNum q =>
        if negb (Qle_bool 1 q) || negb (Qle_bool q 31)
        then Some (failure 400 "Salary date must be between 1 and 31")
        else None
    | _ => None
    end.

(** [rows[0]], whose fields are then read. *)
Definition firstRow (l : list Row) : M Row :=
  match l with
  | r :: _ => ret r
  | [] => throw (Error "Cannot read properties of undefined")
  end.

Definition reminderData (r : Row) : ResponseData :=
  DataReminder (field r "id") (field r "salaryDate") (field r "createdAt") (field r "updatedAt").

(** Lines 111-145: the user has a reminder. *)
Definition updateExisting (now : Z) (userId salaryDate : JsValue) : M Response :=
  do! updateResult := executeQuery now (UpdateReminder salaryDate userId) in
  do! fetchResult := executeQuery now (SelectReminderByUser userId) in
  do! updated := firstRow (rows fetchResult) in
  do! logged := logCall Info "Salary reminder updated"
                  [("userId", userId); ("salaryDate", salaryDate)] in
  ret (mkResponse 200 true (reminderData updated)
         (Some "Salary reminder updated successfully") None).

(** Lines 147-181: the user has none; [freshId] is what
    [db.generateUUID()] returns. *)
Definition createNew (now : Z) (freshId : string) (userId salaryDate : JsValue) : M Response :=
  do! insertResult := executeQuery now (InsertReminder freshId userId salaryDate) in
  do! fetchResult := executeQuery now (SelectReminderById freshId) in
  do! created := firstRow (rows fetchResult) in
  do! logged := logCall Info "Salary reminder created"
                  [("userId", userId); ("salaryDate", salaryDate)] in
  ret (mkResponse 201 true (reminderData created)
         (Some "Salary reminder created successfully") None).

(** The [catch] blocks of the handlers. *)
Definition answerError (what : string) (req : Request) (error : Exn) : M Response :=
  do! logged := logCall LogError what
                  [("error", JStr (exnMessage error));
                   ("userId", orUndefined (reqUserId req))] in
  ret (failure 500 (exnMessage error)).

(** POST /salary, after [authenticate]. *)
Definition postSalary (now : Z) (freshId : string) (req : Request) : M Response :=
  catch
    (match reqUserId req with
     | Some userId =>
         if negb (truthy userId) then ret (failure 401 "User ID not found in request")
         else
           let salaryDate := field (body req) "salaryDate" in
           match rejectSalaryDate salaryDate with
           | Some r => ret r
           | None =>
               do! existingResult := executeQuery now (SelectReminderIdByUser userId) in
               if (0 <? Z.of_nat (List.length (rows existingResult)))
               then updateExisting now userId salaryDate
               else createNew now freshId userId salaryDate
           end
     | None => ret (failure 401 "User ID not found in request")
     end)
    (answerError "Error creating/updating salary reminder" req).

(** DELETE /salary, after [authenticate]. *)
Definition deleteSalary (now : Z) (req : Request) : M Response :=
  catch
    (match reqUserId req with
     | Some userId =>
         if negb (truthy userId) then ret (failure 401 "User ID not found in request")
         else
           do! result := executeQuery now (DeleteReminder userId) in
           let deleted := 0 <? affectedRows result in
           do! logged :=
             (if deleted
              then logCall Info "Salary reminder deleted" [("userId", userId)]
              else logCall Info "Salary reminder delete attempted but not found (idempotent)"
                     [("userId", userId)]) in
           ret (mkResponse 200 true DataNone
                  (Some (if deleted
                         then "Salary reminder deleted successfully"
                         else "Salary reminder not found (already deleted or never existed)"))
                  None)
     | None => ret (failure 401 "User ID not found in request")
     end)
    (answerError "Error deleting salary reminder" req).

(** GET /salary, after [authenticate] (lines 13-68). *)
Definition getSalary (now : Z) (req : Request) : M Response :=
  catch
    (match reqUserId req with
     | Some userId =>
         if negb (truthy userId) then ret (failure 401 "User ID not found in request")
         else
           do! result := executeQuery now (SelectReminderByUser userId) in
           if Z.of_nat (List.length (rows result)) =? 0
           then ret (mkResponse 200 true DataNone (Some "No salary reminder set") None)
           else
             do! reminder := firstRow (rows result) in
             ret (mkResponse 200 true (reminderData reminder) None None)
     | None => ret (failure 401 "User ID not found in request")
     end)
    (answerError "Error fetching salary reminder" req).

End SalaryRoutes.

(* ===================================================================== *)
(** * What a user has in [salary_reminders] *)
(* ===================================================================== *)

Module Schema.
Import Js Db DbWrapper.

(** The reminders of the user [u]. *)
Definition remindersOf (u : string) (db : Database) : list ReminderRow :=
  List.filter (ownedBy (JStr u)) (salary_reminders db).

(** The reminders of everybody else. *)
Definition remindersOfOthers (u : string) (db : Database) : list ReminderRow :=
  List.filter (fun r => negb (ownedBy (JStr u) r)) (salary_reminders db).

(** A handler that leaves a property of the database as it finds it. *)
Definition keeps (P : Database -> Prop) {A : Type} (m : M A) : Prop :=
  forall w, P (database w) -> P (database (snd (m w))).

End Schema.

(* ===================================================================== *)
(** * backend/src/routes/auth.ts, POST /auth/register

    The handler runs on a connection of its own inside a transaction.  Its
    awaited calls are the points where another request can run, so the
    handler is written as a machine that takes one step per statement; the
    store it steps against holds the committed rows of [users] and, for
    every other open transaction, the rows that transaction has inserted
    and not yet committed.  A SELECT reads the committed rows.  An INSERT
    of a key that an open transaction has inserted waits for that
    transaction; an INSERT of a key that is committed fails with
    ER_DUP_ENTRY (PRIMARY KEY on id, UNIQUE on email). *)
(* ===================================================================== *)

Module Register.
Import Js Jwt AuthUtils Http Db.

(** The request as the handler sees it after lines 59-68: the messages of
    express-validator, the sanitised [name], [email] and [password], and
    the results of [hashPassword] and [db.generateUUID]. *)
Record Input : Type := mkInput {
  validationErrors : list string;
  name : string;
  email : string;
  password : string;
  hashedPassword : string;
  freshId : string
}.

(** Where the handler stands. *)
Inductive Pc : Type :=
  | Validating               (* lines 59-72 *)
  | Selecting                (* transaction started, line 79 next *)
  | Inserting                (* no row found, line 94 next *)
  | Committing               (* row inserted, line 99 next *)
  | Answered (r : Response).

Record Session : Type := mkSession {
  pc : Pc;
  uncommitted : list UserRow
}.

Definition start : Session := mkSession Validating [].

Inductive Step : Type :=
  | Waits                                      (* lock wait, or nothing left to do *)
  | Moves (s : Session) (committed : list UserRow) (logged : list LogEntry).

Definition emailTaken (e : string) (l : list UserRow) : bool :=
  existsb (fun r => String.eqb e (user_email r)) l.

Definition keyTaken (id e : string) (l : list UserRow) : bool :=
  existsb (fun r => String.eqb id (user_id r) || String.eqb e (user_email r)) l.

(** The outer [catch] (lines 134-148) for an error that is neither a
    BadRequestError nor a ConflictError. *)
Definition answerUnexpected (e : Exn) : Session * list LogEntry :=
  (mkSession (Answered (failure 500 (exnMessage e))) [],
   [mkLog LogError "Registration error" [("error", JStr (exnMessage e))]]).

Section WithJose.
Context {J : Jose}.

(** One step of the handler.  [others] are the rows other transactions
    hold uncommitted, [committed] the rows of [users]. *)
Definition step (env : Env) (now : Z) (i : Input) (others : list UserRow)
    (s : Session) (committed : list UserRow) : Step :=
  match pc s with
  | Validating =>
      match validationErrors i with
      | _ :: _ =>
          Moves (mkSession (Answered (failure 400 (String.concat ", " (validationErrors i)))) [])
            committed []
      | [] =>
          if String.eqb (name i) "" || String.eqb (email i) "" || String.eqb (password i) ""
          then Moves (mkSession (Answered (failure 400 "Name, email, and password are required")) [])
                 committed []
          else Moves (mkSession Selecting []) committed []
      end
  | Selecting =>
      if emailTaken (email i) committed
      then Moves (mkSession (Answered (failure 409 "User with this email already exists")) [])
             committed []
      else Moves (mkSession Inserting []) committed []
  | Inserting =>
      if keyTaken (freshId i) (email i) others then Waits
      else if keyTaken (freshId i) (email i) committed
      then let '(s', l) := answerUnexpected (SqlError "ER_DUP_ENTRY" "Duplicate entry") in
           Moves s' committed l
      else Moves (mkSession Committing
                    [mkUser (freshId i) (name i) (email i) (hashedPassword i) now])
             committed []
  | Committing =>
      let committed' := committed ++ uncommitted s in
      let registered :=
        mkLog Info "User registered"
          [("userId", JStr (freshId i)); ("email", JStr (email i))] in
      match generateToken env now (freshId i) (email i) with
      | Returned token =>
          Moves (mkSession
                   (Answered (mkResponse 201 true
                                (DataLogin token (freshId i) (name i) (email i))
                                (Some "User registered successfully") None)) [])
            committed' [registered]
      | Thrown e =>
          let '(s', l) := answerUnexpected e in
          Moves s' committed' (registered :: l)
      end
  | Answered _ => Waits
  end.

(** The handler running with no other request in flight: its answer, the
    rows of [users] after it, and what it logged. *)
Fixpoint runAlone (fuel : nat) (env : Env) (now : Z) (i : Input)
    (s : Session) (committed : list UserRow) (logged : list LogEntry)
    : Session * list UserRow * list LogEntry :=
  match fuel with
  | O => (s, committed, logged)
  | S k =>
      match step env now i [] s committed with
      | Moves s' committed' l => runAlone k env now i s' committed' (logged ++ l)
      | Waits => (s, committed, logged)
      end
  end.

Definition register (env : Env) (now : Z) (i : Input) (committed : list UserRow)
    : Session * list UserRow * list LogEntry :=
  runAlone 4 env now i start committed [].


(** Two requests in flight, A and B. *)
Record System : Type := mkSystem {
  committedUsers : list UserRow;
  sessionA : Session;
  sessionB : Session
}.

Inductive Turn : Type := TurnA | TurnB.

(** A request takes a step, if it can; [other] is the other request. *)
Definition advance (env : Env) (now : Z) (i : Input) (other s : Session)
    (committed : list UserRow) : Session * list UserRow :=
  match step env now i (uncommitted other) s committed with
  | Moves s' committed' _ => (s', committed')
  | Waits => (s, committed)
  end.

(** [k] steps in a row. *)
Fixpoint advances (env : Env) (now : Z) (i : Input) (other : Session) (k : nat)
    (s : Session) (committed : list UserRow) : Session * list UserRow :=
  match k with
  | O => (s, committed)
  | S k' =>
      let '(s', committed') := advance env now i other s committed in
      advances env now i other k' s' committed'
  end.

Definition turn (env : Env) (now : Z) (a b : Input) (t : Turn) (sys : System) : System :=
  match t with
  | TurnA =>
      let '(s', committed') :=
        advance env now a (sessionB sys) (sessionA sys) (committedUsers sys) in
      mkSystem committed' s' (sessionB sys)
  | TurnB =>
      let '(s', committed') :=
        advance env now b (sessionA sys) (sessionB sys) (committedUsers sys) in
      mkSystem committed' (sessionA sys) s'
  end.

Definition runSchedule (env : Env) (now : Z) (a b : Input) (schedule : list Turn)
    (sys : System) : System :=
  fold_left (fun sys t => turn env now a b t sys) schedule sys.

End WithJose.

Definition initial (committed : list UserRow) : System := mkSystem committed start start.

Definition answer (s : Session) : option Response :=
  match pc s with
  | Answered r => Some r
  | _ => None
  end.

Definition succeeded (s : Session) : bool :=
  match pc s with
  | Answered r => status r =? 201
  | _ => false
  end.

Definition refused (s : Session) : bool :=
  match pc s with
  | Answered r => (status r =? 409) || (status r =? 500)
  | _ => false
  end.

Definition emailCount (e : string) (l : list UserRow) : nat :=
  List.length (List.filter (fun r => String.eqb e (user_email r)) l).

(** The input passes lines 59-72. *)
Definition accepted (i : Input) : bool :=
  match validationErrors i with
  | [] => negb (String.eqb (name i) "" || String.eqb (email i) "" || String.eqb (password i) "")
  | _ :: _ => false
  end.

(** ** The invariant of two registrations for one address

    [Kind] is what matters of a session, [rank] the number of steps it
    still may take, and [good] the table of the states two sessions can be
    in together with the number [n] of committed rows for the address. *)
Inductive Kind : Type := KVal | KSel | KIns | KCom | KOk | KBad | KOdd.

Definition kind (s : Session) : Kind :=
  match pc s with
  | Validating => KVal
  | Selecting => KSel
  | Inserting => KIns
  | Committing => KCom
  | Answered r =>
      if status r =? 201 then KOk
      else if (status r =? 409) || (status r =? 500) then KBad
      else KOdd
  end.

Definition rank (s : Session) : nat :=
  match pc s with
  | Validating => 4
  | Selecting => 3
  | Inserting => 2
  | Committing => 1
  | Answered _ => 0
  end.

Definition isOk (k : Kind) : nat := match k with KOk => 1 | _ => 0 end.
Definition isCom (k : Kind) : bool := match k with KCom => true | _ => false end.
Definition isBad (k : Kind) : bool := match k with KBad => true | _ => false end.
Definition isOdd (k : Kind) : bool := match k with KOdd => true | _ => false end.

Definition good (k1 k2 : Kind) (n : nat) : bool :=
  Nat.eqb n (isOk k1 + isOk k2) && Nat.leb n 1
  && negb (isOdd k1) && negb (isOdd k2)
  && implb (isCom k1) (Nat.eqb n 0 && negb (isCom k2))
  && implb (isCom k2) (Nat.eqb n 0 && negb (isCom k1))
  && implb (isBad k1) (Nat.eqb n 1)
  && implb (isBad k2) (Nat.eqb n 1).

(** A session holds an uncommitted row exactly while it is committing. *)
Definition shape (now : Z) (i : Input) (s : Session) : Prop :=
  uncommitted s =
  match pc s with
  | Committing => [mkUser (freshId i) (name i) (email i) (hashedPassword i) now]
  | _ => []
  end.

(** A committed row with one of the two fresh ids is a row for the address. *)
Definition idsOk (i j : Input) (committed : list UserRow) : Prop :=
  forall r, In r committed ->
    user_id r = freshId i \/ user_id r = freshId j -> user_email r = email i.

Definition Inv (now : Z) (i j : Input) (s t : Session) (committed : list UserRow) : Prop :=
  shape now i s /\ shape now j t /\ idsOk i j committed /\
  good (kind s) (kind t) (emailCount (email i) committed) = true.

Definition SysInv (now : Z) (a b : Input) (sys : System) : Prop :=
  Inv now a b (sessionA sys) (sessionB sys) (committedUsers sys).

(** One request got 201, the other 409 or 500. *)
Definition oneSucceeded (sys : System) : Prop :=
  exists rA rB,
    answer (sessionA sys) = Some rA /\ answer (sessionB sys) = Some rB /\
    ((status rA = 201 /\ (status rB = 409 \/ status rB = 500)) \/
     (status rB = 201 /\ (status rA = 409 \/ status rA = 500))).

(** Turns that see both requests through from any state they can be in. *)
Definition finish : list Turn :=
  [TurnA; TurnA; TurnA; TurnA; TurnB; TurnB; TurnB; TurnB; TurnA; TurnA; TurnA; TurnA].

End Register.
(* ===================================================================== *)
(** * backend/src/routes/salary.ts: the routes behind [authenticate]

    [router.get('/', authenticate, handler)] and its two siblings: the
    middleware answers, or hands the request it has extended to the
    handler. *)
(* ===================================================================== *)

Module SalaryRouter.
Import Js Jwt Http AuthMiddleware Db DbWrapper SalaryRoutes.

Inductive Method : Type := GET | POST | DELETE.

Definition logAll (l : list LogEntry) : M unit :=
  fun w => (Returned tt, mkWorld (database w) (trace w) (logs w ++ l)).

Section WithJose.
Context {J : Jose}.

Definition withAuth (env : Env) (now : Z) (handler : Request -> M Response)
    (req : Request) : M Response :=
  do! logged := logAll (snd (authenticate env now req)) in
  match fst (authenticate env now req) with
  | Respond r => ret r
  | Next req' => handler req'
  end.

Definition route (env : Env) (now : Z) (freshId : string) (method : Method)
    (req : Request) : M Response :=
  withAuth env now
    (match method with
     | GET => getSalary now
     | POST => postSalary now freshId
     | DELETE => deleteSalary now
     end) req.

End WithJose.
End SalaryRouter.

(* ===================================================================== *)
(** * backend/src/db.ts: [generateUUID] *)
(* ===================================================================== *)

Module Uuid.

(** [v.toString(16)] for [0 <= v < 16]. *)
Definition hexDigit (v : Z) : ascii :=
  if v <? 10 then ascii_of_N (Z.to_N (48 + v)) else ascii_of_N (Z.to_N (87 + v)).

(** The callback of line 46-50, where [r] is [(Math.random() * 16) | 0]. *)
Definition replacement (c : ascii) (r : Z) : ascii :=
  let v := if Ascii.eqb c "x"%char then r else Z.lor (Z.land r 3) 8 in
  hexDigit v.

(** [s.replace(/[xy]/g, callback)]; [random i] is the value of [r] in the
    call number [i], counted from [call]. *)
Fixpoint replaceXY (s : string) (random : nat -> Z) (call : nat) : string :=
  match s with
  | EmptyString => EmptyString
  | String c rest =>
      if Ascii.eqb c "x"%char || Ascii.eqb c "y"%char
      then String (replacement c (random call)) (replaceXY rest random (S call))
      else String c (replaceXY rest random call)
  end.

Definition generateUUID (random : nat -> Z) : string :=
  replaceXY "xxxxxxxx-xxxx-4xxx-yxxx-xxxxxxxxxxxx" random 0.

Definition isHex (c : ascii) : bool :=
  let n := N_of_ascii c in
  (((48 <=? n) && (n <=? 57)) || ((97 <=? n) && (n <=? 102)))%N.

End Uuid.

(* ===================================================================== *)
(** * backend/src/utils/errors.ts: the error classes *)
(* ===================================================================== *)

Module Errors.
Import Js.

Definition BadRequestError (message : string) : Exn := AppError 400 message.
Definition UnauthorizedError (message : string) : Exn := AppError 401 message.
Definition ConflictError (message : string) : Exn := AppError 409 message.

End Errors.

(* ===================================================================== *)
(** * backend/src/routes/auth.ts: POST /auth/login and GET /auth/me

    Both read the committed rows of [users] through the pool. *)
(* ===================================================================== *)

Module Session.
Import Js Jwt AuthUtils Http Db AuthMiddleware AuthRoutes Errors.

(** The login request as the handler sees it after lines 161-169: the
    messages of express-validator, the sanitised [email] and the trimmed
    [password]. *)
Record Credentials : Type := mkCredentials {
  validationErrors : list string;
  email : string;
  password : string
}.

(** What GET /auth/me answers: an error, or the user. *)
Inductive UserAnswer : Type :=
  | UserError (status : Z) (error : string)
  | UserInfo (id name email : string).

Section WithJose.
Context {J : Jose}.

(** [bcrypt.compare]. *)
Variable comparePassword : string -> string -> bool.

(** The [try] block of lines 159-217. *)
Definition loginAttempt (env : Env) (now : Z) (i : Credentials)
    (committed : list UserRow) : Outcome (Response * list LogEntry) :=
  match validationErrors i with
  | _ :: _ => Thrown (BadRequestError (String.concat ", " (validationErrors i)))
  | [] =>
      if String.eqb (email i) "" || String.eqb (password i) ""
      then Thrown (BadRequestError "Email and password are required")
      else
        match List.filter (fun r => String.eqb (email i) (user_email r)) committed with
        | [] => Thrown (UnauthorizedError "Invalid email or password")
        | user :: _ =>
            if negb (comparePassword (password i) (user_password user))
            then Thrown (UnauthorizedError "Invalid email or password")
            else
              let! token := generateToken env now (user_id user) (user_email user) in
              Returned
                (mkResponse 200 true
                   (DataLogin token (user_id user) (user_name user) (user_email user))
                   (Some "Login successful") None,
                 [mkLog Info "User logged in"
                    [("userId", JStr (user_id user)); ("email", JStr (user_email user))]])
        end
  end.

(** POST /auth/login: the answer and what is logged.  The classes
    BadRequestError and UnauthorizedError are told by their status. *)
Definition login (env : Env) (now : Z) (i : Credentials) (committed : list UserRow)
    : Response * list LogEntry :=
  match loginAttempt env now i committed with
  | Returned r => r
  | Thrown e =>
      let unexpected :=
        (failure 500 (exnMessage e),
         [mkLog LogError "Login error" [("error", JStr (exnMessage e))]]) in
      match e with
      | AppError code m =>
          if (code =? 400) || (code =? 401) then (failure code m, []) else unexpected
      | _ => unexpected
      end
  end.

(** GET /auth/me (lines 264-334).  The id of a token this server issued is
    a string; any other value is taken to match no row. *)
Definition me (env : Env) (now : Z) (req : Request) (committed : list UserRow)
    : UserAnswer :=
  match meToken req with
  | None => UserError 401 "No token provided"
  | Some token =>
      if String.eqb token "" then UserError 401 "No token provided"
      else
        match verifyToken env now token with
        | Thrown e => UserError 500 (exnMessage e)
        | Returned None => UserError 401 "Invalid token"
        | Returned (Some decoded) =>
            match List.filter (fun r => matches (userId decoded) (user_id r)) committed with
            | [] => UserError 404 "User not found"
            | user :: _ => UserInfo (user_id user) (user_name user) (user_email user)
            end
        end
  end.

End WithJose.
End Session.

(* ===================================================================== *)
(** * Sample configurations and requests *)
(* ===================================================================== *)

Module Samples.
Import Js Http.

Definition env : Env := {[ "JWT_SECRET" := "not-a-real-secret" ]}.

(** A production configuration. *)
Definition production : Env :=
  {[ "NODE_ENV" := "production"; "JWT_SECRET" := "not-a-real-secret" ]}.

(** No credentials at all. *)
Definition bareRequest : Request :=
  mkRequest None None ∅ "203.0.113.7" "/salary" None None.

(** A bearer header that holds no token of ours. *)
Definition garbageRequest : Request :=
  mkRequest (Some "Bearer garbage") None ∅ "203.0.113.7" "/salary" None None.



(** The token the computing instance issues to user-1 on 2 November 2025,
    00:00 UTC, for seven days. *)
Definition issuedToken : string :=
  @Jwt.compact ToyJose.toy (Jwt.joseHeader "HS256")
    (Jwt.stamp (AuthUtils.identityPayload "user-1" "ada@example.org") 1762041600 1762646400)
    "not-a-real-secret" "HS256".

(** A request that carries it as a bearer token, and the request
    [authenticate] hands on. *)
Definition issuedRequest : Request :=
  mkRequest (Some ("Bearer " ++ issuedToken)%string) None ∅ "203.0.113.7" "/salary" None None.

(** The same, posting the 25th as the salary day. *)
Definition issuedPost : Request :=
  mkRequest (Some ("Bearer " ++ issuedToken)%string) None
    {[ "salaryDate" := JNum (inject_Z 25) ]} "203.0.113.7" "/salary" None None.

Definition passedRequest : Request :=
  mkRequest (Some ("Bearer " ++ issuedToken)%string) None ∅ "203.0.113.7" "/salary"
    (Some (JStr "user-1")) (Some (JStr "ada@example.org")).


(** A store with one user and no salary reminder. *)
Definition oneUser : Db.Database :=
  Db.mkDatabase [Db.mkUser "user-1" "Ada" "ada@example.org" "not-a-real-hash" 0] [].

(** The same store after the user has set a reminder for the 15th. *)
Definition oneReminder : Db.Database :=
  Db.mkDatabase [Db.mkUser "user-1" "Ada" "ada@example.org" "not-a-real-hash" 0]
    [Db.mkReminder "reminder-1" "user-1" 15 0 0].

Definition world (db : Db.Database) : DbWrapper.World := DbWrapper.mkWorld db [] [].

(** A request that has passed [authenticate] for user-1, with a body. *)
Definition authenticated (body : gmap string JsValue) : Request :=
  mkRequest None (Some {[ "authToken" := "cookie-token" ]}) body
    "203.0.113.7" "/salary" (Some (JStr "user-1")) (Some (JStr "ada@example.org")).

(** Two registrations for the same address, sent at the same time. *)
Definition adaFirst : Register.Input :=
  Register.mkInput [] "Ada" "ada@example.org" "Passw0rd" "hash-1" "id-1".

Definition adaSecond : Register.Input :=
  Register.mkInput [] "Ada L." "ada@example.org" "Secr3tive" "hash-2" "id-2".

Definition otherUsers : list Db.UserRow :=
  [Db.mkUser "id-0" "Grace" "grace@example.org" "hash-0" 0].

(** The token the first registration is answered with on 2 November 2025,
    00:00 UTC, and a request for /auth/me that carries it. *)
Definition registeredToken : string :=
  @Jwt.compact ToyJose.toy (Jwt.joseHeader "HS256")
    (Jwt.stamp (AuthUtils.identityPayload "id-1" "ada@example.org") 1762041600 1762646400)
    "not-a-real-secret" "HS256".

Definition whoAmI : Request :=
  mkRequest (Some ("Bearer " ++ registeredToken)%string) None ∅ "203.0.113.7" "/auth/me"
    None None.

End Samples.

(* ===================================================================== *)
(** * The calendar *)
(* ===================================================================== *)

Import JsDate SalaryReminder.

Lemma DayFromYear_succ y : DayFromYear (y + 1) = DayFromYear y + DaysInYear y.
Proof.
  unfold DayFromYear, DaysInYear, isLeapYear.
  repeat case Z.eqb_spec; simpl; intros; Z.to_euclidean_division_equations; lia.
Qed.

Lemma DayFromYear_mono a b : a <= b -> DayFromYear a <= DayFromYear b.
Proof.
  unfold DayFromYear. intros. Z.to_euclidean_division_equations; lia.
Qed.

Lemma DaysInYear_pos y : 365 <= DaysInYear y <= 366.
Proof. unfold DaysInYear. destruct (isLeapYear y); lia. Qed.

Lemma YearFromDay_spec d :
  DayFromYear (YearFromDay d) <= d < DayFromYear (YearFromDay d + 1).
Proof.
  unfold YearFromDay.
  set (y0 := 1970 + d * 400 / 146097).
  assert (H1 : DayFromYear (y0 - 1) <= d).
  { unfold DayFromYear, y0. Z.to_euclidean_division_equations; lia. }
  assert (H2 : d < DayFromYear (y0 + 2)).
  { unfold DayFromYear, y0. Z.to_euclidean_division_equations; lia. }
  replace (y0 + 2) with (y0 + 1 + 1) in H2 by lia.
  repeat case Z.ltb_spec; repeat case Z.leb_spec; intros;
    replace (y0 - 1 + 1) with y0 by lia; lia.
Qed.

Lemma YearFromDay_unique y d :
  DayFromYear y <= d < DayFromYear (y + 1) -> YearFromDay d = y.
Proof.
  intros H. pose proof (YearFromDay_spec d) as S.
  destruct (Z.lt_trichotomy (YearFromDay d) y) as [L | [E | G]]; [|exact E|].
  - pose proof (DayFromYear_mono (YearFromDay d + 1) y ltac:(lia)). lia.
  - pose proof (DayFromYear_mono (y + 1) (YearFromDay d) ltac:(lia)). lia.
Qed.

Lemma leapDays_range y : 0 <= leapDays y <= 1.
Proof. unfold leapDays. destruct (isLeapYear y); lia. Qed.

Lemma DaysInYear_leapDays y : DaysInYear y = 365 + leapDays y.
Proof. unfold DaysInYear, leapDays. destruct (isLeapYear y); reflexivity. Qed.

Lemma month_cases m : 0 <= m <= 11 ->
  m = 0 \/ m = 1 \/ m = 2 \/ m = 3 \/ m = 4 \/ m = 5 \/ m = 6 \/ m = 7 \/
  m = 8 \/ m = 9 \/ m = 10 \/ m = 11.
Proof. lia. Qed.

Ltac split_month H :=
  apply month_cases in H;
  repeat (destruct H as [H | H]; [subst | ]); [ .. | subst].

Ltac table_cases :=
  repeat match goal with
         | |- context [Z.ltb ?a ?b] => destruct (Z.ltb_spec a b); try lia
         end.

Lemma monthOfYearDay_range L k : 0 <= monthOfYearDay L k <= 11.
Proof. unfold monthOfYearDay. table_cases; lia. Qed.

(** The tables invert each other. *)
Lemma table_decompose L k : 0 <= L <= 1 -> 0 <= k < 365 + L ->
  let m := monthOfYearDay L k in
  monthStart L m <= k /\
  (m = 1 -> k - monthStart L m < 28 + L) /\
  (m = 3 \/ m = 5 \/ m = 8 \/ m = 10 -> k - monthStart L m < 30) /\
  k - monthStart L m < 31.
Proof.
  intros HL Hk. unfold monthOfYearDay. table_cases; cbn; lia.
Qed.

Lemma table_compose L m e : 0 <= L <= 1 -> 0 <= m <= 11 ->
  0 <= e ->
  (m = 1 -> e < 28 + L) ->
  (m = 3 \/ m = 5 \/ m = 8 \/ m = 10 -> e < 30) ->
  e < 31 ->
  monthOfYearDay L (monthStart L m + e) = m /\ monthStart L m + e < 365 + L.
Proof.
  intros HL Hm He H1 H2 H3.
  split_month Hm; cbn [monthStart]; unfold monthOfYearDay; table_cases; lia.
Qed.

Lemma MakeDay_in_year y m d : 0 <= m <= 11 ->
  MakeDay y m d = DayFromYear y + monthStart (leapDays y) m + d - 1.
Proof.
  intros Hm. unfold MakeDay.
  rewrite (Z.div_small m 12), (Z.mod_small m 12) by lia.
  replace (y + 0) with y by lia. reflexivity.
Qed.

Lemma MakeDay_shift y m d1 d2 : MakeDay y m d1 = MakeDay y m d2 + (d1 - d2).
Proof. unfold MakeDay. lia. Qed.

Ltac next_month_case :=
  match goal with
  | |- context [monthStart _ (?a + 1)] =>
      let v := eval vm_compute in (a + 1) in change (a + 1) with v
  end; cbn [monthStart DaysInMonth]; lia.

Lemma MakeDay_next_month y m d : 0 <= m <= 11 ->
  MakeDay y (m + 1) d = MakeDay y m d + DaysInMonth y m.
Proof.
  intros Hm. pose proof (leapDays_range y) as HL.
  destruct (Z.eq_dec m 11) as [-> | Hne].
  - unfold MakeDay. change ((11 + 1) / 12) with 1. change ((11 + 1) mod 12) with 0.
    change (11 / 12) with 0. change (11 mod 12) with 11.
    rewrite DayFromYear_succ, DaysInYear_leapDays. replace (y + 0) with y by lia.
    cbn [monthStart DaysInMonth]. lia.
  - rewrite !MakeDay_in_year by lia.
    assert (Hm' : 0 <= m <= 10) by lia. clear Hm Hne.
    assert (C : m = 0 \/ m = 1 \/ m = 2 \/ m = 3 \/ m = 4 \/ m = 5 \/ m = 6 \/ m = 7 \/
      m = 8 \/ m = 9 \/ m = 10) by lia.
    repeat (destruct C as [C | C]; [subst; next_month_case | ]).
    subst; next_month_case.
Qed.

Lemma DaysInMonth_range y m : 28 <= DaysInMonth y m <= 31.
Proof.
  pose proof (leapDays_range y).
  unfold DaysInMonth. repeat (destruct m as [|[m|m|]|]; try lia).
Qed.

Lemma civil_compose y m dd : 0 <= m <= 11 -> 1 <= dd <= DaysInMonth y m ->
  YearFromDay (MakeDay y m dd) = y /\
  MonthFromDay (MakeDay y m dd) = m /\
  DateFromDay (MakeDay y m dd) = dd.
Proof.
  intros Hm Hd. pose proof (leapDays_range y) as HL.
  rewrite MakeDay_in_year by lia.
  destruct (table_compose (leapDays y) m (dd - 1) HL Hm) as [HM Hlt].
  - lia.
  - intros ->. cbn [DaysInMonth] in Hd. lia.
  - intros C. assert (DaysInMonth y m = 30) by (destruct C as [-> | [-> | [-> | ->]]]; reflexivity). lia.
  - pose proof (DaysInMonth_range y m). lia.
  - assert (HY : YearFromDay (DayFromYear y + monthStart (leapDays y) m + dd - 1) = y).
    { apply YearFromDay_unique. rewrite DayFromYear_succ, DaysInYear_leapDays.
      assert (0 <= monthStart (leapDays y) m) by (split_month Hm; cbn [monthStart]; lia).
      lia. }
    unfold MonthFromDay, DateFromDay, DayWithinYear. rewrite HY.
    replace (DayFromYear y + monthStart (leapDays y) m + dd - 1 - DayFromYear y)
      with (monthStart (leapDays y) m + (dd - 1)) by lia.
    rewrite HM. repeat split; lia.
Qed.

Lemma civil_decompose n :
  0 <= MonthFromDay n <= 11 /\
  1 <= DateFromDay n <= DaysInMonth (YearFromDay n) (MonthFromDay n) /\
  MakeDay (YearFromDay n) (MonthFromDay n) (DateFromDay n) = n.
Proof.
  pose proof (YearFromDay_spec n) as HS.
  rewrite DayFromYear_succ, DaysInYear_leapDays in HS.
  pose proof (leapDays_range (YearFromDay n)) as HL.
  unfold MonthFromDay, DateFromDay.
  set (L := leapDays (YearFromDay n)) in *.
  assert (Hk : 0 <= DayWithinYear n < 365 + L) by (unfold DayWithinYear; lia).
  pose proof (monthOfYearDay_range L (DayWithinYear n)) as HR.
  destruct (table_decompose L (DayWithinYear n) HL Hk) as (T1 & T2 & T3 & T4).
  set (m := monthOfYearDay L (DayWithinYear n)) in *.
  split; [exact HR|]. split.
  - assert (Hlen : (m = 1 /\ DaysInMonth (YearFromDay n) m = 28 + L) \/
        ((m = 3 \/ m = 5 \/ m = 8 \/ m = 10) /\ DaysInMonth (YearFromDay n) m = 30) \/
        DaysInMonth (YearFromDay n) m = 31).
    { clearbody m. split_month HR; cbn [DaysInMonth]; lia. }
    destruct Hlen as [[E1 E2] | [[E1 E2] | E]]; [specialize (T2 E1) | specialize (T3 E1) |]; lia.
  - rewrite MakeDay_in_year by exact HR. fold L. unfold DayWithinYear. lia.
Qed.

Lemma date_of_day_31 y m : 0 <= m <= 11 ->
  (DateFromDay (MakeDay y m 31) =? 31) = (DaysInMonth y m =? 31).
Proof.
  intros Hm. pose proof (DaysInMonth_range y m) as HR.
  destruct (Z.eqb_spec (DaysInMonth y m) 31) as [E | NE].
  - destruct (civil_compose y m 31 Hm ltac:(lia)) as (_ & _ & ->). reflexivity.
  - assert (Hm' : 0 <= m <= 10).
    { destruct (Z.eq_dec m 11) as [-> | ?]; [cbn in NE |]; lia. }
    pose proof (DaysInMonth_range y (m + 1)) as HR'.
    replace (MakeDay y m 31) with (MakeDay y (m + 1) (31 - DaysInMonth y m)).
    + destruct (civil_compose y (m + 1) (31 - DaysInMonth y m) ltac:(lia) ltac:(lia))
        as (_ & _ & ->).
      apply Z.eqb_neq. lia.
    + rewrite MakeDay_next_month by lia. rewrite (MakeDay_shift y m 31 (31 - DaysInMonth y m)). lia.
Qed.

Lemma ceilDiv_days q e : 0 <= e < msPerDay -> ceilDiv (q * msPerDay - e) msPerDay = q.
Proof.
  intros He. unfold ceilDiv, msPerDay in *. Z.to_euclidean_division_equations; lia.
Qed.

Lemma fixed_keepsMidnights z off : fixedOffset z off -> keepsMidnights z.
Proof.
  intros Hzone d. unfold LocalTime, UTC.
  rewrite (proj1 (Hzone _)), (proj2 (Hzone _)). unfold Day.
  replace (d * msPerDay - off + off) with (d * msPerDay) by lia.
  apply Z.div_mul. discriminate.
Qed.

Lemma newYork2025_keepsMidnights : keepsMidnights newYork2025.
Proof.
  intros d. unfold LocalTime, UTC, newYork2025, tzaOfUTC, tzaOfLocal, Day.
  change (MakeDay 2025 2 9) with 20156. change (MakeDay 2025 10 2) with 20394.
  unfold msPerHour, msPerDay.
  repeat match goal with
         | |- context [Z.leb ?a ?b] => destruct (Z.leb_spec a b)
         | |- context [Z.ltb ?a ?b] => destruct (Z.ltb_spec a b)
         end; cbn [andb] in *; try lia;
  Z.to_euclidean_division_equations; lia.
Qed.

Lemma newDate_late z yr mo d :
  99 < yr -> newDate z yr mo d = UTC z (MakeDay yr mo d * msPerDay).
Proof.
  intros Hy. unfold newDate.
  destruct (Z.leb_spec yr 99); [lia|]. rewrite andb_false_r. reflexivity.
Qed.

Lemma civil_of_midnight z d :
  keepsMidnights z ->
  getFullYear z (UTC z (d * msPerDay)) = YearFromDay d /\
  getMonth z (UTC z (d * msPerDay)) = MonthFromDay d /\
  getDate z (UTC z (d * msPerDay)) = DateFromDay d.
Proof.
  intros Hmid. unfold getFullYear, getMonth, getDate. rewrite (Hmid d). repeat split.
Qed.

Section AnyZone.
Variables (z : Zone) (now : Z).
Hypothesis Hmid : keepsMidnights z.
Hypothesis Hyear : 99 < getFullYear z now.

Let n := Day (LocalTime z now).
Let y := YearFromDay n.
Let m := MonthFromDay n.
Let cd := DateFromDay n.
Let len := DaysInMonth y m.

(** The candidate date is local midnight of the day [X - cd] days after
    today, where [X] counts from the day before the first of the month. *)
Lemma nextSalaryDate_day D : 1 <= D <= 31 ->
  nextSalaryDate z now D =
  UTC z ((n - cd + (if D <? cd then len + D
                    else if (D =? 31) && (len <? 31) then len
                    else D)) * msPerDay).
Proof.
  intros HD. destruct (civil_decompose n) as (Hm & Hcd & Hn).
  fold y m cd in Hm, Hcd, Hn. fold len in Hcd.
  pose proof (DaysInMonth_range y m) as Hlen. fold len in Hlen.
  unfold nextSalaryDate.
  change (getFullYear z now) with y in *. change (getMonth z now) with m.
  change (getDate z now) with cd.
  rewrite !newDate_late by exact Hyear.
  destruct (Z.ltb_spec D cd) as [Hlt | Hge].
  - assert (E31 : (D =? 31) = false) by (apply Z.eqb_neq; lia).
    rewrite E31. cbn [andb].
    rewrite MakeDay_next_month, (MakeDay_shift y m D cd), Hn by exact Hm.
    fold len. f_equal; lia.
  - destruct (civil_of_midnight z (MakeDay y m D) Hmid) as (_ & _ & ->).
    destruct (Z.eqb_spec D 31) as [-> | NE]; cbn [andb].
    + rewrite date_of_day_31 by exact Hm. fold len.
      destruct (Z.eqb_spec len 31) as [E | NE']; cbn [negb].
      * destruct (Z.ltb_spec len 31); [lia|].
        rewrite (MakeDay_shift y m 31 cd), Hn. f_equal; lia.
      * destruct (Z.ltb_spec len 31); [|lia].
        rewrite MakeDay_next_month, (MakeDay_shift y m 0 cd), Hn by exact Hm.
        fold len. f_equal; lia.
    + rewrite (MakeDay_shift y m D cd), Hn. f_equal; lia.
Qed.

(** Day 31 in a month that has no 31st: the last day of that month. *)
Lemma nextSalaryDate_short_month :
  len < 31 ->
  getFullYear z (nextSalaryDate z now 31) = y /\
  getMonth z (nextSalaryDate z now 31) = m /\
  getDate z (nextSalaryDate z now 31) = len.
Proof.
  intros Hshort. destruct (civil_decompose n) as (Hm & Hcd & Hn).
  fold y m cd in Hm, Hcd, Hn. fold len in Hcd.
  pose proof (DaysInMonth_range y m) as Hlen. fold len in Hlen.
  rewrite nextSalaryDate_day by lia.
  destruct (Z.ltb_spec 31 cd); [lia|].
  destruct (Z.ltb_spec len 31); [|lia]. cbn [Z.eqb Pos.eqb andb].
  replace (n - cd + len) with (MakeDay y m len)
    by (rewrite (MakeDay_shift y m len cd); lia).
  destruct (civil_of_midnight z (MakeDay y m len) Hmid) as (-> & -> & ->).
  apply civil_compose; [exact Hm | fold len; lia].
Qed.

End AnyZone.

Section FixedZone.
Variables (z : Zone) (off now : Z).
Hypothesis Hzone : fixedOffset z off.
Hypothesis Hyear : 99 < getFullYear z now.

Let n := Day (LocalTime z now).
Let y := YearFromDay n.
Let m := MonthFromDay n.
Let cd := DateFromDay n.
Let len := DaysInMonth y m.

Lemma diffDays_fixed D : 1 <= D <= 31 ->
  diffDays z now D =
  (if D <? cd then len + D
   else if (D =? 31) && (len <? 31) then len
   else D) - cd.
Proof.
  intros HD. unfold diffDays, getTime.
  rewrite (nextSalaryDate_day z now (fixed_keepsMidnights z off Hzone) Hyear D HD).
  fold n y m cd len.
  change (1000 * 60 * 60 * 24) with msPerDay.
  set (X := if D <? cd then _ else _).
  unfold UTC. rewrite (proj2 (Hzone _)).
  assert (E : now + off = n * msPerDay + (now + off) mod msPerDay).
  { unfold n, Day, LocalTime. rewrite (proj1 (Hzone now)).
    pose proof (Z.div_mod (now + off) msPerDay ltac:(discriminate)). lia. }
  replace ((n - cd + X) * msPerDay - off - now)
    with ((X - cd) * msPerDay - (now + off) mod msPerDay) by lia.
  apply ceilDiv_days. apply Z.mod_pos_bound. reflexivity.
Qed.

Lemma diffDays_fixed_nonneg D : 1 <= D <= 31 -> 0 <= diffDays z now D.
Proof.
  intros HD. rewrite diffDays_fixed by exact HD.
  destruct (civil_decompose n) as (Hm & Hcd & Hn).
  fold y m cd in Hm, Hcd, Hn. fold len in Hcd.
  pose proof (DaysInMonth_range y m) as Hlen. fold len in Hlen.
  destruct (Z.ltb_spec D cd); [lia|].
  destruct (Z.eqb_spec D 31); cbn [andb]; [|lia].
  destruct (Z.ltb_spec len 31); lia.
Qed.

Lemma calculateDaysRemaining_fixed D :
  1 <= D <= 31 -> calculateDaysRemaining z now D = Some (diffDays z now D).
Proof.
  intros HD. unfold calculateDaysRemaining.
  destruct (Z.ltb_spec D 1); [lia|]. destruct (Z.gtb_spec D 31); [lia|]. cbn [orb].
  pose proof (diffDays_fixed_nonneg D HD).
  destruct (Z.geb_spec (diffDays z now D) 0); [reflexivity | lia].
Qed.

End FixedZone.

Section ReminderClaims.

(** C1. When the stored day is 31 and the current month has fewer than 31
    days, the next salary date is the last day of the current month; where
    the clocks do not change, the days remaining count up to that day. *)
Theorem C1_day_31_is_last_day_of_short_month (z : Zone) (now : Z) :
  keepsMidnights z -> 99 < getFullYear z now ->
  DaysInMonth (getFullYear z now) (getMonth z now) < 31 ->
  let next := nextSalaryDate z now 31 in
  getFullYear z next = getFullYear z now /\
  getMonth z next = getMonth z now /\
  getDate z next = DaysInMonth (getFullYear z now) (getMonth z now) /\
  (forall off, fixedOffset z off ->
     calculateDaysRemaining z now 31 =
       Some (DaysInMonth (getFullYear z now) (getMonth z now) - getDate z now)).
Proof.
  intros Hmid Hy Hshort next. subst next.
  destruct (nextSalaryDate_short_month z now Hmid Hy Hshort) as (E1 & E2 & E3).
  split; [exact E1|]. split; [exact E2|]. split; [exact E3|].
  intros off Hz.
  rewrite (calculateDaysRemaining_fixed z off now Hz Hy) by lia.
  rewrite (diffDays_fixed z off now Hz Hy) by lia.
  destruct (civil_decompose (Day (LocalTime z now))) as (Hm & Hcd & Hn).
  change (getDate z now) with (DateFromDay (Day (LocalTime z now))).
  change (getMonth z now) with (MonthFromDay (Day (LocalTime z now))) in *.
  change (getFullYear z now) with (YearFromDay (Day (LocalTime z now))) in *.
  destruct (Z.ltb_spec 31 (DateFromDay (Day (LocalTime z now)))); [lia|].
  destruct (Z.ltb_spec (DaysInMonth (YearFromDay (Day (LocalTime z now)))
                          (MonthFromDay (Day (LocalTime z now)))) 31); [|lia].
  reflexivity.
Qed.

Lemma C1_witness :
  let now := instant 2025 1 20 9 15 in
  let next := nextSalaryDate ist now 31 in
  getFullYear ist next = getFullYear ist now /\
  getMonth ist next = getMonth ist now /\
  getDate ist next = DaysInMonth (getFullYear ist now) (getMonth ist now) /\
  (forall off, fixedOffset ist off ->
     calculateDaysRemaining ist now 31 =
       Some (DaysInMonth (getFullYear ist now) (getMonth ist now) - getDate ist now)).
Proof.
  apply (C1_day_31_is_last_day_of_short_month ist (instant 2025 1 20 9 15)).
  - apply (fixed_keepsMidnights ist 19800000). intros t. split; reflexivity.
  - vm_compute. reflexivity.
  - vm_compute. reflexivity.
Defined.

(** New York, 20 November 2025, 10:00 local time: day 31 is due on the
    30th. *)
Example reminder_new_york :
  let now := instant 2025 10 20 15 0 in
  let next := nextSalaryDate newYork2025 now 31 in
  (getFullYear newYork2025 next, getMonth newYork2025 next, getDate newYork2025 next)
    = (2025, 10, 30) /\
  calculateDaysRemaining newYork2025 now 31 = Some 10.
Proof. vm_compute. split; reflexivity. Qed.

(** The examples of the specification: on 20 February 2025 a salary day of
    31 is due on 28 February, 8 days ahead; day 15 is due in 5 days on
    10 January and in 26 days on 20 January. *)
Example reminder_examples :
  let now := instant 2025 1 20 0 0 in
  (getFullYear utc (nextSalaryDate utc now 31),
   getMonth utc (nextSalaryDate utc now 31),
   getDate utc (nextSalaryDate utc now 31)) = (2025, 1, 28) /\
  calculateDaysRemaining utc now 31 = Some 8 /\
  calculateDaysRemaining utc (instant 2025 0 10 0 0) 15 = Some 5 /\
  calculateDaysRemaining utc (instant 2025 0 20 0 0) 15 = Some 26.
Proof. vm_compute. repeat split. Qed.

(** C5 (amended). The calculator never returns a negative number.  A
    negative day difference is not reported as a fault: it yields the null
    result, the one an out-of-range day yields.  In a zone without clock
    changes the difference of a valid day is never negative and is returned
    as it is. *)
Theorem C5_negative_difference_yields_null :
  (forall z now D r, calculateDaysRemaining z now D = Some r -> 0 <= r) /\
  (forall z now D, diffDays z now D < 0 -> calculateDaysRemaining z now D = None) /\
  (forall z off now D,
      fixedOffset z off -> 99 < getFullYear z now -> 1 <= D <= 31 ->
      0 <= diffDays z now D /\
      calculateDaysRemaining z now D = Some (diffDays z now D)).
Proof.
  split; [|split].
  - intros z now D r. unfold calculateDaysRemaining.
    destruct ((D <? 1) || (D >? 31)); [discriminate|].
    destruct (Z.geb_spec (diffDays z now D) 0); [|discriminate].
    intros [= <-]. assumption.
  - intros z now D Hneg. unfold calculateDaysRemaining.
    destruct ((D <? 1) || (D >? 31)); [reflexivity|].
    destruct (Z.geb_spec (diffDays z now D) 0); [lia | reflexivity].
  - intros z off now D Hz Hy HD. split.
    + exact (diffDays_fixed_nonneg z off now Hz Hy D HD).
    + exact (calculateDaysRemaining_fixed z off now Hz Hy D HD).
Qed.

Lemma C5_witness :
  0 <= 8 /\
  calculateDaysRemaining newYork2025 (instant 2025 10 3 4 30) 2 = None /\
  (0 <= diffDays ist (instant 2025 11 31 19 0) 1 /\
   calculateDaysRemaining ist (instant 2025 11 31 19 0) 1 =
     Some (diffDays ist (instant 2025 11 31 19 0) 1)).
Proof.
  destruct C5_negative_difference_yields_null as (P1 & P2 & P3).
  split; [|split].
  - apply (P1 utc (instant 2025 1 20 0 0) 31 8). vm_compute. reflexivity.
  - apply (P2 newYork2025 (instant 2025 10 3 4 30) 2). vm_compute. reflexivity.
  - apply (P3 ist 19800000 (instant 2025 11 31 19 0) 1).
    + intros t. split; reflexivity.
    + vm_compute. reflexivity.
    + lia.
Defined.

(** C5, counterexample.  New York, 2 November 2025, 23:30 local time
    (4:30 UTC on the 3rd), salary day 2.  The clocks went back that day, so
    local midnight is 24.5 hours in the past: the day difference is -1 and
    the calculator returns null, as it does for the invalid day 0. *)
Lemma C5_counterexample :
  let now := instant 2025 10 3 4 30 in
  (getFullYear newYork2025 now, getMonth newYork2025 now, getDate newYork2025 now)
    = (2025, 10, 2) /\
  getTime (nextSalaryDate newYork2025 now 2) - getTime now = - 88200000 /\
  diffDays newYork2025 now 2 = -1 /\
  calculateDaysRemaining newYork2025 now 2 = None /\
  calculateDaysRemaining newYork2025 now 0 = None.
Proof. vm_compute. repeat split. Qed.






End ReminderClaims.

(* ===================================================================== *)
(** * The compact serialisation *)
(* ===================================================================== *)

(** [String.append] on a constructor. *)
Ltac sapp :=
  repeat match goal with
         | |- context [String.append (String ?c ?a) ?b] =>
             change (String.append (String c a) b) with (String c (String.append a b))
         | |- context [String.append EmptyString ?b] =>
             change (String.append EmptyString b) with b
         end.

Section JwtFacts.
Import Js Jwt.

Lemma string_app_assoc (a b c : string) : ((a ++ b) ++ c = a ++ (b ++ c))%string.
Proof. induction a as [|x a IH]; sapp; [reflexivity|]. rewrite IH. reflexivity. Qed.

Lemma dotFree_app a b : dotFree (a ++ b) = dotFree a && dotFree b.
Proof.
  induction a as [|c a IH]; sapp; cbn; [reflexivity|].
  rewrite IH. apply andb_assoc.
Qed.

Lemma splitDot_nonempty s : splitDot s <> [].
Proof.
  induction s as [|c s IH]; cbn; [discriminate|].
  destruct (Ascii.eqb c "."); [discriminate|].
  destruct (splitDot s); discriminate.
Qed.

Lemma splitDot_dotFree a : dotFree a = true -> splitDot a = [a].
Proof.
  induction a as [|c a IH]; cbn; [reflexivity|].
  destruct (Ascii.eqb c "."); cbn; [discriminate|].
  intros H. rewrite (IH H). reflexivity.
Qed.

Lemma splitDot_segment a r :
  dotFree a = true -> splitDot (a ++ String "." r) = a :: splitDot r.
Proof.
  induction a as [|c a IH]; sapp; cbn; [reflexivity|].
  destruct (Ascii.eqb c "."); cbn; [discriminate|].
  intros H. rewrite (IH H). reflexivity.
Qed.

Lemma splitDot_three h p s :
  dotFree h = true -> dotFree p = true -> dotFree s = true ->
  splitDot (h ++ "." ++ p ++ "." ++ s) = [h; p; s].
Proof.
  intros Hh Hp Hs. sapp.
  rewrite (splitDot_segment h) by exact Hh.
  rewrite (splitDot_segment p) by exact Hp.
  rewrite (splitDot_dotFree s) by exact Hs. reflexivity.
Qed.

(** A segment with a dot in it lengthens the list of segments. *)
Lemma splitDot_length_app a b :
  List.length (splitDot (a ++ String "." b)) =
  (List.length (splitDot a) + List.length (splitDot b))%nat.
Proof.
  induction a as [|c a IH]; sapp; cbn; [reflexivity|].
  destruct (Ascii.eqb c "."); cbn.
  - rewrite IH. reflexivity.
  - pose proof (splitDot_nonempty (a ++ String "." b)) as N1.
    pose proof (splitDot_nonempty a) as N2.
    destruct (splitDot (a ++ String "." b)) eqn:E1; [contradiction|].
    destruct (splitDot a) eqn:E2; [contradiction|].
    cbn in *. exact IH.
Qed.

Lemma splitDot_last_dotted s :
  dotFree s = false -> (2 <= List.length (splitDot s))%nat.
Proof.
  induction s as [|c s IH]; cbn; [discriminate|].
  destruct (Ascii.eqb c "."); cbn.
  - intros _. pose proof (splitDot_nonempty s). destruct (splitDot s); [contradiction|cbn; lia].
  - intros H. specialize (IH H). destruct (splitDot s) as [|x [|y l]]; cbn in *; lia.
Qed.

Lemma Qle_bool_inject a b : Qle_bool (inject_Z a) (inject_Z b) = (a <=? b).
Proof.
  unfold Qle_bool, inject_Z. cbn. rewrite !Z.mul_1_r. reflexivity.
Qed.

End JwtFacts.

(* ===================================================================== *)
(** * The computing instance meets the laws *)
(* ===================================================================== *)

Section ToyFacts.
Import Js Jwt ToyJose.

Lemma unbit_bit b : unbit (bit b) = Some b.
Proof. destruct b; reflexivity. Qed.

Lemma decAscii_enc a r : decAscii (encAscii a r) = Some (a, r).
Proof.
  destruct a as [b0 b1 b2 b3 b4 b5 b6 b7]. unfold encAscii, decAscii.
  rewrite !unbit_bit. reflexivity.
Qed.

Lemma decCount_enc n r : decCount (encCount n r) = Some (n, r).
Proof. induction n as [|n IH]; cbn; [reflexivity|]. rewrite IH. reflexivity. Qed.

Lemma decChars_enc s r : decChars (String.length s) (encChars s r) = Some (s, r).
Proof.
  induction s as [|a s IH]; cbn [String.length encChars decChars]; [reflexivity|].
  rewrite decAscii_enc, IH. reflexivity.
Qed.

Lemma decString_enc s r : decString (encString s r) = Some (s, r).
Proof. unfold decString, encString. rewrite decCount_enc. apply decChars_enc. Qed.

Lemma decPositive_enc p r : decPositive (encPositive p r) = Some (p, r).
Proof. induction p as [p IH|p IH|]; cbn; [rewrite IH..|]; reflexivity. Qed.

Lemma decZ_enc z r : decZ (encZ z r) = Some (z, r).
Proof. destruct z; cbn; [|rewrite decPositive_enc..]; reflexivity. Qed.

Lemma decValue_enc v r : decValue (encValue v r) = Some (v, r).
Proof.
  destruct v as [| |b|[n d]|s|]; cbn; try reflexivity.
  - rewrite unbit_bit. reflexivity.
  - rewrite decZ_enc, decPositive_enc. reflexivity.
  - rewrite decString_enc. reflexivity.
Qed.

Lemma decFields_enc l r : decFields (List.length l) (encFields l r) = Some (l, r).
Proof.
  induction l as [|[k v] l IH]; cbn [List.length encFields decFields]; [reflexivity|].
  rewrite decString_enc, decValue_enc, IH. reflexivity.
Qed.

Lemma toy_decode_encode (o : JsonObject) : toyDecodeJson (toyEncodeJson o) = Some o.
Proof.
  unfold toyDecodeJson, toyEncodeJson.
  rewrite decCount_enc, decFields_enc. f_equal. apply list_to_map_to_list.
Qed.

Lemma dotFree_bit b r : dotFree (String (bit b) r) = dotFree r.
Proof. destruct b; reflexivity. Qed.

Lemma dotFree_encAscii a r : dotFree (encAscii a r) = dotFree r.
Proof.
  destruct a as [b0 b1 b2 b3 b4 b5 b6 b7]. unfold encAscii.
  rewrite !dotFree_bit. reflexivity.
Qed.

Lemma dotFree_encCount n r : dotFree (encCount n r) = dotFree r.
Proof. induction n as [|n IH]; cbn; [reflexivity|exact IH]. Qed.

Lemma dotFree_encChars s r : dotFree (encChars s r) = dotFree r.
Proof.
  induction s as [|a s IH]; cbn [encChars]; [reflexivity|].
  rewrite dotFree_encAscii. exact IH.
Qed.

Lemma dotFree_encString s r : dotFree (encString s r) = dotFree r.
Proof. unfold encString. rewrite dotFree_encCount. apply dotFree_encChars. Qed.

Lemma dotFree_encPositive p r : dotFree (encPositive p r) = dotFree r.
Proof. induction p as [p IH|p IH|]; cbn; [exact IH..|reflexivity]. Qed.

Lemma dotFree_encZ z r : dotFree (encZ z r) = dotFree r.
Proof. destruct z; cbn; [reflexivity|apply dotFree_encPositive..]. Qed.

Lemma dotFree_encValue v r : dotFree (encValue v r) = dotFree r.
Proof.
  destruct v as [| |b|q|s|]; cbn [encValue]; try reflexivity.
  - cbn. destruct b; reflexivity.
  - cbn. rewrite dotFree_encZ. apply dotFree_encPositive.
  - cbn. apply dotFree_encString.
Qed.

Lemma dotFree_encFields l r : dotFree (encFields l r) = dotFree r.
Proof.
  induction l as [|[k v] l IH]; cbn [encFields]; [reflexivity|].
  rewrite dotFree_encString, dotFree_encValue. exact IH.
Qed.

Lemma toy_laws : JoseLaws toy.
Proof.
  split; cbn.
  - exact toy_decode_encode.
  - intros o. unfold toyEncodeJson. rewrite dotFree_encCount. apply dotFree_encFields.
  - intros alg key input. unfold toyHmac. cbn. rewrite !dotFree_encString. reflexivity.
  - intros alg key input. unfold toyHmac. discriminate.
Qed.

End ToyFacts.

(* ===================================================================== *)
(** * Issuing and verifying tokens *)
(* ===================================================================== *)

Section TokenFacts.
Import Js Jwt AuthUtils.
Context {J : Jose} (LJ : JoseLaws J).

Lemma append_dot_nonempty a b : String.eqb (a ++ String "." b) "" = false.
Proof. destruct a; reflexivity. Qed.

Lemma replaceAt_changes i c s :
  (i < String.length s)%nat -> String.get i s <> Some c -> replaceAt i c s <> s.
Proof.
  revert i. induction s as [|a s IH]; intros i Hi Hc; cbn in Hi; [lia|].
  destruct i as [|i]; cbn in *.
  - intros [= ->]. apply Hc. reflexivity.
  - intros [= E]. apply (IH i); [lia | exact Hc | exact E].
Qed.

Lemma signingInput_segments header payload s :
  dotFree s = true ->
  splitDot (signingInput header payload ++ String "." s) =
  [encodeJson header; encodeJson payload; s].
Proof.
  intros Hs. unfold signingInput. rewrite string_app_assoc.
  pose proof (splitDot_three (encodeJson header) (encodeJson payload) s) as H.
  revert H. sapp. intros H. apply H; [apply LJ.. | exact Hs].
Qed.

Lemma signingInput_dotted header payload s :
  dotFree s = false ->
  (4 <= List.length (splitDot (signingInput header payload ++ String "." s)))%nat.
Proof.
  intros Hs. unfold signingInput. rewrite string_app_assoc. sapp.
  rewrite (splitDot_segment (encodeJson header)) by apply LJ.
  cbn [List.length]. rewrite splitDot_length_app.
  rewrite (splitDot_dotFree (encodeJson payload)) by apply LJ.
  pose proof (splitDot_last_dotted s Hs). cbn [List.length]. lia.
Qed.

Lemma header_alg alg : joseHeader alg !! "alg" = Some (JStr alg).
Proof. unfold joseHeader. apply lookup_insert_eq. Qed.

(** A token whose third segment is the keyed hash of the first two is
    accepted up to the checks on its times. *)
Lemma verify_compact claims secret alg nowMs :
  secret <> "" -> existsb (String.eqb alg) hmacAlgorithms = true ->
  verify (compact (joseHeader alg) claims secret alg) secret nowMs =
  checkTimes claims (nowMs / 1000).
Proof.
  intros Hsecret Halg. unfold verify, compact. sapp.
  rewrite append_dot_nonempty.
  set (input := signingInput (joseHeader alg) claims).
  unfold input at 1. rewrite signingInput_segments by apply LJ.
  rewrite (decode_encode J LJ), header_alg.
  destruct (String.eqb_spec (hmac alg secret input) "") as [E | _];
    [exfalso; exact (hmac_nonempty J LJ _ _ _ E)|].
  destruct (String.eqb_spec secret "") as [E | _]; [contradiction|].
  rewrite Halg. cbn [negb].
  fold (signingInput (joseHeader alg) claims). fold input.
  rewrite String.eqb_refl. cbn [negb].
  rewrite (decode_encode J LJ). reflexivity.
Qed.

(** Any other third segment is refused. *)
Lemma verify_other_signature header claims secret nowMs s :
  (forall alg, header !! "alg" = Some (JStr alg) ->
     s <> hmac alg secret (signingInput header claims)) ->
  exists e, verify (signingInput header claims ++ String "." s) secret nowMs = Thrown e.
Proof.
  intros Hs. unfold verify.
  destruct (String.eqb _ ""); [eauto|].
  destruct (dotFree s) eqn:Hdot.
  - rewrite signingInput_segments by exact Hdot.
    rewrite (decode_encode J LJ).
    destruct (String.eqb s ""); [eauto|].
    destruct (String.eqb secret ""); [eauto|].
    destruct (header !! "alg") as [[| | | |alg|]|] eqn:Ha; eauto.
    destruct (negb (existsb (String.eqb alg) hmacAlgorithms)); [eauto|].
    fold (signingInput header claims).
    destruct (String.eqb_spec s (hmac alg secret (signingInput header claims))) as [E | _].
    + exfalso. exact (Hs alg eq_refl E).
    + cbn [negb]. eauto.
  - pose proof (signingInput_dotted header claims s Hdot) as Hlen.
    destruct (splitDot _) as [|a [|b [|c [|d l]]]]; cbn in Hlen; try lia; eauto.
Qed.

Lemma verify_malformed token secret nowMs :
  List.length (splitDot token) <> 3%nat ->
  exists e, verify token secret nowMs = Thrown e.
Proof.
  intros Hlen. unfold verify. destruct (String.eqb token ""); [eauto|].
  destruct (splitDot token) as [|a [|b [|c [|d l]]]]; cbn in Hlen; try lia; eauto.
Qed.

Lemma identityPayload_lookups u e iat exp :
  let o := stamp (identityPayload u e) iat exp in
  o !! "userId" = Some (JStr u) /\ o !! "email" = Some (JStr e) /\
  o !! "nbf" = None /\ o !! "exp" = Some (JNum (inject_Z exp)).
Proof.
  unfold stamp, identityPayload. cbv zeta. split; [|split; [|split]].
  - rewrite !lookup_insert_ne by discriminate. apply lookup_insert_eq.
  - rewrite !lookup_insert_ne by discriminate. apply lookup_singleton_eq.
  - rewrite !lookup_insert_ne by discriminate. apply lookup_singleton_ne. discriminate.
  - apply lookup_insert_eq.
Qed.

Lemma JWT_EXPIRES_IN_nonempty env : String.eqb (JWT_EXPIRES_IN env) "" = false.
Proof.
  unfold JWT_EXPIRES_IN. destruct (env !! "JWT_EXPIRES_IN") as [v|]; [|reflexivity].
  destruct (String.eqb v "") eqn:E; [reflexivity | exact E].
Qed.

Lemma getJWTSecret_nonempty env secret :
  getJWTSecret env = Returned secret -> secret <> "".
Proof.
  unfold getJWTSecret. destruct (env !! "JWT_SECRET") as [v|]; [|discriminate].
  destruct (String.eqb_spec v ""); [discriminate|]. intros [= <-]. assumption.
Qed.

(** The token [generateToken] issues at [t0]. *)
Lemma generateToken_issued env secret span t0 u e :
  getJWTSecret env = Returned secret ->
  ms (JWT_EXPIRES_IN env) = Some span ->
  generateToken env t0 u e =
  Returned (compact (joseHeader "HS256")
              (stamp (identityPayload u e) (t0 / 1000) (t0 / 1000 + span / 1000))
              secret "HS256").
Proof.
  intros Hs Hms. unfold generateToken, sign. rewrite Hs. cbn [bind].
  rewrite JWT_EXPIRES_IN_nonempty, Hms. reflexivity.
Qed.

Lemma checkTimes_issued u e iat exp clock :
  checkTimes (stamp (identityPayload u e) iat exp) clock =
  if exp <=? clock then Thrown (TokenExpiredError "jwt expired")
  else Returned (DecodedObject (stamp (identityPayload u e) iat exp)).
Proof.
  destruct (identityPayload_lookups u e iat exp) as (_ & _ & Hn & He).
  unfold checkTimes. rewrite Hn, He, Qle_bool_inject. reflexivity.
Qed.

Lemma verifyToken_total env nowMs token :
  exists r, verifyToken env nowMs token = Returned r.
Proof.
  unfold verifyToken.
  destruct (getJWTSecret env) as [secret|]; cbn [bind tryCatch]; [|eauto].
  destruct (verify token secret nowMs) as [[o|s]|]; cbn [bind tryCatch]; eauto.
  destruct (o !! "userId"), (o !! "email"); cbn [tryCatch]; eauto.
Qed.

Lemma verifyToken_thrown env secret nowMs token :
  getJWTSecret env = Returned secret ->
  (exists e, verify token secret nowMs = Thrown e) ->
  verifyToken env nowMs token = Returned None.
Proof.
  intros Hs [e He]. unfold verifyToken. rewrite Hs. cbn [bind]. rewrite He. reflexivity.
Qed.

End TokenFacts.

(* ===================================================================== *)
(** * Claims on tokens and on the middleware *)
(* ===================================================================== *)

Section TokenClaims.
Import Js Jwt AuthUtils Http AuthMiddleware AuthRoutes.

Lemma before_expiry t exp : t < exp * 1000 <-> t / 1000 < exp.
Proof. split; intros H; Z.to_euclidean_division_equations; lia. Qed.

(** C2. A token issued for a user id and an email verifies, at any time
    strictly before its expiry, to exactly that user id and email. *)
Theorem C2_verify_after_issue {J : Jose} (LJ : JoseLaws J)
    (env : Env) (secret : string) (span t0 t : Z) (u e : string) :
  getJWTSecret env = Returned secret ->
  ms (JWT_EXPIRES_IN env) = Some span ->
  t < (t0 / 1000 + span / 1000) * 1000 ->
  exists token,
    generateToken env t0 u e = Returned token /\
    verifyToken env t token = Returned (Some (mkIdentity (JStr u) (JStr e))).
Proof.
  intros Hs Hms Ht. eexists. split; [exact (generateToken_issued env secret span t0 u e Hs Hms)|].
  unfold verifyToken. rewrite Hs. cbn [bind].
  rewrite (verify_compact LJ) by (exact (getJWTSecret_nonempty env secret Hs) || reflexivity).
  rewrite checkTimes_issued.
  apply before_expiry in Ht. destruct (Z.leb_spec (t0 / 1000 + span / 1000) (t / 1000)); [lia|].
  cbn [bind].
  destruct (identityPayload_lookups u e (t0 / 1000) (t0 / 1000 + span / 1000)) as (-> & -> & _).
  reflexivity.
Qed.

(** C4. [verifyToken] never throws; it returns null whenever the library
    does not hand back a payload object: for a token that does not have
    three segments, for an issued token at or after its expiry, for an
    issued token with one character of its signature changed, and for any
    other signature under the issued header and payload. *)
Theorem C4_invalid_tokens_yield_null {J : Jose} (LJ : JoseLaws J) (env : Env) (nowMs : Z) :
  (forall token, exists r, verifyToken env nowMs token = Returned r) /\
  (forall secret token,
     getJWTSecret env = Returned secret ->
     (forall o, verify token secret nowMs <> Returned (DecodedObject o)) ->
     verifyToken env nowMs token = Returned None) /\
  (forall token, List.length (splitDot token) <> 3%nat ->
     verifyToken env nowMs token = Returned None) /\
  (forall secret span t0 u e,
     getJWTSecret env = Returned secret ->
     ms (JWT_EXPIRES_IN env) = Some span ->
     let input := signingInput (joseHeader "HS256")
                    (stamp (identityPayload u e) (t0 / 1000) (t0 / 1000 + span / 1000)) in
     let signature := hmac "HS256" secret input in
     generateToken env t0 u e = Returned (input ++ "." ++ signature)%string /\
     ((t0 / 1000 + span / 1000) * 1000 <= nowMs ->
        verifyToken env nowMs (input ++ "." ++ signature) = Returned None) /\
     (forall i c, (i < String.length signature)%nat -> String.get i signature <> Some c ->
        verifyToken env nowMs (input ++ "." ++ replaceAt i c signature) = Returned None) /\
     (forall s, s <> signature ->
        verifyToken env nowMs (input ++ "." ++ s) = Returned None)).
Proof.
  split; [|split; [|split]].
  - intros token. apply verifyToken_total.
  - intros secret token Hs Hno. unfold verifyToken. rewrite Hs. cbn [bind].
    destruct (verify token secret nowMs) as [[o|s]|x]; cbn [bind tryCatch]; try reflexivity.
    exfalso. exact (Hno o eq_refl).
  - intros token Hlen. unfold verifyToken.
    destruct (getJWTSecret env) as [secret|]; cbn [bind tryCatch]; [|reflexivity].
    destruct (verify_malformed token secret nowMs Hlen) as [x ->]. reflexivity.
  - intros secret span t0 u e Hs Hms input signature.
    assert (Hother : forall s, s <> signature ->
              verifyToken env nowMs (input ++ "." ++ s) = Returned None).
    { intros s Hne. apply (verifyToken_thrown env secret); [exact Hs|]. sapp.
      apply (verify_other_signature LJ). intros alg Ha.
      rewrite header_alg in Ha. injection Ha as <-. exact Hne. }
    split; [exact (generateToken_issued env secret span t0 u e Hs Hms)|].
    split; [|split; [|exact Hother]].
    + intros Hexp. unfold verifyToken. rewrite Hs. cbn [bind].
      change (input ++ "." ++ signature)%string
        with (compact (joseHeader "HS256")
                (stamp (identityPayload u e) (t0 / 1000) (t0 / 1000 + span / 1000))
                secret "HS256").
      rewrite (verify_compact LJ) by (exact (getJWTSecret_nonempty env secret Hs) || reflexivity).
      rewrite checkTimes_issued.
      destruct (Z.leb_spec (t0 / 1000 + span / 1000) (nowMs / 1000)) as [_ | Hlt];
        [reflexivity|].
      apply before_expiry in Hlt. lia.
    + intros i c Hi Hc. apply Hother. apply replaceAt_changes; assumption.
Qed.

(** C3 (amended). A request without a token and a request with a token
    that does not verify are both answered with status 401 and
    [success: false], but with different error messages, and only the
    second is logged. *)
Theorem C3_absent_and_invalid_tokens {J : Jose} (env : Env) (nowMs : Z) (req : Request) :
  let absent := failure 401 "No token provided. Please login first." in
  let invalid := failure 401 "Invalid or expired token. Please login again." in
  (truthyStr (requestToken req) = false ->
     authenticate env nowMs req = (Respond absent, [])) /\
  (forall token,
     requestToken req = Some token -> token <> "" ->
     verifyToken env nowMs token = Returned None ->
     authenticate env nowMs req =
       (Respond invalid,
        [mkLog Warn "Invalid token attempt"
           [("ip", JStr (ip req)); ("path", JStr (path req))]])) /\
  status absent = status invalid /\
  success absent = success invalid /\
  error absent <> error invalid.
Proof.
  cbv zeta. split; [|split; [|repeat split; discriminate]].
  - unfold authenticate, truthyStr. destruct (requestToken req) as [token|]; [|reflexivity].
    destruct (String.eqb token ""); [reflexivity | discriminate].
  - intros token Ht Hne Hv. unfold authenticate. rewrite Ht.
    destruct (String.eqb_spec token ""); [contradiction|].
    rewrite Hv. reflexivity.
Qed.


End TokenClaims.

Section TokenWitnesses.
Import Js Jwt AuthUtils Http AuthMiddleware AuthRoutes ToyJose Samples.

Lemma C2_witness :
  exists token,
    @generateToken toy env 1762041600000 "user-1" "ada@example.org" = Returned token /\
    @verifyToken toy env 1762300800000 token =
      Returned (Some (mkIdentity (JStr "user-1") (JStr "ada@example.org"))).
Proof.
  apply (C2_verify_after_issue toy_laws env "not-a-real-secret" 604800000).
  - reflexivity.
  - reflexivity.
  - vm_compute. reflexivity.
Defined.

Lemma C4_witness :
  let token :=
    match @generateToken toy env 1762041600000 "user-1" "ada@example.org" with
    | Returned t => t
    | Thrown _ => ""
    end in
  let input :=
    @signingInput toy (joseHeader "HS256")
      (stamp (identityPayload "user-1" "ada@example.org")
         (1762041600000 / 1000) (1762041600000 / 1000 + 604800000 / 1000)) in
  let signature := @hmac toy "HS256" "not-a-real-secret" input in
  (exists r, @verifyToken toy env 1762646400000 token = Returned r) /\
  @verifyToken toy env 1762646400000 "a.b.c" = Returned None /\
  @verifyToken toy env 1762646400000 "only.two" = Returned None /\
  @verifyToken toy env 1762646400000 token = Returned None /\
  @verifyToken toy env 1762646400000 (input ++ "." ++ replaceAt 0 "x" signature)
    = Returned None.
Proof.
  destruct (C4_invalid_tokens_yield_null toy_laws env 1762646400000) as (P1 & P2 & P3 & P4).
  destruct (P4 "not-a-real-secret" 604800000 1762041600000 "user-1" "ada@example.org"
              eq_refl eq_refl) as (Hgen & Hexp & Htamper & _).
  cbv zeta. split; [apply P1|]. split; [|split; [|split]].
  - apply (P2 "not-a-real-secret"); [reflexivity|]. intros o. vm_compute. discriminate.
  - apply P3. vm_compute. discriminate.
  - rewrite Hgen. apply Hexp. vm_compute. discriminate.
  - apply Htamper.
    + vm_compute. apply Nat.ltb_lt. reflexivity.
    + vm_compute. discriminate.
Defined.

Lemma C3_witness :
  @authenticate toy env 1762041600000 bareRequest =
    (Respond (failure 401 "No token provided. Please login first."), []) /\
  @authenticate toy env 1762041600000 garbageRequest =
    (Respond (failure 401 "Invalid or expired token. Please login again."),
     [mkLog Warn "Invalid token attempt"
        [("ip", JStr "203.0.113.7"); ("path", JStr "/salary")]]).
Proof.
  split.
  - apply (@C3_absent_and_invalid_tokens toy env 1762041600000 bareRequest). reflexivity.
  - apply (proj1 (proj2 (@C3_absent_and_invalid_tokens toy env 1762041600000 garbageRequest))
             "garbage").
    + reflexivity.
    + discriminate.
    + vm_compute. reflexivity.
Defined.

(** C3, counterexample.  The same protected path answers a request with no
    token and a request with a token that does not verify with different
    bodies. *)
Lemma C3_counterexample :
  fst (@authenticate toy env 1762041600000 bareRequest) =
    Respond (failure 401 "No token provided. Please login first.") /\
  fst (@authenticate toy env 1762041600000 garbageRequest) =
    Respond (failure 401 "Invalid or expired token. Please login again.") /\
  fst (@authenticate toy env 1762041600000 bareRequest) <>
  fst (@authenticate toy env 1762041600000 garbageRequest).
Proof. vm_compute. repeat split. discriminate. Qed.



End TokenWitnesses.

(* ===================================================================== *)
(** * Claims on the salary routes *)
(* ===================================================================== *)

Section SalaryClaims.
Import Js Http Db DbWrapper SalaryRoutes Samples.

Lemma executeQuery_trace now st w :
  trace (snd (executeQuery now st w)) = trace w ++ [st].
Proof.
  unfold executeQuery. destruct (run now st (database w)) as [[raw|e] db']; reflexivity.
Qed.

Lemma executeQuery_select now u w :
  executeQuery now (SelectReminderIdByUser u) w =
  (Returned (wrap (RawRows (map reminderIdRow
                              (List.filter (ownedBy u) (salary_reminders (database w)))))),
   mkWorld (database w) (trace w ++ [SelectReminderIdByUser u]) (logs w)).
Proof. reflexivity. Qed.

Lemma extends_ret {A : Type} (a : A) : extends (ret a).
Proof. intros w. exists []. cbn. rewrite app_nil_r. reflexivity. Qed.

Lemma extends_throw {A : Type} (e : Exn) : extends (@throw A e).
Proof. intros w. exists []. cbn. rewrite app_nil_r. reflexivity. Qed.

Lemma extends_logCall l msg data : extends (logCall l msg data).
Proof. intros w. exists []. cbn. rewrite app_nil_r. reflexivity. Qed.

Lemma extends_query now st : extends (executeQuery now st).
Proof. intros w. exists [st]. apply executeQuery_trace. Qed.

Lemma extends_firstRow l : extends (firstRow l).
Proof. destruct l; [apply extends_throw | apply extends_ret]. Qed.

Lemma extends_bind {A B : Type} (m : M A) (k : A -> M B) :
  extends m -> (forall a, extends (k a)) -> extends (mbind m k).
Proof.
  intros Hm Hk w. unfold mbind. destruct (Hm w) as [l Hl].
  destruct (m w) as [[a|e] w1]; cbn [snd] in *.
  - destruct (Hk a w1) as [l' Hl']. exists (l ++ l'). rewrite Hl', Hl, app_assoc. reflexivity.
  - exists l. exact Hl.
Qed.

Lemma query_first {A : Type} now st (k : QueryResult -> M A) :
  (forall r, extends (k r)) ->
  forall w, exists l, trace (snd (mbind (executeQuery now st) k w)) = trace w ++ st :: l.
Proof.
  intros Hk w. unfold mbind. pose proof (executeQuery_trace now st w) as T.
  destruct (executeQuery now st w) as [[r|e] w1]; cbn [snd] in *.
  - destruct (Hk r w1) as [l Hl]. exists l. rewrite Hl, T, <- app_assoc. reflexivity.
  - exists []. exact T.
Qed.

Lemma updateExisting_emits now u v w :
  exists l, trace (snd (updateExisting now u v w)) = trace w ++ UpdateReminder v u :: l.
Proof.
  apply query_first. intros r.
  apply extends_bind; [apply extends_query|]. intros r2.
  apply extends_bind; [apply extends_firstRow|]. intros row.
  apply extends_bind; [apply extends_logCall|]. intros _. apply extends_ret.
Qed.

Lemma createNew_emits now freshId u v w :
  exists l, trace (snd (createNew now freshId u v w)) = trace w ++ InsertReminder freshId u v :: l.
Proof.
  apply query_first. intros r.
  apply extends_bind; [apply extends_query|]. intros r2.
  apply extends_bind; [apply extends_firstRow|]. intros row.
  apply extends_bind; [apply extends_logCall|]. intros _. apply extends_ret.
Qed.

Lemma answerError_trace what req e w :
  trace (snd (answerError what req e w)) = trace w.
Proof. reflexivity. Qed.

(** The wrapper never reports that a statement affected no row. *)
Lemma wrap_header_affected n : 0 <= n -> 0 < affectedRows (wrap (RawHeader n)).
Proof. intros Hn. cbn. destruct (Z.eqb_spec n 0); lia. Qed.

(** DELETE /salary answers an authenticated user with the same message
    whatever the store holds. *)
Lemma deleteSalary_message now req w u :
  reqUserId req = Some (JStr u) -> u <> "" ->
  fst (deleteSalary now req w) =
  Returned (mkResponse 200 true DataNone (Some "Salary reminder deleted successfully") None).
Proof.
  intros Hu Hne. unfold deleteSalary, catch, mbind, executeQuery. rewrite Hu.
  cbn [truthy]. destruct (String.eqb_spec u ""); [contradiction|]. cbn [negb].
  cbn [run]. cbv iota beta.
  pose proof (wrap_header_affected
                (Z.of_nat (List.length (List.filter (ownedBy (JStr u)) (salary_reminders (database w)))))
                ltac:(lia)) as Hpos.
  apply Z.ltb_lt in Hpos. rewrite Hpos. reflexivity.
Qed.

(** C9.  DELETE /salary for a user who has no reminder: the server reports
    that no row was affected, [executeQuery] turns the 0 into 1, and the
    answer is the one given when a reminder was deleted. *)
Theorem C9_delete_of_absent_reminder_reports_deleted :
  let request := authenticated ∅ in
  let answer :=
    mkResponse 200 true DataNone (Some "Salary reminder deleted successfully") None in
  run 1762041600000 (DeleteReminder (JStr "user-1")) oneUser
    = (Returned (RawHeader 0), oneUser) /\
  affectedRows (wrap (RawHeader 0)) = 1 /\
  fst (deleteSalary 1762041600000 request (world oneUser)) = Returned answer /\
  fst (deleteSalary 1762041600000 request (world oneReminder)) = Returned answer.
Proof. vm_compute. repeat split. Qed.

Lemma rejectSalaryDate_accepts v :
  rejectSalaryDate v = None <->
  exists q, v = JNum q /\ ~ (q == 0)%Q /\ (1 <= q)%Q /\ (q <= 31)%Q.
Proof.
  unfold rejectSalaryDate. split.
  - destruct v as [| |b|q|s|]; cbn; try discriminate.
    + destruct b; discriminate.
    + destruct (Qeq_bool q 0) eqn:E0; cbn; [discriminate|].
      destruct (Qle_bool 1 q) eqn:E1; cbn; [|discriminate].
      destruct (Qle_bool q 31) eqn:E2; cbn; [|discriminate].
      intros _. exists q. repeat split.
      * intros H. apply Qeq_bool_iff in H. congruence.
      * apply Qle_bool_iff. exact E1.
      * apply Qle_bool_iff. exact E2.
    + destruct (String.eqb s ""); discriminate.
  - intros (q & -> & H0 & H1 & H2). cbn.
    destruct (Qeq_bool q 0) eqn:E0; [apply Qeq_bool_iff in E0; contradiction|].
    apply Qle_bool_iff in H1, H2. rewrite H1, H2. reflexivity.
Qed.

(** C10.  The validation of POST /salary accepts exactly the numbers that
    are not 0 and lie between 1 and 31, whole or not; 15.5 is accepted and
    is the parameter of the UPDATE or INSERT that follows. *)
Theorem C10_non_integer_salary_date_reaches_the_store :
  (forall v, rejectSalaryDate v = None <->
             exists q, v = JNum q /\ ~ (q == 0)%Q /\ (1 <= q)%Q /\ (q <= 31)%Q) /\
  rejectSalaryDate (JNum (31 # 2)) = None /\
  (forall now freshId req w u,
     reqUserId req = Some (JStr u) -> u <> "" ->
     body req !! "salaryDate" = Some (JNum (31 # 2)) ->
     exists rest,
       trace (snd (postSalary now freshId req w)) =
         trace w ++ SelectReminderIdByUser (JStr u) :: rest /\
       (head rest = Some (UpdateReminder (JNum (31 # 2)) (JStr u)) \/
        head rest = Some (InsertReminder freshId (JStr u) (JNum (31 # 2))))).
Proof.
  split; [exact rejectSalaryDate_accepts|]. split; [reflexivity|].
  intros now freshId req w u Hu Hne Hbody.
  assert (Hfield : field (body req) "salaryDate" = JNum (31 # 2))
    by (unfold field; rewrite Hbody; reflexivity).
  unfold postSalary. rewrite Hu, Hfield.
  cbn [truthy]. destruct (String.eqb_spec u ""); [contradiction|]. cbn [negb].
  change (rejectSalaryDate (JNum (31 # 2))) with (@None Response). cbv iota beta.
  unfold catch, mbind at 1. rewrite executeQuery_select.
  set (w1 := mkWorld _ _ _).
  assert (Hnext :
    exists st l,
      (st = UpdateReminder (JNum (31 # 2)) (JStr u) \/
       st = InsertReminder freshId (JStr u) (JNum (31 # 2))) /\
      trace (snd ((if 0 <? Z.of_nat (List.length (rows (wrap (RawRows
                       (map reminderIdRow
                          (List.filter (ownedBy (JStr u)) (salary_reminders (database w))))))))
                   then updateExisting now (JStr u) (JNum (31 # 2))
                   else createNew now freshId (JStr u) (JNum (31 # 2))) w1))
        = trace w1 ++ st :: l).
  { destruct (0 <? _).
    - destruct (updateExisting_emits now (JStr u) (JNum (31 # 2)) w1) as [l Hl]. eauto.
    - destruct (createNew_emits now freshId (JStr u) (JNum (31 # 2)) w1) as [l Hl]. eauto. }
  destruct Hnext as (st & l & Hst & Hl).
  match type of Hl with
  | trace (snd ?x) = _ => destruct x as [[r|e] w2]
  end; cbn [snd] in Hl |- *.
  - exists (st :: l). split.
    + rewrite Hl. unfold w1. cbn [trace]. rewrite <- app_assoc. reflexivity.
    + destruct Hst as [-> | ->]; [left | right]; reflexivity.
  - exists (st :: l). split.
    + rewrite answerError_trace, Hl. unfold w1. cbn [trace]. rewrite <- app_assoc. reflexivity.
    + destruct Hst as [-> | ->]; [left | right]; reflexivity.
Qed.

Lemma C10_witness :
  (exists q, JNum (31 # 2) = JNum q /\ ~ (q == 0)%Q /\ (1 <= q)%Q /\ (q <= 31)%Q) /\
  (exists rest,
     trace (snd (postSalary 1762041600000 "reminder-9"
                   (authenticated {[ "salaryDate" := JNum (31 # 2) ]}) (world oneUser))) =
       trace (world oneUser) ++ SelectReminderIdByUser (JStr "user-1") :: rest /\
     (head rest = Some (UpdateReminder (JNum (31 # 2)) (JStr "user-1")) \/
      head rest = Some (InsertReminder "reminder-9" (JStr "user-1") (JNum (31 # 2))))).
Proof.
  destruct C10_non_integer_salary_date_reaches_the_store as (P1 & P2 & P3).
  split.
  - apply (proj1 (P1 (JNum (31 # 2)))). exact P2.
  - apply (P3 1762041600000 "reminder-9"
             (authenticated {[ "salaryDate" := JNum (31 # 2) ]}) (world oneUser) "user-1").
    + reflexivity.
    + discriminate.
    + vm_compute. reflexivity.
Defined.

End SalaryClaims.

(* ===================================================================== *)
(** * Registration: one address, two requests *)
(* ===================================================================== *)

Section RegisterFacts.
Import Js Jwt AuthUtils Http Db Register.
Context {J : Jose}.
Variables (env : Env) (now : Z) (secret : string) (span : Z).
Hypothesis Hsecret : getJWTSecret env = Returned secret.
Hypothesis Hspan : ms (JWT_EXPIRES_IN env) = Some span.

Lemma emailTaken_count e l : emailTaken e l = negb (Nat.eqb (emailCount e l) 0).
Proof.
  unfold emailTaken, emailCount. induction l as [|r l IH]; cbn; [reflexivity|].
  destruct (String.eqb e (user_email r)); cbn; [reflexivity | exact IH].
Qed.

Lemma emailCount_app e l r :
  emailCount e (l ++ [r]) =
  (emailCount e l + if String.eqb e (user_email r) then 1 else 0)%nat.
Proof.
  unfold emailCount. rewrite List.filter_app, List.length_app. cbn.
  destruct (String.eqb e (user_email r)); reflexivity.
Qed.

Lemma keyTaken_email id e l : keyTaken id e l = false -> emailTaken e l = false.
Proof.
  unfold keyTaken, emailTaken. induction l as [|r l IH]; cbn; [reflexivity|].
  destruct (String.eqb e (user_email r)); cbn.
  - rewrite orb_true_r. discriminate.
  - rewrite orb_false_r. destruct (String.eqb id (user_id r)); cbn; [discriminate | exact IH].
Qed.

Lemma keyTaken_ids i j l :
  idsOk i j l -> keyTaken (freshId i) (email i) l = true -> emailTaken (email i) l = true.
Proof.
  unfold keyTaken, emailTaken. induction l as [|r l IH]; cbn; [discriminate|].
  intros Hids. destruct (String.eqb_spec (email i) (user_email r)) as [E | NE]; cbn.
  - reflexivity.
  - rewrite orb_false_r. destruct (String.eqb_spec (freshId i) (user_id r)) as [E | NE']; cbn.
    + exfalso. apply NE. symmetry. apply (Hids r); [left; reflexivity | left; symmetry; exact E].
    + apply IH. intros x Hx. apply Hids. right. exact Hx.
Qed.

Lemma good_sym k1 k2 n : good k1 k2 n = good k2 k1 n.
Proof. destruct k1, k2, n as [|[|[|n]]]; reflexivity. Qed.

Lemma Inv_sym i j s t c :
  email i = email j -> Inv now i j s t c -> Inv now j i t s c.
Proof.
  intros E (Hs & Ht & Hids & Hgood). repeat split; try assumption.
  - intros r Hr [H | H]; rewrite <- E; apply (Hids r Hr); [right | left]; exact H.
  - rewrite <- E, good_sym. exact Hgood.
Qed.

Lemma accepted_passes i :
  accepted i = true ->
  validationErrors i = [] /\
  String.eqb (name i) "" || String.eqb (email i) "" || String.eqb (password i) "" = false.
Proof.
  unfold accepted. destruct (validationErrors i); [|discriminate].
  intros H. split; [reflexivity|]. apply negb_true_iff. exact H.
Qed.

Lemma token_issued i : exists token, generateToken env now (freshId i) (email i) = Returned token.
Proof. eexists. exact (generateToken_issued env secret span now _ _ Hsecret Hspan). Qed.

(** The kinds two sessions can take, by cases on the count. *)
Ltac kinds k n H :=
  destruct k; destruct n as [|[|n]]; cbn in H |- *;
  try discriminate; try reflexivity; try assumption.

(** A step keeps the invariant. *)
Lemma Inv_advance i j s t c s' c' :
  accepted i = true -> email i = email j ->
  Inv now i j s t c ->
  advance env now i t s c = (s', c') ->
  Inv now i j s' t c'.
Proof.
  intros Hacc E (Hs & Ht & Hids & Hgood) Hadv.
  destruct (accepted_passes i Hacc) as [Herr Hblank].
  pose proof (emailTaken_count (email i) c) as Hcount.
  unfold advance, step in Hadv. unfold kind in Hgood.
  destruct (pc s) eqn:Hpc.
  - (* Validating *)
    rewrite Herr, Hblank in Hadv. injection Hadv as <- <-.
    split; [|split; [|split]]; try assumption. reflexivity.
  - (* Selecting *)
    destruct (emailTaken (email i) c) eqn:Htaken; injection Hadv as <- <-;
      (split; [|split; [|split]]); try assumption; try reflexivity.
    unfold kind at 1; cbn [pc status failure].
    fold (kind t) in *. symmetry in Hcount. apply negb_true_iff in Hcount.
    revert Hgood Hcount. generalize (emailCount (email i) c) as n. intros n Hgood Hn.
    kinds (kind t) n Hgood.
  - (* Inserting *)
    destruct (keyTaken (freshId i) (email i) (uncommitted t)) eqn:Hlock.
    { injection Hadv as <- <-. split; [|split; [|split]]; try assumption.
      unfold kind at 1. rewrite Hpc. exact Hgood. }
    assert (Hfree : isCom (kind t) = false).
    { unfold kind. red in Ht. destruct (pc t) eqn:Hpct; try reflexivity.
      - rewrite Ht in Hlock. cbn in Hlock. rewrite <- E, String.eqb_refl, orb_true_r in Hlock.
        discriminate.
      - destruct (status r =? 201); [reflexivity|]. destruct (_ || _); reflexivity. }
    destruct (keyTaken (freshId i) (email i) c) eqn:Hdup.
    + apply (keyTaken_ids i j) in Hdup; [|exact Hids]. rewrite Hdup in Hcount.
      injection Hadv as <- <-. split; [|split; [|split]]; try assumption; try reflexivity.
      unfold kind at 1. cbn [pc status failure answerUnexpected fst].
      fold (kind t) in *. symmetry in Hcount. apply negb_true_iff in Hcount.
      revert Hgood Hcount. generalize (emailCount (email i) c) as n. intros n Hgood Hn.
      kinds (kind t) n Hgood.
    + apply keyTaken_email in Hdup. rewrite Hdup in Hcount.
      injection Hadv as <- <-. split; [|split; [|split]]; try assumption; try reflexivity.
      unfold kind at 1. cbn [pc]. fold (kind t) in *.
      symmetry in Hcount. apply negb_false_iff in Hcount.
      revert Hgood Hcount Hfree. generalize (emailCount (email i) c) as n. intros n Hgood Hn.
      destruct (kind t); destruct n as [|[|n]]; cbn in *; try discriminate; reflexivity.
  - (* Committing *)
    destruct (token_issued i) as [token Htoken]. rewrite Htoken in Hadv.
    injection Hadv as <- <-. red in Hs. rewrite Hpc in Hs. rewrite Hs.
    split; [|split; [|split]]; try assumption; try reflexivity.
    + intros r Hr Hid. apply List.in_app_iff in Hr. destruct Hr as [Hr | [<- | []]].
      * exact (Hids r Hr Hid).
      * reflexivity.
    + unfold kind at 1. cbn [pc status]. rewrite emailCount_app. cbn [user_email].
      rewrite String.eqb_refl. fold (kind t) in *.
      revert Hgood. generalize (emailCount (email i) c) as n. intros n Hgood.
      destruct (kind t); destruct n as [|[|n]]; cbn in *; try discriminate; reflexivity.
  - (* Answered *)
    injection Hadv as <- <-. split; [|split; [|split]]; try assumption.
    unfold kind at 1. rewrite Hpc. exact Hgood.
Qed.

(** While the other request is not committing, a step brings a request
    closer to its answer. *)
Lemma advance_free i j s t c s' c' :
  accepted i = true -> email i = email j ->
  Inv now i j s t c -> isCom (kind t) = false ->
  advance env now i t s c = (s', c') ->
  (rank s' <= Nat.pred (rank s))%nat.
Proof.
  intros Hacc E (Hs & Ht & Hids & Hgood) Hfree Hadv.
  destruct (accepted_passes i Hacc) as [Herr Hblank].
  assert (Hnone : uncommitted t = []).
  { red in Ht. rewrite Ht. unfold kind in Hfree. destruct (pc t); try reflexivity. discriminate. }
  unfold advance, step in Hadv. unfold rank. destruct (pc s) eqn:Hpc.
  - rewrite Herr, Hblank in Hadv. injection Hadv as <- <-. cbn. lia.
  - destruct (emailTaken _ _); injection Hadv as <- <-; cbn; lia.
  - rewrite Hnone in Hadv. cbn [keyTaken existsb] in Hadv.
    destruct (keyTaken _ _ c); injection Hadv as <- <-; cbn; lia.
  - destruct (token_issued i) as [token Htoken]. rewrite Htoken in Hadv.
    injection Hadv as <- <-. cbn. lia.
  - injection Hadv as <- <-. rewrite Hpc. lia.
Qed.

(** While the other request is committing, a request goes on to its
    INSERT and waits there. *)
Lemma advance_held i j s t c s' c' :
  accepted i = true -> email i = email j ->
  Inv now i j s t c -> isCom (kind t) = true ->
  advance env now i t s c = (s', c') ->
  (2 <= rank s)%nat /\ (2 <= rank s')%nat /\ (rank s' <= Nat.max 2 (Nat.pred (rank s)))%nat.
Proof.
  intros Hacc E (Hs & Ht & Hids & Hgood) Hheld Hadv.
  destruct (accepted_passes i Hacc) as [Herr Hblank].
  pose proof (emailTaken_count (email i) c) as Hcount.
  assert (Hzero : emailCount (email i) c = 0%nat /\ (2 <= rank s)%nat).
  { revert Hgood. unfold rank, kind at 1. generalize (emailCount (email i) c) as n. intros n Hgood.
    destruct (pc s) as [| | | |r]; [| | | |destruct (status r =? 201);
      [|destruct ((status r =? 409) || (status r =? 500))]];
      destruct (kind t); try discriminate Hheld;
      destruct n as [|[|n]]; cbn in Hgood; try discriminate Hgood; split; (reflexivity || lia). }
  destruct Hzero as [Hzero Hrank]. rewrite Hzero in Hcount. cbn in Hcount.
  assert (Hrow : uncommitted t =
            [mkUser (freshId j) (name j) (email j) (hashedPassword j) now]).
  { red in Ht. rewrite Ht. unfold kind in Hheld. destruct (pc t) as [| | | |r]; try discriminate.
    - reflexivity.
    - destruct (status r =? 201); [discriminate|]. destruct (_ || _); discriminate. }
  split; [exact Hrank|].
  unfold advance, step in Hadv. unfold rank in *. destruct (pc s) eqn:Hpc.
  - rewrite Herr, Hblank in Hadv. injection Hadv as <- <-. cbn. lia.
  - rewrite Hcount in Hadv. injection Hadv as <- <-. cbn. lia.
  - rewrite Hrow in Hadv. cbn [keyTaken existsb user_email user_id] in Hadv.
    rewrite <- E, String.eqb_refl, !orb_true_r in Hadv. cbn [orb] in Hadv.
    injection Hadv as <- <-. rewrite Hpc. lia.
  - lia.
  - lia.
Qed.

(** The other request does not change its kind while this one steps. *)
Lemma advances_spec i j t k : forall s c s' c',
  accepted i = true -> email i = email j ->
  Inv now i j s t c ->
  advances env now i t k s c = (s', c') ->
  Inv now i j s' t c' /\
  (isCom (kind t) = false -> (rank s' <= rank s - k)%nat) /\
  (isCom (kind t) = true -> (2 <= rank s')%nat /\ (rank s' <= Nat.max 2 (rank s - k))%nat).
Proof.
  induction k as [|k IH]; intros s c s' c' Hacc E HI Hrun; cbn [advances] in Hrun.
  - injection Hrun as <- <-. split; [exact HI|]. split; [lia|].
    intros Hheld. destruct (advance env now i t s c) as [s1 c1] eqn:H1.
    destruct (advance_held i j s t c s1 c1 Hacc E HI Hheld H1) as (H2 & _). lia.
  - destruct (advance env now i t s c) as [s1 c1] eqn:H1.
    pose proof (Inv_advance i j s t c s1 c1 Hacc E HI H1) as HI1.
    destruct (IH s1 c1 s' c' Hacc E HI1 Hrun) as (HI' & Hfree & Hheld).
    split; [exact HI'|]. split.
    + intros Hf. specialize (Hfree Hf).
      pose proof (advance_free i j s t c s1 c1 Hacc E HI Hf H1). lia.
    + intros Hh. specialize (Hheld Hh).
      destruct (advance_held i j s t c s1 c1 Hacc E HI Hh H1) as (_ & _ & H3). lia.
Qed.

Lemma rank_answered s : rank s = 0%nat -> exists r, answer s = Some r /\ pc s = Answered r.
Proof. unfold rank, answer. destruct (pc s); try discriminate. eauto. Qed.

Lemma rank_inserting s : rank s = 2%nat -> isCom (kind s) = false.
Proof. unfold rank, kind. destruct (pc s); try discriminate. reflexivity. Qed.

Lemma rank_zero_free s : rank s = 0%nat -> isCom (kind s) = false.
Proof.
  unfold rank, kind. destruct (pc s) as [| | | |r]; try discriminate.
  destruct (status r =? 201); [reflexivity|]. destruct (_ || _); reflexivity.
Qed.

(** When both requests are answered, one got 201 and the other 409 or 500,
    and one row for the address is committed. *)
Lemma Inv_final i j s t c :
  Inv now i j s t c -> rank s = 0%nat -> rank t = 0%nat ->
  exists rs rt,
    answer s = Some rs /\ answer t = Some rt /\
    ((status rs = 201 /\ (status rt = 409 \/ status rt = 500)) \/
     (status rt = 201 /\ (status rs = 409 \/ status rs = 500))) /\
    emailCount (email i) c = 1%nat.
Proof.
  intros (_ & _ & _ & Hgood) Hs Ht.
  destruct (rank_answered s Hs) as (rs & Has & Hps).
  destruct (rank_answered t Ht) as (rt & Hat & Hpt).
  exists rs, rt. split; [exact Has|]. split; [exact Hat|].
  revert Hgood. unfold kind. rewrite Hps, Hpt.
  generalize (emailCount (email i) c) as n. intros n.
  destruct (Z.eqb_spec (status rs) 201), (Z.eqb_spec (status rs) 409),
    (Z.eqb_spec (status rs) 500), (Z.eqb_spec (status rt) 201),
    (Z.eqb_spec (status rt) 409), (Z.eqb_spec (status rt) 500);
    destruct n as [|[|[|n]]]; cbn; intros Hgood; try discriminate Hgood; try lia;
    (split; [|reflexivity]); auto.
Qed.

Lemma rank_le s : (rank s <= 4)%nat.
Proof. unfold rank. destruct (pc s); lia. Qed.

Section TwoRequests.
Variables a b : Input.
Hypothesis Ha : accepted a = true.
Hypothesis Hb : accepted b = true.
Hypothesis Hsame : email a = email b.

Lemma turn_inv t sys : SysInv now a b sys -> SysInv now a b (turn env now a b t sys).
Proof.
  unfold SysInv. intros HI. destruct t; unfold turn.
  - destruct (advance env now a _ _ _) as [s' c'] eqn:H. cbn.
    exact (Inv_advance a b _ _ _ s' c' Ha Hsame HI H).
  - destruct (advance env now b _ _ _) as [s' c'] eqn:H. cbn.
    apply Inv_sym; [symmetry; exact Hsame|].
    apply (Inv_advance b a (sessionB sys) (sessionA sys) (committedUsers sys) s' c'
             Hb (eq_sym Hsame)); [|exact H].
    apply Inv_sym; assumption.
Qed.

Lemma runSchedule_inv schedule : forall sys,
  SysInv now a b sys -> SysInv now a b (runSchedule env now a b schedule sys).
Proof.
  induction schedule as [|t l IH]; intros sys HI; [exact HI|].
  apply IH, turn_inv, HI.
Qed.

Lemma runSchedule_app l1 l2 sys :
  runSchedule env now a b (l1 ++ l2) sys =
  runSchedule env now a b l2 (runSchedule env now a b l1 sys).
Proof. apply fold_left_app. Qed.

Lemma turnsA k : forall sys,
  runSchedule env now a b (repeat TurnA k) sys =
  let '(s', c') := advances env now a (sessionB sys) k (sessionA sys) (committedUsers sys) in
  mkSystem c' s' (sessionB sys).
Proof.
  induction k as [|k IH]; intros sys; [destruct sys; reflexivity|].
  change (runSchedule env now a b (repeat TurnA (S k)) sys)
    with (runSchedule env now a b (repeat TurnA k) (turn env now a b TurnA sys)).
  rewrite IH. cbn [advances turn].
  destruct (advance env now a _ _ _) as [s1 c1]. reflexivity.
Qed.

Lemma turnsB k : forall sys,
  runSchedule env now a b (repeat TurnB k) sys =
  let '(s', c') := advances env now b (sessionA sys) k (sessionB sys) (committedUsers sys) in
  mkSystem c' (sessionA sys) s'.
Proof.
  induction k as [|k IH]; intros sys; [destruct sys; reflexivity|].
  change (runSchedule env now a b (repeat TurnB (S k)) sys)
    with (runSchedule env now a b (repeat TurnB k) (turn env now a b TurnB sys)).
  rewrite IH. cbn [advances turn].
  destruct (advance env now b _ _ _) as [s1 c1]. reflexivity.
Qed.

(** From any state the two requests can be in, [finish] answers both. *)
Lemma finish_answers sys :
  SysInv now a b sys ->
  rank (sessionA (runSchedule env now a b finish sys)) = 0%nat /\
  rank (sessionB (runSchedule env now a b finish sys)) = 0%nat.
Proof.
  intros HI.
  change finish with (repeat TurnA 4 ++ repeat TurnB 4 ++ repeat TurnA 4).
  rewrite !runSchedule_app.
  (* four turns of A *)
  rewrite (turnsA 4 sys).
  destruct (advances env now a (sessionB sys) 4 (sessionA sys) (committedUsers sys))
    as [sA1 c1] eqn:H1.
  destruct (advances_spec a b (sessionB sys) 4 _ _ sA1 c1 Ha Hsame HI H1)
    as (HI1 & Hfree1 & Hheld1).
  assert (HA1 : isCom (kind sA1) = false).
  { destruct (isCom (kind (sessionB sys))) eqn:HB.
    - destruct (Hheld1 eq_refl) as [L U]. pose proof (rank_le (sessionA sys)).
      apply rank_inserting. lia.
    - specialize (Hfree1 eq_refl). pose proof (rank_le (sessionA sys)).
      apply rank_zero_free. lia. }
  (* four turns of B *)
  rewrite (turnsB 4 (mkSystem c1 sA1 (sessionB sys))). cbn [sessionA sessionB committedUsers].
  destruct (advances env now b sA1 4 (sessionB sys) c1) as [sB2 c2] eqn:H2.
  destruct (advances_spec b a sA1 4 _ _ sB2 c2 Hb (eq_sym Hsame)
              (Inv_sym a b _ _ _ Hsame HI1) H2) as (HI2 & Hfree2 & _).
  specialize (Hfree2 HA1). pose proof (rank_le (sessionB sys)).
  assert (HB2 : rank sB2 = 0%nat) by lia.
  (* four turns of A *)
  rewrite (turnsA 4 (mkSystem c2 sA1 sB2)). cbn [sessionA sessionB committedUsers].
  destruct (advances env now a sB2 4 sA1 c2) as [sA3 c3] eqn:H3.
  destruct (advances_spec a b sB2 4 _ _ sA3 c3 Ha Hsame
              (Inv_sym b a _ _ _ (eq_sym Hsame) HI2) H3) as (HI3 & Hfree3 & _).
  specialize (Hfree3 (rank_zero_free sB2 HB2)). pose proof (rank_le sA1).
  cbn [sessionA sessionB]. split; [lia | exact HB2].
Qed.

Lemma initial_inv users0 :
  emailTaken (email a) users0 = false ->
  (forall r, In r users0 -> user_id r <> freshId a /\ user_id r <> freshId b) ->
  SysInv now a b (initial users0).
Proof.
  intros Hfree Hfresh. unfold SysInv, initial, Inv. cbn [sessionA sessionB committedUsers].
  split; [reflexivity|]. split; [reflexivity|]. split.
  - intros r Hr [H | H]; destruct (Hfresh r Hr); contradiction.
  - rewrite emailTaken_count in Hfree. apply negb_false_iff, Nat.eqb_eq in Hfree.
    rewrite Hfree. reflexivity.
Qed.

Lemma final_oneSucceeded sys :
  SysInv now a b sys ->
  rank (sessionA sys) = 0%nat -> rank (sessionB sys) = 0%nat ->
  oneSucceeded sys /\ emailCount (email a) (committedUsers sys) = 1%nat.
Proof.
  intros HI HA HB. destruct (Inv_final a b _ _ _ HI HA HB) as (rA & rB & H1 & H2 & H3 & H4).
  split; [|exact H4]. exists rA, rB. auto.
Qed.

End TwoRequests.

(** Alone, a request for an address that is taken is answered 409 and
    leaves the rows as they are. *)
Lemma register_conflict i users0 :
  accepted i = true -> emailTaken (email i) users0 = true ->
  register env now i users0 =
  (mkSession (Answered (failure 409 "User with this email already exists")) [], users0, []).
Proof.
  intros Hacc Htaken. destruct (accepted_passes i Hacc) as [Herr Hblank].
  unfold register, runAlone, start, step. cbn [pc].
  rewrite Herr, Hblank. cbn [pc]. rewrite Htaken. reflexivity.
Qed.

End RegisterFacts.

Section RegisterClaim.
Import Js Jwt AuthUtils Http Db Register.

(** A registration that passes validation for an address that is already
    in [users] is answered 409 and inserts nothing.  Of two registrations
    for one free address that run at the same time, in whatever order their
    statements reach the store, both are answered, one with 201 and the
    other with 409 or 500, and one row for the address is committed: the
    INSERT of the second meets the UNIQUE constraint, whether or not its
    SELECT saw the row. *)
Lemma one_registration_per_address {J : Jose} (env : Env) (now : Z) :
  (forall a users0,
     accepted a = true -> emailTaken (email a) users0 = true ->
     register env now a users0 =
     (mkSession (Answered (failure 409 "User with this email already exists")) [],
      users0, [])) /\
  (forall secret span a b users0,
     getJWTSecret env = Returned secret ->
     ms (JWT_EXPIRES_IN env) = Some span ->
     accepted a = true -> accepted b = true -> email a = email b ->
     (forall r, In r users0 -> user_id r <> freshId a /\ user_id r <> freshId b) ->
     emailTaken (email a) users0 = false ->
     forall schedule,
       (let final := runSchedule env now a b (schedule ++ finish) (initial users0) in
        oneSucceeded final /\ emailCount (email a) (committedUsers final) = 1%nat) /\
       (let final := runSchedule env now a b schedule (initial users0) in
        answer (sessionA final) <> None -> answer (sessionB final) <> None ->
        oneSucceeded final /\ emailCount (email a) (committedUsers final) = 1%nat)).
Proof.
  split.
  - intros a users0 Ha Htaken. exact (register_conflict env now a users0 Ha Htaken).
  - intros secret span a b users0 Hsecret Hspan Ha Hb Hsame Hfresh Hfree schedule.
    pose proof (initial_inv now a b users0 Hfree Hfresh) as H0.
    pose proof (runSchedule_inv env now secret span Hsecret Hspan a b Ha Hb Hsame schedule _ H0)
      as HI.
    split; cbv zeta.
    + rewrite runSchedule_app.
      destruct (finish_answers env now secret span Hsecret Hspan a b Ha Hb Hsame _ HI)
        as [HA HB].
      apply (final_oneSucceeded now a b); [|exact HA|exact HB].
      exact (runSchedule_inv env now secret span Hsecret Hspan a b Ha Hb Hsame finish _ HI).
    + intros HA HB. apply (final_oneSucceeded now a b); [exact HI| |].
      * unfold answer in HA. unfold rank. destruct (pc _); try contradiction. reflexivity.
      * unfold answer in HB. unfold rank. destruct (pc _); try contradiction. reflexivity.
Qed.

Lemma one_registration_per_address_example :
  @register ToyJose.toy Samples.env 1762041600000 Samples.adaSecond (users Samples.oneUser) =
    (mkSession (Answered (failure 409 "User with this email already exists")) [],
     users Samples.oneUser, []) /\
  (let final :=
     @runSchedule ToyJose.toy Samples.env 1762041600000 Samples.adaFirst Samples.adaSecond
       ([TurnA; TurnB; TurnB; TurnA] ++ finish) (initial Samples.otherUsers) in
   oneSucceeded final /\
   emailCount (email Samples.adaFirst) (committedUsers final) = 1%nat).
Proof.
  destruct (@one_registration_per_address ToyJose.toy Samples.env 1762041600000)
    as [H1 H2].
  split.
  - apply H1; reflexivity.
  - refine (proj1 (H2 "not-a-real-secret" 604800000 Samples.adaFirst Samples.adaSecond
                     Samples.otherUsers eq_refl eq_refl eq_refl eq_refl eq_refl _ eq_refl
                     [TurnA; TurnB; TurnB; TurnA])).
    intros r [<- | []]. split; discriminate.
Qed.

(** C8.  Two registrations for one free address, sent at the same time, so
    that each runs its SELECT before the other has committed.  The first is
    answered 201 and its row is committed; the INSERT of the second waits
    for the first, then fails on the UNIQUE constraint, and the request is
    answered 500 "Duplicate entry", not 409.  When the second reads after
    the first has committed, and when it is sent alone for an address that
    is taken, it is answered 409. *)
Theorem C8_concurrent_duplicate_is_answered_500 :
  let run schedule :=
    @runSchedule ToyJose.toy Samples.env 1762041600000 Samples.adaFirst Samples.adaSecond
      schedule (initial Samples.otherUsers) in
  let early := run [TurnA; TurnB; TurnA; TurnB; TurnA; TurnB; TurnA; TurnB] in
  let late := run [TurnA; TurnA; TurnA; TurnA; TurnB; TurnB] in
  (succeeded (sessionA early) = true /\
   answer (sessionB early) = Some (failure 500 "Duplicate entry") /\
   answer (sessionB early) <> Some (failure 409 "User with this email already exists") /\
   emailCount "ada@example.org" (committedUsers early) = 1%nat) /\
  (succeeded (sessionA late) = true /\
   answer (sessionB late) = Some (failure 409 "User with this email already exists") /\
   emailCount "ada@example.org" (committedUsers late) = 1%nat) /\
  @register ToyJose.toy Samples.env 1762041600000 Samples.adaSecond (users Samples.oneUser) =
    (mkSession (Answered (failure 409 "User with this email already exists")) [],
     users Samples.oneUser, []).
Proof. vm_compute. repeat split. discriminate. Qed.

End RegisterClaim.

(* ===================================================================== *)
(** * More on the reminder calculator *)
(* ===================================================================== *)

Section ReminderFacts.

(** The day after: the date goes up by one inside a month and back to 1
    at its end. *)
Lemma civil_next_day n :
  (DateFromDay n < DaysInMonth (YearFromDay n) (MonthFromDay n) ->
   YearFromDay (n + 1) = YearFromDay n /\
   MonthFromDay (n + 1) = MonthFromDay n /\
   DateFromDay (n + 1) = DateFromDay n + 1) /\
  (DateFromDay n = DaysInMonth (YearFromDay n) (MonthFromDay n) ->
   YearFromDay n <= YearFromDay (n + 1) /\ DateFromDay (n + 1) = 1).
Proof.
  destruct (civil_decompose n) as (Hm & Hcd & Hn).
  set (y := YearFromDay n) in *. set (m := MonthFromDay n) in *.
  set (cd := DateFromDay n) in *.
  split; intros H.
  - replace (n + 1) with (MakeDay y m (cd + 1))
      by (rewrite (MakeDay_shift y m (cd + 1) cd); lia).
    apply civil_compose; lia.
  - assert (E : n + 1 = MakeDay y (m + 1) 1).
    { rewrite MakeDay_next_month by exact Hm.
      rewrite (MakeDay_shift y m 1 cd). lia. }
    rewrite E. destruct (Z.eq_dec m 11) as [E11 | NE].
    + assert (E' : MakeDay y (m + 1) 1 = MakeDay (y + 1) 0 1).
      { rewrite E11. unfold MakeDay. change ((11 + 1) / 12) with 1.
        change ((11 + 1) mod 12) with 0. change (0 / 12) with 0.
        change (0 mod 12) with 0. replace (y + 1 + 0) with (y + 1) by lia. reflexivity. }
      rewrite E'.
      destruct (civil_compose (y + 1) 0 1 ltac:(lia)) as (-> & _ & ->).
      * pose proof (DaysInMonth_range (y + 1) 0). lia.
      * lia.
    + destruct (civil_compose y (m + 1) 1 ltac:(lia)) as (-> & _ & ->).
      * pose proof (DaysInMonth_range y (m + 1)). lia.
      * lia.
Qed.

(** In a zone without clock changes a day later is the next local day. *)
Lemma fixed_next_day z off now :
  fixedOffset z off -> Day (LocalTime z (now + msPerDay)) = Day (LocalTime z now) + 1.
Proof.
  intros Hz. unfold Day, LocalTime. rewrite !(proj1 (Hz _)).
  unfold msPerDay. Z.to_euclidean_division_equations; lia.
Qed.

(** The closed form of the result in a zone without clock changes. *)
Lemma reminder_closed_form z off now D :
  fixedOffset z off -> 99 < getFullYear z now -> 1 <= D <= 31 ->
  calculateDaysRemaining z now D =
  Some ((if D <? getDate z now then DaysInMonth (getFullYear z now) (getMonth z now) + D
         else if (D =? 31) && (DaysInMonth (getFullYear z now) (getMonth z now) <? 31)
              then DaysInMonth (getFullYear z now) (getMonth z now)
              else D) - getDate z now).
Proof.
  intros Hz Hy HD.
  rewrite (calculateDaysRemaining_fixed z off now Hz Hy D HD).
  rewrite (diffDays_fixed z off now Hz Hy D HD). reflexivity.
Qed.

(** X1.  In a time zone without clock changes, for every valid salary day
    and every instant (of a year past 99), the calculator returns a number
    of days between 0 and 30: the next salary date is never more than 30
    days away. *)
Theorem reminder_within_thirty_days (z : Zone) (off now D : Z) :
  fixedOffset z off -> 99 < getFullYear z now -> 1 <= D <= 31 ->
  exists r, calculateDaysRemaining z now D = Some r /\ 0 <= r <= 30.
Proof.
  intros Hz Hy HD. rewrite (reminder_closed_form z off now D Hz Hy HD).
  eexists. split; [reflexivity|].
  unfold getDate, getFullYear, getMonth.
  destruct (civil_decompose (Day (LocalTime z now))) as (Hm & Hcd & Hn).
  pose proof (DaysInMonth_range (YearFromDay (Day (LocalTime z now)))
                (MonthFromDay (Day (LocalTime z now)))) as Hlen.
  set (cd := DateFromDay _) in *. set (len := DaysInMonth _ _) in *.
  destruct (Z.ltb_spec D cd); [lia|].
  destruct (Z.eqb_spec D 31), (Z.ltb_spec len 31); cbn [andb]; lia.
Qed.

Lemma reminder_within_thirty_days_witness :
  exists r, calculateDaysRemaining ist (instant 2025 5 14 20 45) 10 = Some r /\ 0 <= r <= 30.
Proof.
  apply (reminder_within_thirty_days ist 19800000).
  - intros t. split; reflexivity.
  - vm_compute. reflexivity.
  - lia.
Defined.

(** X2.  In a time zone without clock changes the result depends on the
    local calendar day only: two instants of the same local day give the
    same answer for every salary day, valid or not. *)
Theorem reminder_same_day_any_hour (z : Zone) (off now1 now2 D : Z) :
  fixedOffset z off -> 99 < getFullYear z now1 ->
  Day (LocalTime z now1) = Day (LocalTime z now2) ->
  calculateDaysRemaining z now1 D = calculateDaysRemaining z now2 D.
Proof.
  intros Hz Hy Hsame.
  assert (Hy2 : 99 < getFullYear z now2) by (unfold getFullYear in *; rewrite <- Hsame; exact Hy).
  destruct (Z.ltb_spec D 1) as [Hlo | Hlo].
  - unfold calculateDaysRemaining. destruct (Z.ltb_spec D 1); [reflexivity | lia].
  - destruct (Z.gtb_spec D 31) as [Hhi | Hhi].
    + unfold calculateDaysRemaining. destruct (Z.gtb_spec D 31); [|lia].
      rewrite orb_true_r. reflexivity.
    + rewrite (reminder_closed_form z off now1 D Hz Hy) by lia.
      rewrite (reminder_closed_form z off now2 D Hz Hy2) by lia.
      unfold getDate, getFullYear, getMonth. rewrite Hsame. reflexivity.
Qed.

Lemma reminder_same_day_any_hour_witness :
  calculateDaysRemaining ist (instant 2025 5 14 0 5) 20 =
  calculateDaysRemaining ist (instant 2025 5 14 18 0) 20.
Proof.
  apply (reminder_same_day_any_hour ist 19800000).
  - intros t. split; reflexivity.
  - vm_compute. reflexivity.
  - vm_compute. reflexivity.
Defined.

(** X3.  For a salary day up to the 28th, in a time zone without clock
    changes, the answer counts down: if it is r > 0 now, it is r - 1
    twenty-four hours later. *)
Theorem reminder_counts_down (z : Zone) (off now D r : Z) :
  fixedOffset z off -> 99 < getFullYear z now -> 1 <= D <= 28 ->
  calculateDaysRemaining z now D = Some r -> 0 < r ->
  calculateDaysRemaining z (now + msPerDay) D = Some (r - 1).
Proof.
  intros Hz Hy HD Hr Hpos.
  rewrite (reminder_closed_form z off now D Hz Hy) in Hr by lia.
  injection Hr as Hr.
  pose proof (fixed_next_day z off now Hz) as Hnext.
  destruct (civil_decompose (Day (LocalTime z now))) as (Hm & Hcd & Hn).
  destruct (civil_next_day (Day (LocalTime z now))) as [Hin Hend].
  pose proof (DaysInMonth_range (YearFromDay (Day (LocalTime z now)))
                (MonthFromDay (Day (LocalTime z now)))) as Hlen.
  assert (Hy' : 99 < getFullYear z (now + msPerDay)).
  { unfold getFullYear in *. rewrite Hnext.
    destruct (Z.eq_dec (DateFromDay (Day (LocalTime z now)))
                (DaysInMonth (YearFromDay (Day (LocalTime z now)))
                   (MonthFromDay (Day (LocalTime z now))))) as [E | NE].
    - destruct (Hend E). lia.
    - destruct Hin as (-> & _); lia. }
  rewrite (reminder_closed_form z off (now + msPerDay) D Hz Hy') by lia.
  unfold getDate, getFullYear, getMonth in *. rewrite Hnext.
  assert (E31 : (D =? 31) = false) by (apply Z.eqb_neq; lia).
  rewrite E31 in *. cbn [andb] in *.
  set (cd := DateFromDay (Day (LocalTime z now))) in *.
  set (len := DaysInMonth _ _) in *.
  destruct (Z.eq_dec cd len) as [E | NE].
  - destruct (Hend E) as [_ ->].
    destruct (Z.ltb_spec D 1); [lia|].
    destruct (Z.ltb_spec D cd); f_equal; lia.
  - destruct Hin as (-> & -> & ->); [lia|]. fold len.
    destruct (Z.ltb_spec D (cd + 1)), (Z.ltb_spec D cd); f_equal; lia.
Qed.

Lemma reminder_counts_down_witness :
  calculateDaysRemaining utc (instant 2025 0 31 9 0 + msPerDay) 15 = Some (15 - 1).
Proof.
  apply (reminder_counts_down utc 0 (instant 2025 0 31 9 0) 15 15).
  - intros t. split; reflexivity.
  - vm_compute. reflexivity.
  - lia.
  - vm_compute. reflexivity.
  - lia.
Defined.

(** X4.  For a salary day up to the 28th, in every zone whose local
    midnights exist, the next salary date falls on that day of the month:
    in the current month when the day is today or still ahead, and in the
    following month (January of the next year after December) when it has
    passed. *)
Theorem next_salary_date_falls_on_the_day (z : Zone) (now D : Z) :
  keepsMidnights z -> 99 < getFullYear z now -> 1 <= D <= 28 ->
  getDate z (nextSalaryDate z now D) = D /\
  (getDate z now <= D ->
   getMonth z (nextSalaryDate z now D) = getMonth z now /\
   getFullYear z (nextSalaryDate z now D) = getFullYear z now) /\
  (D < getDate z now ->
   getMonth z (nextSalaryDate z now D) = (getMonth z now + 1) mod 12 /\
   getFullYear z (nextSalaryDate z now D) = getFullYear z now + (getMonth z now + 1) / 12).
Proof.
  intros Hmid Hy HD.
  rewrite (nextSalaryDate_day z now Hmid Hy D) by lia.
  destruct (civil_of_midnight z
    (Day (LocalTime z now) - DateFromDay (Day (LocalTime z now)) +
     (if D <? DateFromDay (Day (LocalTime z now))
      then DaysInMonth (YearFromDay (Day (LocalTime z now)))
             (MonthFromDay (Day (LocalTime z now))) + D
      else if (D =? 31) && (DaysInMonth (YearFromDay (Day (LocalTime z now)))
                              (MonthFromDay (Day (LocalTime z now))) <? 31)
           then DaysInMonth (YearFromDay (Day (LocalTime z now)))
                  (MonthFromDay (Day (LocalTime z now)))
           else D)) Hmid) as (-> & -> & ->).
  unfold getDate, getFullYear, getMonth.
  destruct (civil_decompose (Day (LocalTime z now))) as (Hm & Hcd & Hn).
  set (n := Day (LocalTime z now)) in *.
  set (y := YearFromDay n) in *. set (m := MonthFromDay n) in *.
  set (cd := DateFromDay n) in *.
  pose proof (DaysInMonth_range y m) as Hlen.
  assert (E31 : (D =? 31) = false) by (apply Z.eqb_neq; lia).
  rewrite E31. cbn [andb].
  destruct (Z.ltb_spec D cd) as [Hlt | Hge].
  - assert (E : n - cd + (DaysInMonth y m + D) = MakeDay y (m + 1) D).
    { rewrite MakeDay_next_month by exact Hm. rewrite (MakeDay_shift y m D cd). lia. }
    rewrite E. destruct (Z.eq_dec m 11) as [E11 | NE].
    + assert (E' : MakeDay y (m + 1) D = MakeDay (y + 1) 0 D).
      { rewrite E11. unfold MakeDay. change ((11 + 1) / 12) with 1.
        change ((11 + 1) mod 12) with 0. change (0 / 12) with 0.
        change (0 mod 12) with 0. replace (y + 1 + 0) with (y + 1) by lia. reflexivity. }
      rewrite E'. pose proof (DaysInMonth_range (y + 1) 0).
      destruct (civil_compose (y + 1) 0 D ltac:(lia) ltac:(lia)) as (-> & -> & ->).
      rewrite E11. split; [reflexivity|]. split; [lia|]. intros _. split; reflexivity.
    + pose proof (DaysInMonth_range y (m + 1)).
      destruct (civil_compose y (m + 1) D ltac:(lia) ltac:(lia)) as (-> & -> & ->).
      split; [reflexivity|]. split; [lia|]. intros _.
      rewrite Z.mod_small, Z.div_small by lia. split; lia.
  - assert (E : n - cd + D = MakeDay y m D)
      by (rewrite (MakeDay_shift y m D cd); lia).
    rewrite E.
    destruct (civil_compose y m D Hm ltac:(lia)) as (-> & -> & ->).
    split; [reflexivity|]. split; [intros _; split; reflexivity | lia].
Qed.

Lemma next_salary_date_falls_on_the_day_witness :
  getDate newYork2025 (nextSalaryDate newYork2025 (instant 2025 11 20 15 0) 5) = 5 /\
  getMonth newYork2025 (nextSalaryDate newYork2025 (instant 2025 11 20 15 0) 5) = 0 /\
  getFullYear newYork2025 (nextSalaryDate newYork2025 (instant 2025 11 20 15 0) 5) = 2026.
Proof.
  destruct (next_salary_date_falls_on_the_day newYork2025 (instant 2025 11 20 15 0) 5)
    as (H1 & _ & H3).
  - exact newYork2025_keepsMidnights.
  - vm_compute. reflexivity.
  - lia.
  - split; [exact H1|]. apply H3. vm_compute. reflexivity.
Defined.

(** X5.  Only day 31 is clamped to the end of a short month.  In February
    a salary day of 29 or 30 that the month does not have is not moved to
    the last day of February: in every zone whose local midnights exist the
    next salary date is the day D - (length of February) of March, and in a
    zone without clock changes the answer is D minus today's day of the
    month. *)
Theorem days_29_and_30_spill_into_march (z : Zone) (now D : Z) :
  keepsMidnights z -> 99 < getFullYear z now ->
  getMonth z now = 1 -> DaysInMonth (getFullYear z now) 1 < D <= 30 ->
  getMonth z (nextSalaryDate z now D) = 2 /\
  getDate z (nextSalaryDate z now D) = D - DaysInMonth (getFullYear z now) 1 /\
  (forall off, fixedOffset z off ->
     calculateDaysRemaining z now D = Some (D - getDate z now)).
Proof.
  intros Hmid Hy Hfeb HD.
  pose proof (DaysInMonth_range (getFullYear z now) 1) as Hlen.
  assert (E31 : (D =? 31) = false) by (apply Z.eqb_neq; lia).
  assert (Hcd : (D <? getDate z now) = false).
  { apply Z.ltb_ge.
    destruct (civil_decompose (Day (LocalTime z now))) as (_ & Hcd & _).
    unfold getDate, getFullYear, getMonth in *. rewrite Hfeb in Hcd. lia. }
  split; [|split].
  - rewrite (nextSalaryDate_day z now Hmid Hy D) by lia.
    destruct (civil_of_midnight z
      (Day (LocalTime z now) - DateFromDay (Day (LocalTime z now)) +
       (if D <? DateFromDay (Day (LocalTime z now))
        then DaysInMonth (YearFromDay (Day (LocalTime z now)))
               (MonthFromDay (Day (LocalTime z now))) + D
        else if (D =? 31) && (DaysInMonth (YearFromDay (Day (LocalTime z now)))
                                (MonthFromDay (Day (LocalTime z now))) <? 31)
             then DaysInMonth (YearFromDay (Day (LocalTime z now)))
                    (MonthFromDay (Day (LocalTime z now)))
             else D)) Hmid) as (_ & -> & _).
    unfold getDate, getFullYear, getMonth in *.
    destruct (civil_decompose (Day (LocalTime z now))) as (Hm & Hd & Hn).
    rewrite Hcd, E31. cbn [andb]. rewrite Hfeb in *.
    set (n := Day (LocalTime z now)) in *. set (y := YearFromDay n) in *.
    set (cd := DateFromDay n) in *.
    assert (E : n - cd + D = MakeDay y (1 + 1) (D - DaysInMonth y 1)).
    { rewrite MakeDay_next_month by lia.
      rewrite (MakeDay_shift y 1 (D - DaysInMonth y 1) cd). lia. }
    rewrite E. change (1 + 1) with 2.
    destruct (civil_compose y 2 (D - DaysInMonth y 1) ltac:(lia)) as (_ & -> & _).
    + change (DaysInMonth y 2) with 31. lia.
    + reflexivity.
  - rewrite (nextSalaryDate_day z now Hmid Hy D) by lia.
    destruct (civil_of_midnight z
      (Day (LocalTime z now) - DateFromDay (Day (LocalTime z now)) +
       (if D <? DateFromDay (Day (LocalTime z now))
        then DaysInMonth (YearFromDay (Day (LocalTime z now)))
               (MonthFromDay (Day (LocalTime z now))) + D
        else if (D =? 31) && (DaysInMonth (YearFromDay (Day (LocalTime z now)))
                                (MonthFromDay (Day (LocalTime z now))) <? 31)
             then DaysInMonth (YearFromDay (Day (LocalTime z now)))
                    (MonthFromDay (Day (LocalTime z now)))
             else D)) Hmid) as (_ & _ & ->).
    unfold getDate, getFullYear, getMonth in *.
    destruct (civil_decompose (Day (LocalTime z now))) as (Hm & Hd & Hn).
    rewrite Hcd, E31. cbn [andb]. rewrite Hfeb in *.
    set (n := Day (LocalTime z now)) in *. set (y := YearFromDay n) in *.
    set (cd := DateFromDay n) in *.
    assert (E : n - cd + D = MakeDay y (1 + 1) (D - DaysInMonth y 1)).
    { rewrite MakeDay_next_month by lia.
      rewrite (MakeDay_shift y 1 (D - DaysInMonth y 1) cd). lia. }
    rewrite E. change (1 + 1) with 2.
    destruct (civil_compose y 2 (D - DaysInMonth y 1) ltac:(lia)) as (_ & _ & ->).
    + change (DaysInMonth y 2) with 31. lia.
    + reflexivity.
  - intros off Hz.
    rewrite (reminder_closed_form z off now D Hz Hy) by lia.
    rewrite Hcd, E31. reflexivity.
Qed.

Lemma days_29_and_30_spill_into_march_witness :
  (getMonth newYork2025 (nextSalaryDate newYork2025 (instant 2025 1 10 17 0) 30) = 2 /\
   getDate newYork2025 (nextSalaryDate newYork2025 (instant 2025 1 10 17 0) 30)
     = 30 - DaysInMonth (getFullYear newYork2025 (instant 2025 1 10 17 0)) 1) /\
  calculateDaysRemaining utc (instant 2025 1 10 12 0) 30
    = Some (30 - getDate utc (instant 2025 1 10 12 0)).
Proof.
  split.
  - destruct (days_29_and_30_spill_into_march newYork2025 (instant 2025 1 10 17 0) 30)
      as (H1 & H2 & _).
    + exact newYork2025_keepsMidnights.
    + vm_compute. reflexivity.
    + vm_compute. reflexivity.
    + vm_compute. split; [reflexivity | discriminate].
    + split; [exact H1 | exact H2].
  - destruct (days_29_and_30_spill_into_march utc (instant 2025 1 10 12 0) 30)
      as (_ & _ & H3).
    + exact (fixed_keepsMidnights utc 0 (fun t => conj eq_refl eq_refl)).
    + vm_compute. reflexivity.
    + vm_compute. reflexivity.
    + vm_compute. split; [reflexivity | discriminate].
    + apply (H3 0). intros t. split; reflexivity.
Defined.

End ReminderFacts.

(* ===================================================================== *)
(** * The reminder form and what it sends *)
(* ===================================================================== *)

Section ViewFacts.
Import Js Http SalaryRoutes SalaryView.

(** A whole day from 1 to 31 passes the validation of POST /salary. *)
Lemma rejectSalaryDate_integer d :
  1 <= d <= 31 -> rejectSalaryDate (JNum (inject_Z d)) = None.
Proof.
  intros Hd. apply rejectSalaryDate_accepts. exists (inject_Z d).
  split; [reflexivity|]. split; [|split].
  - unfold Qeq, inject_Z. cbn [Qnum Qden]. lia.
  - unfold Qle, inject_Z. cbn [Qnum Qden]. lia.
  - unfold Qle, inject_Z. cbn [Qnum Qden]. lia.
Qed.

(** A whole number is stored as it is. *)
Lemma roundToInt_integer d : Db.roundToInt (inject_Z d) = d.
Proof.
  unfold Db.roundToInt.
  destruct (Qle_bool 0 (inject_Z d)) eqn:E.
  - unfold Qfloor, Qplus, inject_Z. cbn [Qnum Qden].
    Z.to_euclidean_division_equations; lia.
  - unfold Qfloor, Qplus, Qopp, inject_Z. cbn [Qnum Qden].
    Z.to_euclidean_division_equations; lia.
Qed.

Lemma salaryBody_field day : field (salaryBody day) "salaryDate" = JNum (inject_Z day).
Proof. unfold field, salaryBody. rewrite lookup_singleton. reflexivity. Qed.

(** X6.  Whatever text the form holds, when [handleSave] sends a request
    the day in it is a whole number from 1 to 31, the validation of
    POST /salary accepts the body, and the store keeps the number as it is
    (nothing is rounded). *)
Theorem handleSave_sends_only_valid_days (text : string) (day : Z) :
  handleSave text = SetSalaryReminder day ->
  1 <= day <= 31 /\
  rejectSalaryDate (field (salaryBody day) "salaryDate") = None /\
  Db.roundToInt (inject_Z day) = day.
Proof.
  unfold handleSave. destruct (parseInt text) as [d|]; [|discriminate].
  destruct (Z.ltb_spec d 1); [discriminate|].
  destruct (Z.gtb_spec d 31); [discriminate|]. cbn [orb].
  intros [= <-]. split; [lia|]. split.
  - rewrite salaryBody_field. apply rejectSalaryDate_integer. lia.
  - apply roundToInt_integer.
Qed.

Lemma handleSave_sends_only_valid_days_witness :
  1 <= 15 <= 31 /\
  rejectSalaryDate (field (salaryBody 15) "salaryDate") = None /\
  Db.roundToInt (inject_Z 15) = 15.
Proof.
  apply (handleSave_sends_only_valid_days " 15.5"). vm_compute. reflexivity.
Defined.

Lemma day_cases d : 1 <= d <= 31 -> In d (map Z.of_nat (seq 1 31)).
Proof.
  intros Hd. apply in_map_iff. exists (Z.to_nat d).
  split; [lia|]. apply in_seq. lia.
Qed.

(** X7.  For every day from 1 to 31 the suffix the component prints after
    the salary day is the English ordinal suffix: th for 11, 12 and 13,
    otherwise st, nd, rd for a last digit of 1, 2, 3, and th for the rest. *)
Theorem ordinalSuffix_is_the_english_ordinal (d : Z) :
  1 <= d <= 31 ->
  ordinalSuffix d =
  if (d mod 100 =? 11) || (d mod 100 =? 12) || (d mod 100 =? 13) then "th"
  else if d mod 10 =? 1 then "st"
  else if d mod 10 =? 2 then "nd"
  else if d mod 10 =? 3 then "rd"
  else "th".
Proof.
  intros Hd. apply day_cases in Hd.
  revert d Hd. apply List.Forall_forall.
  repeat (constructor; [vm_compute; reflexivity|]). constructor.
Qed.

Lemma ordinalSuffix_is_the_english_ordinal_witness :
  ordinalSuffix 12 =
  if (12 mod 100 =? 11) || (12 mod 100 =? 12) || (12 mod 100 =? 13) then "th"
  else if 12 mod 10 =? 1 then "st"
  else if 12 mod 10 =? 2 then "nd"
  else if 12 mod 10 =? 3 then "rd"
  else "th".
Proof. apply (ordinalSuffix_is_the_english_ordinal 12). lia. Defined.

End ViewFacts.

(* ===================================================================== *)
(** * The sanitisers *)
(* ===================================================================== *)

(** A fact about one character, settled on each of the 256. *)
Ltac each_char c :=
  destruct c as [[|] [|] [|] [|] [|] [|] [|] [|]]; vm_compute; intros; congruence.

Section SanitizeFacts.
Import Js Sanitize.

Lemma nul_is_control c : isNul c = true -> isControl c = true.
Proof. each_char c. Qed.

Lemma lower_control c : isControl (toLowerCaseChar c) = isControl c.
Proof. each_char c. Qed.

Lemma lower_nul c : isNul (toLowerCaseChar c) = isNul c.
Proof. each_char c. Qed.

Lemma lower_white c : isWhiteSpace (toLowerCaseChar c) = isWhiteSpace c.
Proof. each_char c. Qed.

Lemma lower_lower c : toLowerCaseChar (toLowerCaseChar c) = toLowerCaseChar c.
Proof. each_char c. Qed.

Lemma lower_at c : Ascii.eqb (toLowerCaseChar c) "@" = Ascii.eqb c "@".
Proof. each_char c. Qed.

Lemma lower_dot c : Ascii.eqb (toLowerCaseChar c) "." = Ascii.eqb c ".".
Proof. each_char c. Qed.

Lemma lower_plain c : plain (toLowerCaseChar c) = plain c.
Proof. unfold plain. rewrite lower_white, lower_at. reflexivity. Qed.

Lemma allChars_weaken (p q : ascii -> bool) s :
  (forall c, p c = true -> q c = true) -> allChars p s = true -> allChars q s = true.
Proof.
  intros Hpq. induction s as [|c s IH]; cbn; [reflexivity|].
  intros H. apply andb_true_iff in H as [Hc Hs].
  rewrite (Hpq c Hc), (IH Hs). reflexivity.
Qed.

Lemma allChars_app p s t : allChars p (s ++ t) = allChars p s && allChars p t.
Proof.
  induction s as [|c s IH]; sapp; cbn; [reflexivity|]. rewrite IH, andb_assoc. reflexivity.
Qed.

Lemma count_app a s t : count a (s ++ t) = (count a s + count a t)%nat.
Proof. induction s as [|c s IH]; sapp; cbn; [reflexivity|]. rewrite IH. lia. Qed.

Lemma removeAll_free p s : allChars (fun c => negb (p c)) (removeAll p s) = true.
Proof.
  induction s as [|c s IH]; cbn; [reflexivity|].
  destruct (p c) eqn:E; cbn; [exact IH|]. rewrite E, IH. reflexivity.
Qed.

Lemma removeAll_fixed p s :
  allChars (fun c => negb (p c)) s = true -> removeAll p s = s.
Proof.
  induction s as [|c s IH]; cbn; [reflexivity|].
  intros H. apply andb_true_iff in H as [Hc Hs].
  destruct (p c); [discriminate|]. rewrite (IH Hs). reflexivity.
Qed.

Lemma removeAll_allChars p q s :
  allChars q s = true -> allChars q (removeAll p s) = true.
Proof.
  induction s as [|c s IH]; cbn; [reflexivity|].
  intros H. apply andb_true_iff in H as [Hc Hs].
  destruct (p c); cbn; [exact (IH Hs)|]. rewrite Hc, (IH Hs). reflexivity.
Qed.

Lemma trimStart_allChars p s : allChars p s = true -> allChars p (trimStart s) = true.
Proof.
  induction s as [|c s IH]; cbn; [reflexivity|].
  intros H. destruct (isWhiteSpace c); [|exact H].
  apply andb_true_iff in H as [_ Hs]. exact (IH Hs).
Qed.

Lemma trimEnd_allChars p s : allChars p s = true -> allChars p (trimEnd s) = true.
Proof.
  induction s as [|c s IH]; cbn; [reflexivity|].
  intros H. apply andb_true_iff in H as [Hc Hs]. specialize (IH Hs).
  destruct (trimEnd s) as [|a kept].
  - destruct (isWhiteSpace c); cbn; [reflexivity|]. rewrite Hc. reflexivity.
  - cbn in *. rewrite Hc, IH. reflexivity.
Qed.

Lemma trimStart_first s : whiteOpt (firstChar (trimStart s)) = false.
Proof.
  induction s as [|c s IH]; cbn; [reflexivity|].
  destruct (isWhiteSpace c) eqn:E; [exact IH|]. cbn. exact E.
Qed.

Lemma trimEnd_first s :
  whiteOpt (firstChar s) = false -> whiteOpt (firstChar (trimEnd s)) = false.
Proof.
  destruct s as [|c s]; cbn; [reflexivity|]. intros H.
  destruct (trimEnd s); [rewrite H|]; cbn; exact H.
Qed.

Lemma trimEnd_last s : whiteOpt (lastChar (trimEnd s)) = false.
Proof.
  induction s as [|c s IH]; cbn; [reflexivity|].
  destruct (trimEnd s) as [|a kept].
  - destruct (isWhiteSpace c) eqn:E; cbn; [reflexivity | exact E].
  - exact IH.
Qed.

Lemma trimStart_fixed s : whiteOpt (firstChar s) = false -> trimStart s = s.
Proof. destruct s as [|c s]; cbn; [reflexivity|]. intros ->. reflexivity. Qed.

Lemma trimEnd_fixed s : whiteOpt (lastChar s) = false -> trimEnd s = s.
Proof.
  induction s as [|c s IH]; [reflexivity|].
  destruct s as [|a s'].
  - cbn. intros ->. reflexivity.
  - intros H. change (lastChar (String c (String a s'))) with (lastChar (String a s')) in H.
    change (trimEnd (String c (String a s')))
      with (match trimEnd (String a s') with
            | EmptyString => if isWhiteSpace c then EmptyString else String c EmptyString
            | String x y => String c (String x y)
            end).
    rewrite (IH H). reflexivity.
Qed.

Lemma trim_fixed s :
  whiteOpt (firstChar s) = false -> whiteOpt (lastChar s) = false -> trim s = s.
Proof.
  intros Hf Hl. unfold trim. rewrite (trimStart_fixed s Hf). exact (trimEnd_fixed s Hl).
Qed.

Lemma trim_ends s :
  whiteOpt (firstChar (trim s)) = false /\ whiteOpt (lastChar (trim s)) = false.
Proof.
  unfold trim. split; [apply trimEnd_first, trimStart_first | apply trimEnd_last].
Qed.

Lemma sanitizeString_free v :
  allChars (fun c => negb (isControl c)) (sanitizeString v) = true.
Proof.
  destruct v as [| | | |s|]; try reflexivity.
  cbn [sanitizeString]. unfold trim.
  apply trimEnd_allChars, trimStart_allChars, removeAll_free.
Qed.

Lemma sanitizeString_fixed s :
  allChars (fun c => negb (isControl c)) s = true ->
  whiteOpt (firstChar s) = false -> whiteOpt (lastChar s) = false ->
  sanitizeString (JStr s) = s.
Proof.
  intros Hc Hf Hl. cbn [sanitizeString].
  rewrite (removeAll_fixed isNul s).
  - rewrite (removeAll_fixed isControl s Hc). exact (trim_fixed s Hf Hl).
  - revert Hc. apply allChars_weaken. intros c Hc.
    destruct (isNul c) eqn:E; [|reflexivity].
    rewrite (nul_is_control c E) in Hc. discriminate.
Qed.

(** X8.  Whatever value [sanitizeString] is given, its result holds no
    control character (0x00-0x1F, 0x7F) and neither begins nor ends with
    white space. *)
Theorem sanitizeString_is_clean (v : JsValue) :
  allChars (fun c => negb (isControl c)) (sanitizeString v) = true /\
  whiteOpt (firstChar (sanitizeString v)) = false /\
  whiteOpt (lastChar (sanitizeString v)) = false.
Proof.
  split; [apply sanitizeString_free|].
  destruct v as [| | | |s|]; try (split; reflexivity).
  cbn [sanitizeString]. apply trim_ends.
Qed.

Lemma allChars_lower p s :
  (forall c, p (toLowerCaseChar c) = p c) -> allChars p (toLowerCase s) = allChars p s.
Proof.
  intros Hp. induction s as [|c s IH]; cbn; [reflexivity|]. rewrite Hp, IH. reflexivity.
Qed.

Lemma removeAll_lower p s :
  (forall c, p (toLowerCaseChar c) = p c) ->
  removeAll p (toLowerCase s) = toLowerCase (removeAll p s).
Proof.
  intros Hp. induction s as [|c s IH]; cbn; [reflexivity|].
  rewrite Hp, IH. destruct (p c); reflexivity.
Qed.

Lemma trimStart_lower s : trimStart (toLowerCase s) = toLowerCase (trimStart s).
Proof.
  induction s as [|c s IH]; cbn; [reflexivity|].
  rewrite lower_white, IH. destruct (isWhiteSpace c); reflexivity.
Qed.

Lemma trimEnd_lower s : trimEnd (toLowerCase s) = toLowerCase (trimEnd s).
Proof.
  induction s as [|c s IH]; cbn; [reflexivity|].
  rewrite IH, lower_white.
  destruct (trimEnd s); cbn; [destruct (isWhiteSpace c)|]; reflexivity.
Qed.

Lemma sanitizeString_ends v :
  whiteOpt (firstChar (sanitizeString v)) = false /\
  whiteOpt (lastChar (sanitizeString v)) = false.
Proof.
  destruct v as [| | | |s|]; try (split; reflexivity).
  cbn [sanitizeString]. apply trim_ends.
Qed.

(** X9.  [sanitizeString] is idempotent: sanitising its own result changes
    nothing. *)
Theorem sanitizeString_idempotent (v : JsValue) :
  sanitizeString (JStr (sanitizeString v)) = sanitizeString v.
Proof.
  apply sanitizeString_fixed.
  - apply sanitizeString_free.
  - apply sanitizeString_ends.
  - apply sanitizeString_ends.
Qed.

Lemma sanitizeString_lower s :
  sanitizeString (JStr (toLowerCase s)) = toLowerCase (sanitizeString (JStr s)).
Proof.
  cbn [sanitizeString]. unfold trim.
  rewrite (removeAll_lower isNul s lower_nul).
  rewrite (removeAll_lower isControl _ lower_control).
  rewrite trimStart_lower, trimEnd_lower. reflexivity.
Qed.

Lemma toLowerCase_idempotent s : toLowerCase (toLowerCase s) = toLowerCase s.
Proof. induction s as [|c s IH]; cbn; [reflexivity|]. rewrite lower_lower, IH. reflexivity. Qed.

Lemma plus_lower k s :
  (forall r, k (toLowerCase r) = k r) ->
  plus plain k (toLowerCase s) = plus plain k s.
Proof.
  intros Hk. induction s as [|c s IH]; cbn; [reflexivity|].
  rewrite lower_plain, Hk, IH. reflexivity.
Qed.

Lemma lit_lower a k s :
  (forall c, Ascii.eqb (toLowerCaseChar c) a = Ascii.eqb c a) ->
  (forall r, k (toLowerCase r) = k r) ->
  lit a k (toLowerCase s) = lit a k s.
Proof.
  intros Ha Hk. destruct s as [|c s]; cbn; [reflexivity|]. rewrite Ha, Hk. reflexivity.
Qed.

Lemma emailRegex_lower s : emailRegex (toLowerCase s) = emailRegex s.
Proof.
  unfold emailRegex.
  apply plus_lower. intros r1. apply lit_lower; [exact lower_at|].
  intros r2. apply plus_lower. intros r3. apply lit_lower; [exact lower_dot|].
  intros r4. apply plus_lower. intros r5. destruct r5; reflexivity.
Qed.

Lemma plus_elim class k s :
  plus class k s = true ->
  exists a r, s = (a ++ r)%string /\ allChars class a = true /\ k r = true.
Proof.
  induction s as [|c s IH]; cbn; [discriminate|].
  intros H. apply andb_true_iff in H as [Hc H].
  apply orb_true_iff in H as [H | H].
  - exists (String c EmptyString), s. sapp. cbn. rewrite Hc. repeat split. exact H.
  - destruct (IH H) as (a & r & -> & Ha & Hr).
    exists (String c a), r. sapp. cbn. rewrite Hc, Ha. repeat split. exact Hr.
Qed.

Lemma lit_elim a k s : lit a k s = true -> exists r, s = String a r /\ k r = true.
Proof.
  destruct s as [|c s]; cbn; [discriminate|].
  intros H. apply andb_true_iff in H as [Hc H].
  apply Ascii.eqb_eq in Hc. subst c. exists s. split; [reflexivity | exact H].
Qed.

Lemma plain_chars s :
  allChars plain s = true ->
  count "@" s = O /\ allChars (fun c => negb (isWhiteSpace c)) s = true.
Proof.
  induction s as [|c s IH]; cbn; [split; reflexivity|].
  intros H. apply andb_true_iff in H as [Hc Hs]. destruct (IH Hs) as [IH1 IH2].
  unfold plain in Hc. apply andb_true_iff in Hc as [Hw Ha].
  rewrite IH1, IH2, Hw. destruct (Ascii.eqb c "@"); [discriminate|]. split; reflexivity.
Qed.

Lemma emailRegex_shape s :
  emailRegex s = true ->
  count "@" s = 1%nat /\ allChars (fun c => negb (isWhiteSpace c)) s = true.
Proof.
  unfold emailRegex. intros H.
  apply plus_elim in H as (a & r1 & -> & Ha & H).
  apply lit_elim in H as (r2 & -> & H).
  apply plus_elim in H as (b & r3 & -> & Hb & H).
  apply lit_elim in H as (r4 & -> & H).
  apply plus_elim in H as (c & r5 & -> & Hc & H).
  destruct r5; [|discriminate].
  destruct (plain_chars a Ha) as [A1 A2], (plain_chars b Hb) as [B1 B2],
    (plain_chars c Hc) as [C1 C2].
  split.
  - rewrite count_app. cbn [count]. rewrite count_app. cbn [count]. rewrite count_app.
    rewrite A1, B1, C1. reflexivity.
  - rewrite allChars_app. cbn [allChars]. rewrite allChars_app. cbn [allChars].
    rewrite allChars_app. rewrite A2, B2, C2. reflexivity.
Qed.

(** X10.  The result of [sanitizeEmail] is the empty string or an address
    that matches the pattern of line 47, holds exactly one @, no white
    space and no control character, and is in lower case. *)
Theorem sanitizeEmail_shape (v : JsValue) :
  sanitizeEmail v = EmptyString \/
  (emailRegex (sanitizeEmail v) = true /\
   count "@" (sanitizeEmail v) = 1%nat /\
   allChars (fun c => negb (isWhiteSpace c)) (sanitizeEmail v) = true /\
   allChars (fun c => negb (isControl c)) (sanitizeEmail v) = true /\
   toLowerCase (sanitizeEmail v) = sanitizeEmail v).
Proof.
  unfold sanitizeEmail. destruct (emailRegex (sanitizeString v)) eqn:E; [right | left; reflexivity].
  assert (E' : emailRegex (toLowerCase (sanitizeString v)) = true)
    by (rewrite emailRegex_lower; exact E).
  destruct (emailRegex_shape _ E') as [H1 H2].
  split; [exact E'|]. split; [exact H1|]. split; [exact H2|]. split.
  - rewrite (allChars_lower (fun c => negb (isControl c))).
    + apply sanitizeString_free.
    + intros c. rewrite lower_control. reflexivity.
  - apply toLowerCase_idempotent.
Qed.

(** X11.  [sanitizeEmail] is idempotent. *)
Theorem sanitizeEmail_idempotent (v : JsValue) :
  sanitizeEmail (JStr (sanitizeEmail v)) = sanitizeEmail v.
Proof.
  unfold sanitizeEmail at 2 3.
  destruct (emailRegex (sanitizeString v)) eqn:E; [|reflexivity].
  unfold sanitizeEmail.
  rewrite sanitizeString_lower.
  rewrite (sanitizeString_fixed (sanitizeString v) (sanitizeString_free v)
             (proj1 (sanitizeString_ends v)) (proj2 (sanitizeString_ends v))).
  rewrite emailRegex_lower, E.
  apply toLowerCase_idempotent.
Qed.

End SanitizeFacts.

(* ===================================================================== *)
(** * Configuration, tokens and the middleware *)
(* ===================================================================== *)

Section AuthFacts.
Import Js Jwt AuthUtils Http AuthMiddleware AuthRoutes Config.

Lemma isSet_secret env :
  isSet env "JWT_SECRET" = true <-> exists secret, getJWTSecret env = Returned secret.
Proof.
  unfold isSet, truthyStr, getJWTSecret.
  destruct (env !! "JWT_SECRET") as [v|].
  - destruct (String.eqb v ""); cbn; split; eauto; try discriminate.
    intros [s Hs]. discriminate.
  - split; [discriminate|]. intros [s Hs]. discriminate.
Qed.

(** The token issued for [u] and [e] with the times [iat] and [exp]. *)
Lemma verifyToken_issued {J : Jose} (LJ : JoseLaws J) env secret iat exp t u e :
  getJWTSecret env = Returned secret ->
  verifyToken env t
    (compact (joseHeader "HS256") (stamp (identityPayload u e) iat exp) secret "HS256") =
  Returned (if exp <=? t / 1000 then None else Some (mkIdentity (JStr u) (JStr e))).
Proof.
  intros Hs. unfold verifyToken. rewrite Hs. cbn [bind].
  rewrite (verify_compact LJ) by (exact (getJWTSecret_nonempty env secret Hs) || reflexivity).
  rewrite checkTimes_issued.
  destruct (exp <=? t / 1000); [reflexivity|]. cbn [bind].
  destruct (identityPayload_lookups u e iat exp) as (-> & -> & _).
  reflexivity.
Qed.

Lemma compact_nonempty {J : Jose} header claims secret alg :
  String.eqb (compact header claims secret alg) "" = false.
Proof. unfold compact. sapp. apply append_dot_nonempty. Qed.

(** X13.  In production, a configuration that [validateEnv] lets through
    has a secret: [getJWTSecret] returns it, and [generateToken] issues a
    token whenever the configured life span can be read. *)
Theorem validateEnv_production_secures_tokens {J : Jose}
    (env : Env) (warnings : list string) (span nowMs : Z) (u e : string) :
  isProduction env = true ->
  validateEnv env = Returned warnings ->
  ms (JWT_EXPIRES_IN env) = Some span ->
  warnings = [] /\
  (exists secret, getJWTSecret env = Returned secret /\ secret <> "") /\
  (exists token, generateToken env nowMs u e = Returned token).
Proof.
  intros Hp Hv Hms. unfold validateEnv in Hv. rewrite Hp in Hv. cbn [List.filter] in Hv.
  destruct (isSet env "JWT_SECRET") eqn:E; cbn in Hv; [|discriminate].
  injection Hv as <-. split; [reflexivity|].
  apply isSet_secret in E as [secret Hs].
  split.
  - exists secret. split; [exact Hs | exact (getJWTSecret_nonempty env secret Hs)].
  - eexists. exact (generateToken_issued env secret span nowMs u e Hs Hms).
Qed.

Lemma validateEnv_production_secures_tokens_witness :
  ([] : list string) = [] /\
  (exists secret, getJWTSecret Samples.production = Returned secret /\ secret <> "") /\
  (exists token,
     @generateToken ToyJose.toy Samples.production 1762041600000 "user-1" "ada@example.org"
       = Returned token).
Proof.
  apply (@validateEnv_production_secures_tokens ToyJose.toy Samples.production [] 604800000);
    vm_compute; reflexivity.
Defined.

(** X14.  Outside production [validateEnv] never throws.  When JWT_SECRET
    is not set it warns that a default is used, but there is none:
    [generateToken] throws for every user and [verifyToken] answers null
    for every token. *)
Theorem validateEnv_development_has_no_default_secret {J : Jose} (env : Env) (nowMs : Z) :
  isProduction env = false ->
  (exists warnings, validateEnv env = Returned warnings) /\
  (isSet env "JWT_SECRET" = false ->
   validateEnv env =
     Returned ["WARNING: JWT_SECRET not set. Using default (INSECURE - only for development)"] /\
   (forall u e, exists err, generateToken env nowMs u e = Thrown err) /\
   (forall token, verifyToken env nowMs token = Returned None)).
Proof.
  intros Hp. unfold validateEnv. rewrite Hp. cbn [List.filter List.length Z.of_nat Z.ltb Z.compare].
  split; [eauto|]. intros E. rewrite E. cbn [negb]. split; [reflexivity|].
  assert (Hs : exists err, getJWTSecret env = Thrown err).
  { destruct (getJWTSecret env) as [secret|err] eqn:G; [|eauto].
    assert (isSet env "JWT_SECRET" = true) by (apply isSet_secret; eauto). congruence. }
  destruct Hs as [err Hs]. split.
  - intros u e. exists err. unfold generateToken. rewrite Hs. reflexivity.
  - intros token. unfold verifyToken. rewrite Hs. reflexivity.
Qed.

Lemma validateEnv_development_has_no_default_secret_witness :
  (exists warnings, validateEnv (∅ : Env) = Returned warnings) /\
  (isSet (∅ : Env) "JWT_SECRET" = false ->
   validateEnv (∅ : Env) =
     Returned ["WARNING: JWT_SECRET not set. Using default (INSECURE - only for development)"] /\
   (forall u e, exists err, @generateToken ToyJose.toy ∅ 1762041600000 u e = Thrown err) /\
   (forall token, @verifyToken ToyJose.toy ∅ 1762041600000 token = Returned None)).
Proof.
  apply (@validateEnv_development_has_no_default_secret ToyJose.toy ∅ 1762041600000).
  vm_compute. reflexivity.
Defined.

(** X15.  For every request [authenticate] does one of three things: it
    calls next and logs nothing, it answers 401 for a missing token, or it
    answers 401 for an invalid token and logs a warning.  Its catch branch
    (401 "Authentication failed", an error in the log) is never taken. *)
Theorem authenticate_has_three_outcomes {J : Jose} (env : Env) (nowMs : Z) (req : Request) :
  (exists req', authenticate env nowMs req = (Next req', [])) \/
  authenticate env nowMs req =
    (Respond (failure 401 "No token provided. Please login first."), []) \/
  authenticate env nowMs req =
    (Respond (failure 401 "Invalid or expired token. Please login again."),
     [mkLog Warn "Invalid token attempt" [("ip", JStr (ip req)); ("path", JStr (path req))]]).
Proof.
  unfold authenticate. destruct (requestToken req) as [token|]; [|right; left; reflexivity].
  destruct (String.eqb token ""); [right; left; reflexivity|].
  destruct (verifyToken_total env nowMs token) as [[ident|] ->]; cbn [bind].
  - left. eexists. reflexivity.
  - right. right. reflexivity.
Qed.

(** X16.  [authenticate] calls next only for a request whose token, taken
    from the header or the cookie, is not empty and verifies; the request
    it hands on is the incoming one with the user id and the email of that
    token attached and nothing else changed. *)
Theorem authenticate_passes_only_verified_tokens {J : Jose}
    (env : Env) (nowMs : Z) (req req' : Request) (l : list LogEntry) :
  authenticate env nowMs req = (Next req', l) ->
  exists token ident,
    requestToken req = Some token /\ token <> "" /\
    verifyToken env nowMs token = Returned (Some ident) /\
    req' = mkRequest (authorization req) (cookies req) (body req) (ip req) (path req)
             (Some (userId ident)) (Some (email ident)).
Proof.
  unfold authenticate. destruct (requestToken req) as [token|]; [|discriminate].
  destruct (String.eqb_spec token "") as [|Hne]; [discriminate|].
  destruct (verifyToken_total env nowMs token) as [[ident|] Hv]; rewrite Hv; cbn [bind];
    [|discriminate].
  intros [= <- <-]. exists token, ident. repeat split; assumption.
Qed.

Lemma authenticate_passes_only_verified_tokens_witness :
  exists token ident,
    requestToken Samples.issuedRequest = Some token /\ token <> "" /\
    @verifyToken ToyJose.toy Samples.env 1762300800000 token = Returned (Some ident) /\
    Samples.passedRequest =
      mkRequest (authorization Samples.issuedRequest) (cookies Samples.issuedRequest)
        (body Samples.issuedRequest) (ip Samples.issuedRequest) (path Samples.issuedRequest)
        (Some (userId ident)) (Some (email ident)).
Proof.
  apply (@authenticate_passes_only_verified_tokens ToyJose.toy Samples.env 1762300800000
           Samples.issuedRequest Samples.passedRequest []).
  vm_compute. reflexivity.
Defined.

(** A request that carries an issued token is handed on while the clock
    is before the expiry second. *)
Lemma authenticate_issued {J : Jose} (LJ : JoseLaws J)
    (env : Env) (secret : string) (span t0 nowMs : Z) (u e token : string) (req : Request) :
  getJWTSecret env = Returned secret ->
  ms (JWT_EXPIRES_IN env) = Some span ->
  generateToken env t0 u e = Returned token ->
  requestToken req = Some token ->
  nowMs < (t0 / 1000 + span / 1000) * 1000 ->
  authenticate env nowMs req =
    (Next (mkRequest (authorization req) (cookies req) (body req) (ip req) (path req)
             (Some (JStr u)) (Some (JStr e))), []).
Proof.
  intros Hs Hms Hgen Hreq Ht.
  rewrite (generateToken_issued env secret span t0 u e Hs Hms) in Hgen.
  injection Hgen as <-.
  unfold authenticate. rewrite Hreq, compact_nonempty.
  rewrite (verifyToken_issued LJ env secret _ _ nowMs u e Hs). cbn [bind].
  apply before_expiry in Ht.
  destruct (Z.leb_spec (t0 / 1000 + span / 1000) (nowMs / 1000)); [lia|]. reflexivity.
Qed.

(** X17.  A token issued by [generateToken] opens the protected routes
    until its expiry and not after: a request that carries it is handed on
    with the user id and email it was issued for while the clock is before
    the expiry second, and is answered 401 (invalid or expired) from then
    on. *)
Theorem authenticate_accepts_issued_token_until_expiry {J : Jose} (LJ : JoseLaws J)
    (env : Env) (secret : string) (span t0 nowMs : Z) (u e token : string) (req : Request) :
  getJWTSecret env = Returned secret ->
  ms (JWT_EXPIRES_IN env) = Some span ->
  generateToken env t0 u e = Returned token ->
  requestToken req = Some token ->
  (nowMs < (t0 / 1000 + span / 1000) * 1000 ->
   authenticate env nowMs req =
     (Next (mkRequest (authorization req) (cookies req) (body req) (ip req) (path req)
              (Some (JStr u)) (Some (JStr e))), [])) /\
  ((t0 / 1000 + span / 1000) * 1000 <= nowMs ->
   authenticate env nowMs req =
     (Respond (failure 401 "Invalid or expired token. Please login again."),
      [mkLog Warn "Invalid token attempt" [("ip", JStr (ip req)); ("path", JStr (path req))]])).
Proof.
  intros Hs Hms Hgen Hreq. split; intros Ht.
  - exact (authenticate_issued LJ env secret span t0 nowMs u e token req Hs Hms Hgen Hreq Ht).
  - rewrite (generateToken_issued env secret span t0 u e Hs Hms) in Hgen.
    injection Hgen as <-.
    unfold authenticate. rewrite Hreq, compact_nonempty.
    rewrite (verifyToken_issued LJ env secret _ _ nowMs u e Hs). cbn [bind].
    assert (~ nowMs < (t0 / 1000 + span / 1000) * 1000) as Hn by lia.
    rewrite before_expiry in Hn.
    destruct (Z.leb_spec (t0 / 1000 + span / 1000) (nowMs / 1000)); [reflexivity | lia].
Qed.

Lemma authenticate_accepts_issued_token_until_expiry_witness :
  @authenticate ToyJose.toy Samples.env 1762300800000 Samples.issuedRequest =
    (Next (mkRequest (authorization Samples.issuedRequest) (cookies Samples.issuedRequest)
             (body Samples.issuedRequest) (ip Samples.issuedRequest)
             (path Samples.issuedRequest)
             (Some (JStr "user-1")) (Some (JStr "ada@example.org"))), []).
Proof.
  apply (proj1 (@authenticate_accepts_issued_token_until_expiry ToyJose.toy toy_laws
                  Samples.env "not-a-real-secret" 604800000 1762041600000 1762300800000
                  "user-1" "ada@example.org" Samples.issuedToken Samples.issuedRequest
                  eq_refl eq_refl ltac:(vm_compute; reflexivity)
                  ltac:(vm_compute; reflexivity))).
  vm_compute. reflexivity.
Defined.

End AuthFacts.

(* ===================================================================== *)
(** * Generated identifiers *)
(* ===================================================================== *)

Section UuidFacts.
Import Uuid.

Lemma nibble_cases r : 0 <= r < 16 ->
  In r [0; 1; 2; 3; 4; 5; 6; 7; 8; 9; 10; 11; 12; 13; 14; 15].
Proof.
  intros Hr. replace r with (Z.of_nat (Z.to_nat r)) by lia.
  assert (H : (Z.to_nat r < 16)%nat) by lia. revert H.
  generalize (Z.to_nat r) as n. intros n Hn.
  do 16 (destruct n as [|n]; [cbn; tauto|]). lia.
Qed.

Lemma hexDigit_isHex r : 0 <= r < 16 -> isHex (hexDigit r) = true.
Proof.
  intros Hr. apply nibble_cases in Hr. revert r Hr. apply List.Forall_forall.
  repeat (constructor; [vm_compute; reflexivity|]). constructor.
Qed.

Lemma variant_digit r : 0 <= r < 16 ->
  In (hexDigit (Z.lor (Z.land r 3) 8)) ["8"; "9"; "a"; "b"]%char.
Proof.
  intros Hr. apply nibble_cases in Hr. revert r Hr. apply List.Forall_forall.
  repeat (constructor; [vm_compute; tauto|]). constructor.
Qed.

Lemma variant_isHex r : 0 <= r < 16 -> isHex (hexDigit (Z.lor (Z.land r 3) 8)) = true.
Proof.
  intros Hr. apply nibble_cases in Hr. revert r Hr. apply List.Forall_forall.
  repeat (constructor; [vm_compute; reflexivity|]). constructor.
Qed.

(** X18.  Whatever the random numbers are, [generateUUID] returns a string
    of 36 characters with hyphens at the positions 8, 13, 18 and 23, the
    version digit 4 at position 14, one of 8, 9, a, b at position 19, and
    lower-case hexadecimal digits everywhere else; it fits the VARCHAR(36)
    key columns. *)
Theorem generateUUID_is_a_version_4_uuid (random : nat -> Z) :
  (forall i, 0 <= random i < 16) ->
  String.length (generateUUID random) = 36%nat /\
  (forall i, In i [8; 13; 18; 23]%nat -> String.get i (generateUUID random) = Some "-"%char) /\
  String.get 14 (generateUUID random) = Some "4"%char /\
  (exists c, String.get 19 (generateUUID random) = Some c /\ In c ["8"; "9"; "a"; "b"]%char) /\
  (forall i c, String.get i (generateUUID random) = Some c ->
     ~ In i [8; 13; 18; 23]%nat -> isHex c = true).
Proof.
  intros Hr.
  assert (E : generateUUID random = ltac:(let t := eval cbv -[hexDigit Z.lor Z.land] in
                                           (generateUUID random) in exact t))
    by reflexivity.
  rewrite E. clear E.
  split; [reflexivity|]. split; [|split; [reflexivity|split]].
  - intros i [<- | [<- | [<- | [<- | []]]]]; reflexivity.
  - eexists. split; [reflexivity|]. apply variant_digit, Hr.
  - intros i c Hget Hnot.
    do 36 (destruct i as [|i];
           [first [ exfalso; apply Hnot; cbn; tauto
                  | injection Hget as <-;
                    first [ apply hexDigit_isHex, Hr | apply variant_isHex, Hr | reflexivity ] ]
           |]).
    discriminate Hget.
Qed.

Lemma generateUUID_is_a_version_4_uuid_witness :
  String.length (generateUUID (fun i => Z.of_nat i mod 16)) = 36%nat /\
  String.get 14 (generateUUID (fun i => Z.of_nat i mod 16)) = Some "4"%char.
Proof.
  destruct (generateUUID_is_a_version_4_uuid (fun i => Z.of_nat i mod 16))
    as (H1 & _ & H3 & _).
  - intros i. apply Z.mod_pos_bound. lia.
  - split; [exact H1 | exact H3].
Defined.

End UuidFacts.

(* ===================================================================== *)
(** * The salary routes and the store *)
(* ===================================================================== *)

Section StoreFacts.
Import Js Http Db DbWrapper SalaryRoutes Schema.

(** The row an UPDATE leaves in place of [r]. *)
Lemma update_keeps_keys u d now r :
  let r' := if ownedBy u r
            then mkReminder (rem_id r) (rem_userId r) d (rem_createdAt r) now else r in
  rem_id r' = rem_id r /\ rem_userId r' = rem_userId r /\ ownedBy u r' = ownedBy u r.
Proof. cbv zeta. destruct (ownedBy u r) eqn:E; repeat split; try exact E. Qed.

(** No statement of these routes touches the table of users. *)
Lemma run_users now st db : users (snd (run now st db)) = users db.
Proof.
  destruct st as [u|u|id|v u|id u v|u]; cbn [run]; try reflexivity.
  - destruct (List.filter (ownedBy u) (salary_reminders db)); [reflexivity|].
    destruct v; try reflexivity. destruct (_ && _); reflexivity.
  - destruct u; try reflexivity. destruct v; try reflexivity.
    destruct (existsb _ (salary_reminders db)); [reflexivity|].
    destruct (negb _); [reflexivity|]. destruct (_ && _); reflexivity.
Qed.

(** ** Properties of the database that a handler keeps *)

Lemma keeps_ret P {A : Type} (a : A) : keeps P (ret a).
Proof. intros w H. exact H. Qed.

Lemma keeps_throw P {A : Type} (e : Exn) : keeps P (@throw A e).
Proof. intros w H. exact H. Qed.

Lemma keeps_logCall P l msg data : keeps P (logCall l msg data).
Proof. intros w H. exact H. Qed.

Lemma keeps_firstRow P l : keeps P (firstRow l).
Proof. destruct l; [apply keeps_throw | apply keeps_ret]. Qed.

Lemma keeps_query (P : Database -> Prop) now st :
  (forall db, P db -> P (snd (run now st db))) -> keeps P (executeQuery now st).
Proof.
  intros Hrun w H. unfold executeQuery. specialize (Hrun (database w) H).
  destruct (run now st (database w)) as [[raw|e] db']; exact Hrun.
Qed.

Lemma keeps_bind P {A B : Type} (m : M A) (k : A -> M B) :
  keeps P m -> (forall a, keeps P (k a)) -> keeps P (mbind m k).
Proof.
  intros Hm Hk w H. unfold mbind. specialize (Hm w H).
  destruct (m w) as [[a|e] w1]; cbn [snd] in *; [exact (Hk a w1 Hm) | exact Hm].
Qed.

Lemma keeps_catch P {A : Type} (m : M A) (h : Exn -> M A) :
  keeps P m -> (forall e, keeps P (h e)) -> keeps P (catch m h).
Proof.
  intros Hm Hh w H. unfold catch. specialize (Hm w H).
  destruct (m w) as [[a|e] w1]; cbn [snd] in *; [exact Hm | exact (Hh e w1 Hm)].
Qed.

Lemma keeps_answerError P what req e : keeps P (answerError what req e).
Proof. intros w H. exact H. Qed.

End StoreFacts.

(** Takes a handler apart down to its statements. *)
Ltac keeps_steps :=
  repeat first
    [ apply keeps_ret | apply keeps_throw | apply keeps_logCall | apply keeps_firstRow
    | apply keeps_answerError
    | apply keeps_catch; [|intros ?]
    | apply keeps_bind; [|intros ?]
    | match goal with
      | |- Schema.keeps _ (match ?x with _ => _ end) => destruct x
      | |- Schema.keeps _ (if ?b then _ else _) => destruct b
      end ].

Section SalaryFacts.
Import Js Http Db DbWrapper SalaryRoutes Schema.

Lemma reminderData_row r :
  reminderData (reminderRow r) =
  DataReminder (JStr (rem_id r)) (JNum (inject_Z (rem_salaryDate r)))
    (JNum (inject_Z (rem_createdAt r))) (JNum (inject_Z (rem_updatedAt r))).
Proof.
  unfold reminderData, field, reminderRow.
  rewrite lookup_insert_eq.
  rewrite lookup_insert_ne, lookup_insert_eq by discriminate.
  rewrite !lookup_insert_ne, lookup_insert_eq by discriminate.
  rewrite !lookup_insert_ne, lookup_singleton_eq by discriminate.
  reflexivity.
Qed.

Lemma truthy_user u : u <> "" -> negb (truthy (JStr u)) = false.
Proof. intros Hne. cbn. destruct (String.eqb_spec u ""); [contradiction | reflexivity]. Qed.

Lemma owned_self u id d c t : ownedBy (JStr u) (mkReminder id u d c t) = true.
Proof. unfold ownedBy, matches. cbn. apply String.eqb_refl. Qed.

Lemma owned_by_user u r : ownedBy (JStr u) r = true -> rem_userId r = u.
Proof. unfold ownedBy, matches. intros H. apply String.eqb_eq in H. congruence. Qed.

(** The list of rows after an UPDATE for [u]. *)
Lemma filter_owned_update u d now l :
  List.filter (ownedBy u)
    (map (fun r => if ownedBy u r
                   then mkReminder (rem_id r) (rem_userId r) d (rem_createdAt r) now
                   else r) l) =
  map (fun r => mkReminder (rem_id r) (rem_userId r) d (rem_createdAt r) now)
    (List.filter (ownedBy u) l).
Proof.
  induction l as [|r l IH]; cbn; [reflexivity|].
  pose proof (update_keeps_keys u d now r) as (_ & _ & E). cbv zeta in E. rewrite E.
  destruct (ownedBy u r); cbn; rewrite IH; reflexivity.
Qed.

Lemma filter_others_update u d now l :
  List.filter (fun r => negb (ownedBy u r))
    (map (fun r => if ownedBy u r
                   then mkReminder (rem_id r) (rem_userId r) d (rem_createdAt r) now
                   else r) l) =
  List.filter (fun r => negb (ownedBy u r)) l.
Proof.
  induction l as [|r l IH]; cbn; [reflexivity|].
  pose proof (update_keeps_keys u d now r) as (_ & _ & E). cbv zeta in E. rewrite E.
  destruct (ownedBy u r) eqn:O; cbn; rewrite IH; [reflexivity|]. reflexivity.
Qed.

Lemma filter_twice {A : Type} (p : A -> bool) l :
  List.filter p (List.filter p l) = List.filter p l.
Proof.
  induction l as [|a l IH]; cbn; [reflexivity|].
  destruct (p a) eqn:E; cbn; [rewrite E, IH|]; auto.
Qed.

Lemma filter_none {A : Type} (p : A -> bool) l :
  (forall a, In a l -> p a = false) -> List.filter p l = [].
Proof.
  induction l as [|a l IH]; cbn; [reflexivity|]. intros H.
  rewrite (H a (or_introl eq_refl)). apply IH. intros b Hb. apply H. right. exact Hb.
Qed.

Lemma filter_owned_others u l :
  List.filter (ownedBy u) (List.filter (fun r => negb (ownedBy u r)) l) = [].
Proof.
  apply filter_none. intros r Hr. apply List.filter_In in Hr as [_ Hr].
  destruct (ownedBy u r); [discriminate | reflexivity].
Qed.

Lemma executeQuery_run now st w raw db' :
  run now st (database w) = (Returned raw, db') ->
  executeQuery now st w = (Returned (wrap raw), mkWorld db' (trace w ++ [st]) (logs w)).
Proof. intros H. unfold executeQuery. rewrite H. reflexivity. Qed.

(** What GET /salary does for a user. *)
Lemma getSalary_answer now req w u :
  reqUserId req = Some (JStr u) -> u <> "" ->
  getSalary now req w =
  (Returned (match remindersOf u (database w) with
             | [] => mkResponse 200 true DataNone (Some "No salary reminder set") None
             | r :: _ => mkResponse 200 true (reminderData (reminderRow r)) None None
             end),
   mkWorld (database w) (trace w ++ [SelectReminderByUser (JStr u)]) (logs w)).
Proof.
  intros Hu Hne. unfold getSalary, catch, mbind. rewrite Hu, (truthy_user u Hne).
  unfold executeQuery. cbn [run database]. unfold remindersOf.
  destruct (List.filter (ownedBy (JStr u)) (salary_reminders (database w))); reflexivity.
Qed.

(** What POST /salary does for a user who has a reminder. *)
Lemma postSalary_update now freshId req w u d h hit :
  reqUserId req = Some (JStr u) -> u <> "" ->
  field (body req) "salaryDate" = JNum (inject_Z d) -> 1 <= d <= 31 ->
  remindersOf u (database w) = h :: hit ->
  postSalary now freshId req w =
  (Returned (mkResponse 200 true
               (reminderData (reminderRow
                  (mkReminder (rem_id h) (rem_userId h) d (rem_createdAt h) now)))
               (Some "Salary reminder updated successfully") None),
   mkWorld
     (withReminders (database w)
        (map (fun r => if ownedBy (JStr u) r
                       then mkReminder (rem_id r) (rem_userId r) d (rem_createdAt r) now
                       else r)
           (salary_reminders (database w))))
     (trace w ++ [SelectReminderIdByUser (JStr u);
                  UpdateReminder (JNum (inject_Z d)) (JStr u);
                  SelectReminderByUser (JStr u)])
     (logs w ++ [mkLog Info "Salary reminder updated"
                   [("userId", JStr u); ("salaryDate", JNum (inject_Z d))]])).
Proof.
  intros Hu Hne Hbody Hd Hrows. unfold remindersOf in Hrows.
  unfold postSalary, catch. rewrite Hu, (truthy_user u Hne), Hbody.
  rewrite (rejectSalaryDate_integer d Hd).
  unfold mbind at 1. rewrite executeQuery_select. cbn [rows wrap].
  rewrite Hrows. cbn [map List.length]. 
  destruct (Z.ltb_spec 0 (Z.of_nat (S (List.length (map reminderIdRow hit))))); [|lia].
  unfold updateExisting, mbind.
  erewrite executeQuery_run; cycle 1.
  { cbn [run database]. rewrite Hrows. rewrite roundToInt_integer.
    destruct (Z.leb_spec 1 d); [|lia]. destruct (Z.leb_spec d 31); [|lia]. reflexivity. }
  cbv beta iota.
  erewrite executeQuery_run; cycle 1.
  { cbn [run database withReminders salary_reminders].
    rewrite filter_owned_update, Hrows. reflexivity. }
  cbn [rows wrap map firstRow ret logCall database trace logs]. 
  rewrite <- !app_assoc. reflexivity.
Qed.

(** What POST /salary does for a user of the table who has none, when the
    generated id is not in use. *)
Lemma postSalary_create now freshId req w u d :
  reqUserId req = Some (JStr u) -> u <> "" ->
  field (body req) "salaryDate" = JNum (inject_Z d) -> 1 <= d <= 31 ->
  remindersOf u (database w) = [] ->
  In u (map user_id (users (database w))) ->
  ~ In freshId (map rem_id (salary_reminders (database w))) ->
  postSalary now freshId req w =
  (Returned (mkResponse 201 true
               (reminderData (reminderRow (mkReminder freshId u d now now)))
               (Some "Salary reminder created successfully") None),
   mkWorld
     (withReminders (database w)
        (salary_reminders (database w) ++ [mkReminder freshId u d now now]))
     (trace w ++ [SelectReminderIdByUser (JStr u);
                  InsertReminder freshId (JStr u) (JNum (inject_Z d));
                  SelectReminderById freshId])
     (logs w ++ [mkLog Info "Salary reminder created"
                   [("userId", JStr u); ("salaryDate", JNum (inject_Z d))]])).
Proof.
  intros Hu Hne Hbody Hd Hrows Huser Hfresh. unfold remindersOf in Hrows.
  unfold postSalary, catch. rewrite Hu, (truthy_user u Hne), Hbody.
  rewrite (rejectSalaryDate_integer d Hd).
  unfold mbind at 1. rewrite executeQuery_select. cbn [rows wrap].
  rewrite Hrows. change (0 <? Z.of_nat (List.length (map reminderIdRow []))) with false.
  cbv beta iota. unfold createNew, mbind.
  assert (Hdup : existsb (fun r => String.eqb freshId (rem_id r) || String.eqb u (rem_userId r))
                   (salary_reminders (database w)) = false).
  { destruct (existsb _ _) eqn:E; [|reflexivity]. exfalso.
    apply List.existsb_exists in E as (r & Hr & E).
    apply orb_true_iff in E as [E | E]; apply String.eqb_eq in E.
    - apply Hfresh. rewrite E. apply List.in_map. exact Hr.
    - assert (Hin : In r (List.filter (ownedBy (JStr u)) (salary_reminders (database w)))).
      { apply List.filter_In. split; [exact Hr|]. unfold ownedBy, matches.
        apply String.eqb_eq. exact E. }
      rewrite Hrows in Hin. exact Hin. }
  assert (Husr : existsb (fun x => String.eqb u (user_id x)) (users (database w)) = true).
  { apply List.existsb_exists. apply List.in_map_iff in Huser as (x & Hx & Hin).
    exists x. split; [exact Hin|]. apply String.eqb_eq. congruence. }
  erewrite executeQuery_run; cycle 1.
  { cbn [run database]. rewrite Hdup, Husr, roundToInt_integer. cbn [negb].
    destruct (Z.leb_spec 1 d); [|lia]. destruct (Z.leb_spec d 31); [|lia]. reflexivity. }
  cbv beta iota.
  erewrite executeQuery_run; cycle 1.
  { cbn [run database withReminders salary_reminders].
    rewrite List.filter_app.
    rewrite (filter_none (fun r => String.eqb freshId (rem_id r))).
    - cbn [List.filter rem_id]. rewrite String.eqb_refl. cbn [app map]. reflexivity.
    - intros r Hr. apply String.eqb_neq. intros E. apply Hfresh. rewrite E.
      apply List.in_map. exact Hr. }
  cbn [rows wrap map firstRow ret logCall database trace logs].
  rewrite <- !app_assoc. reflexivity.
Qed.

(** What DELETE /salary does for a user. *)
Lemma deleteSalary_answer now req w u :
  reqUserId req = Some (JStr u) -> u <> "" ->
  deleteSalary now req w =
  (Returned (mkResponse 200 true DataNone (Some "Salary reminder deleted successfully") None),
   mkWorld (withReminders (database w) (remindersOfOthers u (database w)))
     (trace w ++ [DeleteReminder (JStr u)])
     (logs w ++ [mkLog Info "Salary reminder deleted" [("userId", JStr u)]])).
Proof.
  intros Hu Hne. unfold deleteSalary, catch, mbind, executeQuery. rewrite Hu, (truthy_user u Hne).
  cbn [run]. cbv iota beta.
  pose proof (wrap_header_affected
                (Z.of_nat (List.length (List.filter (ownedBy (JStr u)) (salary_reminders (database w)))))
                ltac:(lia)) as Hpos.
  apply Z.ltb_lt in Hpos. rewrite Hpos. reflexivity.
Qed.


(** X20.  POST /salary then GET /salary is a round trip.  For a user of the
    table, a whole day from 1 to 31 and a generated id that is not in use,
    POST answers 200 "updated" when the user had a reminder and 201
    "created" when the user had none, with the day in its data, and a GET
    by the same user that follows returns the same data, with that day. *)
Theorem salary_post_then_get (now now' : Z) (freshId u : string) (d : Z)
    (req req' : Request) (w : World) :
  reqUserId req = Some (JStr u) -> reqUserId req' = Some (JStr u) -> u <> "" ->
  field (body req) "salaryDate" = JNum (inject_Z d) -> 1 <= d <= 31 ->
  In u (map user_id (users (database w))) ->
  ~ In freshId (map rem_id (salary_reminders (database w))) ->
  exists posted id created updated,
    fst (postSalary now freshId req w) = Returned posted /\
    success posted = true /\
    status posted =
      match remindersOf u (database w) with [] => 201 | _ :: _ => 200 end /\
    message posted =
      match remindersOf u (database w) with
      | [] => Some "Salary reminder created successfully"
      | _ :: _ => Some "Salary reminder updated successfully"
      end /\
    data posted = DataReminder id (JNum (inject_Z d)) created updated /\
    fst (getSalary now' req' (snd (postSalary now freshId req w))) =
      Returned (mkResponse 200 true (data posted) None None).
Proof.
  intros Hu Hu' Hne Hbody Hd Huser Hfresh.
  destruct (remindersOf u (database w)) as [|h hit] eqn:Hrows.
  - rewrite (postSalary_create now freshId req w u d Hu Hne Hbody Hd Hrows Huser Hfresh).
    cbn [fst snd]. rewrite (getSalary_answer now' req' _ u Hu' Hne).
    cbn [fst database]. unfold remindersOf in *. cbn [withReminders salary_reminders].
    rewrite List.filter_app, Hrows. cbn [List.filter app]. rewrite owned_self.
    rewrite reminderData_row. cbn [rem_id rem_salaryDate rem_createdAt rem_updatedAt].
    do 4 eexists. split; [reflexivity|]. cbn [success status data message].
    repeat split; reflexivity.
  - rewrite (postSalary_update now freshId req w u d h hit Hu Hne Hbody Hd Hrows).
    cbn [fst snd]. rewrite (getSalary_answer now' req' _ u Hu' Hne).
    cbn [fst database]. unfold remindersOf in *. cbn [withReminders salary_reminders].
    rewrite filter_owned_update, Hrows. cbn [map].
    rewrite reminderData_row. cbn [rem_id rem_salaryDate rem_createdAt rem_updatedAt].
    do 4 eexists. split; [reflexivity|]. cbn [success status data message].
    repeat split; reflexivity.
Qed.

Lemma salary_post_then_get_witness :
  exists posted id created updated,
    fst (postSalary 1762041600000 "reminder-2"
           (Samples.authenticated (SalaryView.salaryBody 25)) (Samples.world Samples.oneReminder))
      = Returned posted /\
    success posted = true /\
    status posted =
      match remindersOf "user-1" (database (Samples.world Samples.oneReminder)) with
      | [] => 201
      | _ :: _ => 200
      end /\
    message posted =
      match remindersOf "user-1" (database (Samples.world Samples.oneReminder)) with
      | [] => Some "Salary reminder created successfully"
      | _ :: _ => Some "Salary reminder updated successfully"
      end /\
    data posted = DataReminder id (JNum (inject_Z 25)) created updated /\
    fst (getSalary 1762128000000 (Samples.authenticated ∅)
           (snd (postSalary 1762041600000 "reminder-2"
                   (Samples.authenticated (SalaryView.salaryBody 25))
                   (Samples.world Samples.oneReminder))))
      = Returned (mkResponse 200 true (data posted) None None).
Proof.
  apply (salary_post_then_get 1762041600000 1762128000000 "reminder-2" "user-1" 25).
  - reflexivity.
  - reflexivity.
  - discriminate.
  - vm_compute. reflexivity.
  - lia.
  - vm_compute. tauto.
  - vm_compute. intros [H | []]. discriminate H.
Defined.

Lemma run_others_select u now st db :
  match st with
  | SelectReminderByUser _ | SelectReminderIdByUser _ | SelectReminderById _ => True
  | _ => False
  end -> remindersOfOthers u (snd (run now st db)) = remindersOfOthers u db.
Proof. destruct st; intros H; try contradiction; reflexivity. Qed.

Lemma run_others_update u now v db :
  remindersOfOthers u (snd (run now (UpdateReminder v (JStr u)) db)) = remindersOfOthers u db.
Proof.
  cbn [run]. destruct (List.filter _ (salary_reminders db)); [reflexivity|].
  destruct v; try reflexivity. destruct (_ && _); [|reflexivity].
  unfold remindersOfOthers. cbn [snd withReminders salary_reminders].
  apply filter_others_update.
Qed.

Lemma run_others_insert u now id v db :
  remindersOfOthers u (snd (run now (InsertReminder id (JStr u) v) db)) = remindersOfOthers u db.
Proof.
  cbn [run]. destruct v; try reflexivity.
  destruct (existsb _ (salary_reminders db)); [reflexivity|].
  destruct (negb _); [reflexivity|]. destruct (_ && _); [|reflexivity].
  unfold remindersOfOthers. cbn [snd withReminders salary_reminders].
  rewrite List.filter_app. cbn [List.filter]. rewrite owned_self. cbn [negb].
  apply app_nil_r.
Qed.

Lemma run_others_delete u now db :
  remindersOfOthers u (snd (run now (DeleteReminder (JStr u)) db)) = remindersOfOthers u db.
Proof.
  cbn [run snd]. unfold remindersOfOthers. cbn [withReminders salary_reminders].
  apply filter_twice.
Qed.

End SalaryFacts.

(** A statement of the user [u] leaves the rows of the others and the
    table of users as they are. *)
Ltac isolated_statement :=
  apply keeps_query;
  let db := fresh "db" in let H1 := fresh in let H2 := fresh in
  intros db [H1 H2]; split;
  [ rewrite <- H1;
    first [ apply run_others_update | apply run_others_insert | apply run_others_delete
          | apply run_others_select; exact I ]
  | rewrite run_users; exact H2 ].

Section SalaryIsolation.
Import Js Http Db DbWrapper SalaryRoutes Schema.

(** X21.  A request of one user never changes what the others have: for a
    request authenticated as [u], each of the three handlers leaves the
    reminders of all other users, and the table of users, exactly as they
    were. *)
Theorem salary_requests_leave_other_users_alone
    (now : Z) (freshId u : string) (req : Request) (w : World) :
  reqUserId req = Some (JStr u) ->
  (remindersOfOthers u (database (snd (getSalary now req w))) = remindersOfOthers u (database w) /\
   users (database (snd (getSalary now req w))) = users (database w)) /\
  (remindersOfOthers u (database (snd (postSalary now freshId req w)))
     = remindersOfOthers u (database w) /\
   users (database (snd (postSalary now freshId req w))) = users (database w)) /\
  (remindersOfOthers u (database (snd (deleteSalary now req w)))
     = remindersOfOthers u (database w) /\
   users (database (snd (deleteSalary now req w))) = users (database w)).
Proof.
  intros Hu.
  set (P := fun db => remindersOfOthers u db = remindersOfOthers u (database w) /\
                      users db = users (database w)).
  assert (H0 : P (database w)) by (split; reflexivity).
  split; [|split].
  - assert (K : keeps P (getSalary now req)); [|exact (K w H0)].
    unfold getSalary. rewrite Hu. keeps_steps; isolated_statement.
  - assert (K : keeps P (postSalary now freshId req)); [|exact (K w H0)].
    unfold postSalary, updateExisting, createNew. rewrite Hu. keeps_steps; isolated_statement.
  - assert (K : keeps P (deleteSalary now req)); [|exact (K w H0)].
    unfold deleteSalary. rewrite Hu. keeps_steps; isolated_statement.
Qed.

Lemma salary_requests_leave_other_users_alone_witness :
  let w := Samples.world Samples.oneReminder in
  remindersOfOthers "user-2" (database (snd (deleteSalary 1762041600000
      (mkRequest None None ∅ "203.0.113.7" "/salary" (Some (JStr "user-2")) None) w)))
    = remindersOfOthers "user-2" (database w).
Proof.
  cbv zeta.
  apply (salary_requests_leave_other_users_alone 1762041600000 "reminder-2" "user-2"
           (mkRequest None None ∅ "203.0.113.7" "/salary" (Some (JStr "user-2")) None)
           (Samples.world Samples.oneReminder) eq_refl).
Defined.

(** X22.  DELETE /salary leaves the user without a reminder: a GET that
    follows answers that none is set, and a second DELETE changes nothing
    in the database. *)
Theorem salary_delete_then_get (now now' now'' : Z) (u : string) (req req' : Request) (w : World) :
  reqUserId req = Some (JStr u) -> reqUserId req' = Some (JStr u) -> u <> "" ->
  remindersOf u (database (snd (deleteSalary now req w))) = [] /\
  fst (getSalary now' req' (snd (deleteSalary now req w))) =
    Returned (mkResponse 200 true DataNone (Some "No salary reminder set") None) /\
  database (snd (deleteSalary now'' req (snd (deleteSalary now req w)))) =
    database (snd (deleteSalary now req w)).
Proof.
  intros Hu Hu' Hne.
  rewrite (deleteSalary_answer now req w u Hu Hne). cbn [snd].
  assert (E : remindersOf u (withReminders (database w) (remindersOfOthers u (database w))) = []).
  { unfold remindersOf, remindersOfOthers. cbn [withReminders salary_reminders].
    apply filter_owned_others. }
  split; [exact E|]. split.
  - rewrite (getSalary_answer now' req' _ u Hu' Hne). cbn [fst database]. rewrite E. reflexivity.
  - rewrite (deleteSalary_answer now'' req _ u Hu Hne). cbn [snd database].
    unfold remindersOfOthers, withReminders. cbn [salary_reminders users].
    rewrite filter_twice. reflexivity.
Qed.

Lemma salary_delete_then_get_witness :
  let w1 := snd (deleteSalary 1762041600000 (Samples.authenticated ∅)
                   (Samples.world Samples.oneReminder)) in
  remindersOf "user-1" (database w1) = [] /\
  fst (getSalary 1762041600001 (Samples.authenticated ∅) w1) =
    Returned (mkResponse 200 true DataNone (Some "No salary reminder set") None) /\
  database (snd (deleteSalary 1762041600002 (Samples.authenticated ∅) w1)) = database w1.
Proof.
  cbv zeta.
  apply (salary_delete_then_get 1762041600000 1762041600001 1762041600002 "user-1").
  - reflexivity.
  - reflexivity.
  - discriminate.
Defined.

End SalaryIsolation.

(* ===================================================================== *)
(** * What the salary routes answer *)
(* ===================================================================== *)

Section AnswerLemmas.
Import Js Http Db DbWrapper SalaryRoutes.

Lemma executeQuery_logs now st w : logs (snd (executeQuery now st w)) = logs w.
Proof.
  unfold executeQuery. destruct (run now st (database w)) as [[raw|e] db']; reflexivity.
Qed.

Lemma rejectSalaryDate_status v r :
  rejectSalaryDate v = Some r -> status r = 400 /\ success r = false.
Proof.
  unfold rejectSalaryDate. destruct (_ || _); [intros [= <-]; split; reflexivity|].
  destruct v; try discriminate. destruct (_ || _); [|discriminate].
  intros [= <-]; split; reflexivity.
Qed.

End AnswerLemmas.

(** The two results of the next statement, with what it leaves of the log. *)
Ltac query_cases :=
  match goal with
  | |- context [DbWrapper.executeQuery ?n ?s ?w] =>
      let L := fresh "L" in
      pose proof (executeQuery_logs n s w) as L;
      destruct (DbWrapper.executeQuery n s w) as [[?q|?e] ?w]; cbn [snd] in L; cbv beta iota
  end.

(** The answer is at hand. *)
Ltac answered :=
  do 2 eexists; split; [reflexivity|]; cbn;
  repeat match goal with
         | H : DbWrapper.logs _ = DbWrapper.logs _ |- _ => rewrite H; clear H
         end;
  intuition (try discriminate; try lia; eauto).

Section SalaryAnswers.
Import Js Http Db DbWrapper SalaryRoutes.

(** X23.  POST /salary always answers, and never throws: with 200 or 201
    and success, or with 400, 401 or 500 and no success.  When it answers
    400 or 401 nothing has happened: no statement was sent, the database is
    unchanged and nothing was logged.  When it answers 500 the error has
    been logged. *)
Theorem postSalary_always_answers (now : Z) (freshId : string) (req : Request) (w : World) :
  exists r w', postSalary now freshId req w = (Returned r, w') /\
    In (status r) [200; 201; 400; 401; 500] /\
    (success r = true <-> status r = 200 \/ status r = 201) /\
    (status r = 400 \/ status r = 401 -> w' = w) /\
    (status r = 500 ->
     exists entry, logs w' = logs w ++ [entry] /\ level entry = LogError).
Proof.
  unfold postSalary, catch.
  destruct (reqUserId req) as [userId|]; [|answered].
  destruct (negb (truthy userId)); [answered|].
  destruct (rejectSalaryDate _) as [r|] eqn:R.
  { apply rejectSalaryDate_status in R as [R1 R2].
    do 2 eexists. split; [reflexivity|]. rewrite R1, R2. cbn.
    intuition (try discriminate; try lia; auto). }
  unfold mbind at 1. query_cases; [|answered].
  destruct (0 <? _).
  - unfold updateExisting, mbind. repeat query_cases; try answered.
    destruct (rows q1); answered.
  - unfold createNew, mbind. repeat query_cases; try answered.
    destruct (rows q1); answered.
Qed.

End SalaryAnswers.

Section RouterFacts.
Import Js Jwt AuthUtils Http AuthMiddleware Db DbWrapper SalaryRoutes SalaryRouter.

Lemma logAll_nil w : logAll [] w = (Returned tt, w).
Proof. destruct w. unfold logAll. cbn. rewrite app_nil_r. reflexivity. Qed.

(** Behind a request that [authenticate] hands on runs the handler. *)
Lemma route_authenticated {J : Jose} env now freshId method req req' w :
  authenticate env now req = (Next req', []) ->
  route env now freshId method req w =
  match method with
  | GET => getSalary now req' w
  | POST => postSalary now freshId req' w
  | DELETE => deleteSalary now req' w
  end.
Proof.
  intros H. unfold route, withAuth, mbind. rewrite H. cbn [fst snd].
  rewrite logAll_nil. destruct method; reflexivity.
Qed.

(** X24.  A request without a token, or with a token that does not verify,
    gets 401 from every route of /salary, and nothing reaches the
    database: no statement is sent and the tables are unchanged. *)
Theorem salary_routes_need_a_token {J : Jose}
    (env : Env) (now : Z) (freshId : string) (method : Method) (req : Request) (w : World) :
  (truthyStr (requestToken req) = false \/
   exists token, requestToken req = Some token /\ verifyToken env now token = Returned None) ->
  exists r l,
    route env now freshId method req w =
      (Returned r, mkWorld (database w) (trace w) (logs w ++ l)) /\
    status r = 401 /\ success r = false.
Proof.
  intros H. unfold route, withAuth, mbind, logAll, authenticate.
  destruct (requestToken req) as [token|] eqn:T.
  - destruct (String.eqb token "") eqn:E.
    + do 2 eexists. cbn. split; [reflexivity|]. split; reflexivity.
    + destruct H as [H | (t & [= <-] & Hv)].
      * cbn in H. rewrite E in H. discriminate.
      * rewrite Hv. do 2 eexists. cbn. split; [reflexivity|]. split; reflexivity.
  - do 2 eexists. cbn. split; [reflexivity|]. split; reflexivity.
Qed.

Lemma salary_routes_need_a_token_witness :
  exists r l,
    @route ToyJose.toy Samples.env 1762041600000 "reminder-2" DELETE Samples.garbageRequest
      (Samples.world Samples.oneReminder) =
      (Returned r, mkWorld (database (Samples.world Samples.oneReminder))
                     (trace (Samples.world Samples.oneReminder))
                     (logs (Samples.world Samples.oneReminder) ++ l)) /\
    status r = 401 /\ success r = false.
Proof.
  apply (@salary_routes_need_a_token ToyJose.toy).
  right. exists "garbage". vm_compute. split; reflexivity.
Defined.

(** X25.  The middleware is transparent for a valid token.  A request
    that carries a token issued to a user, sent before the token expires,
    is served on every route of /salary exactly as the handler serves the
    same request with that user's id and address attached; nothing else is
    logged or changed on the way. *)
Theorem salary_routes_serve_the_token_holder {J : Jose} (LJ : JoseLaws J)
    (env : Env) (secret : string) (span t0 now : Z)
    (freshId u e token : string) (method : Method) (req : Request) (w : World) :
  getJWTSecret env = Returned secret ->
  ms (JWT_EXPIRES_IN env) = Some span ->
  generateToken env t0 u e = Returned token ->
  requestToken req = Some token ->
  now < (t0 / 1000 + span / 1000) * 1000 ->
  route env now freshId method req w =
  let req' := mkRequest (authorization req) (cookies req) (body req) (ip req) (path req)
                (Some (JStr u)) (Some (JStr e)) in
  match method with
  | GET => getSalary now req' w
  | POST => postSalary now freshId req' w
  | DELETE => deleteSalary now req' w
  end.
Proof.
  intros Hs Hms Hgen Hreq Hnow. cbv zeta.
  apply route_authenticated.
  exact (authenticate_issued LJ env secret span t0 now u e token req Hs Hms Hgen Hreq Hnow).
Qed.

Lemma salary_routes_serve_the_token_holder_witness :
  @route ToyJose.toy Samples.env 1762300800000 "reminder-2" POST Samples.issuedPost
    (Samples.world Samples.oneUser) =
  postSalary 1762300800000 "reminder-2"
    (mkRequest (authorization Samples.issuedPost) (cookies Samples.issuedPost)
       (body Samples.issuedPost) (ip Samples.issuedPost) (path Samples.issuedPost)
       (Some (JStr "user-1")) (Some (JStr "ada@example.org")))
    (Samples.world Samples.oneUser).
Proof.
  apply (@salary_routes_serve_the_token_holder ToyJose.toy toy_laws Samples.env
           "not-a-real-secret" 604800000 1762041600000 1762300800000 "reminder-2"
           "user-1" "ada@example.org" Samples.issuedToken POST Samples.issuedPost
           (Samples.world Samples.oneUser));
    vm_compute; reflexivity.
Defined.

End RouterFacts.

(* ===================================================================== *)
(** * Registration, login and the current user *)
(* ===================================================================== *)

Section SessionFacts.
Import Js Jwt AuthUtils Http Db AuthRoutes Register.
Context {J : Jose}.

(** The row a registration inserts. *)
Lemma register_alone env now i committed :
  accepted i = true -> keyTaken (freshId i) (email i) committed = false ->
  register env now i committed =
  match generateToken env now (freshId i) (email i) with
  | Returned token =>
      (mkSession (Answered (mkResponse 201 true
                              (DataLogin token (freshId i) (name i) (email i))
                              (Some "User registered successfully") None)) [],
       committed ++ [mkUser (freshId i) (name i) (email i) (hashedPassword i) now],
       [mkLog Info "User registered"
          [("userId", JStr (freshId i)); ("email", JStr (email i))]])
  | Thrown e =>
      (mkSession (Answered (failure 500 (exnMessage e))) [],
       committed ++ [mkUser (freshId i) (name i) (email i) (hashedPassword i) now],
       [mkLog Info "User registered"
          [("userId", JStr (freshId i)); ("email", JStr (email i))];
        mkLog LogError "Registration error" [("error", JStr (exnMessage e))]])
  end.
Proof.
  intros Hacc Hkey. destruct (accepted_passes i Hacc) as [Herr Hblank].
  unfold register, runAlone, start, step. cbn [pc].
  rewrite Herr, Hblank. cbn [pc]. rewrite (keyTaken_email _ _ _ Hkey). cbn [pc].
  change (keyTaken (freshId i) (email i) []) with false. cbv beta iota.
  rewrite Hkey. cbn [pc uncommitted answerUnexpected app].
  destruct (generateToken env now (freshId i) (email i)); reflexivity.
Qed.

Lemma key_free_filters id e l :
  keyTaken id e l = false ->
  List.filter (fun r => String.eqb e (user_email r)) l = [] /\
  List.filter (fun r => matches (JStr id) (user_id r)) l = [].
Proof.
  unfold keyTaken. induction l as [|r l IH]; cbn; [split; reflexivity|].
  intros H. apply orb_false_iff in H as [H1 H2]. apply orb_false_iff in H1 as [Hi He].
  destruct (IH H2) as [IH1 IH2]. rewrite He, Hi. split; assumption.
Qed.


(** X27.  Registration commits before it issues the token.  When
    JWT_SECRET is not configured, a valid registration for a free address
    is answered 500, and yet the account exists afterwards: the row is in
    the table, and a second registration for the address gets 409. *)
Theorem register_without_secret_leaves_the_account
    (env : Env) (now now' : Z) (err : Exn) (i j : Input) (committed : list UserRow) :
  getJWTSecret env = Thrown err ->
  accepted i = true -> keyTaken (freshId i) (email i) committed = false ->
  accepted j = true -> email j = email i ->
  exists s committed' logged,
    register env now i committed = (s, committed', logged) /\
    answer s = Some (failure 500 (exnMessage err)) /\
    committed' = committed ++ [mkUser (freshId i) (name i) (email i) (hashedPassword i) now] /\
    register env now' j committed' =
      (mkSession (Answered (failure 409 "User with this email already exists")) [],
       committed', []).
Proof.
  intros Hs Hacc Hkey Haccj Hej.
  rewrite (register_alone env now i committed Hacc Hkey).
  unfold generateToken. rewrite Hs. cbn [bind].
  do 3 eexists. split; [reflexivity|]. split; [reflexivity|]. split; [reflexivity|].
  apply register_conflict; [exact Haccj|].
  rewrite Hej. unfold emailTaken. rewrite List.existsb_app. cbn.
  rewrite String.eqb_refl. apply orb_true_r.
Qed.

Variable comparePassword : string -> string -> bool.

(** X28.  Login does not tell an unknown address from a wrong password:
    whenever the request passes validation and either no user has the
    address or the password does not match, the answer is the same 401
    with the same message, and nothing is logged. *)
Theorem login_does_not_tell_unknown_from_wrong
    (env : Env) (now : Z) (c : Session.Credentials) (committed : list UserRow) :
  Session.validationErrors c = [] -> Session.email c <> "" -> Session.password c <> "" ->
  (List.filter (fun r => String.eqb (Session.email c) (user_email r)) committed = [] \/
   exists user rest,
     List.filter (fun r => String.eqb (Session.email c) (user_email r)) committed = user :: rest /\
     comparePassword (Session.password c) (user_password user) = false) ->
  Session.login comparePassword env now c committed =
    (failure 401 "Invalid email or password", []).
Proof.
  intros Hv He Hp H. unfold Session.login, Session.loginAttempt. rewrite Hv.
  destruct (String.eqb_spec (Session.email c) ""); [contradiction|].
  destruct (String.eqb_spec (Session.password c) ""); [contradiction|]. cbn [orb].
  destruct H as [-> | (user & rest & -> & Hc)]; [reflexivity|].
  rewrite Hc. reflexivity.
Qed.

(** X29.  Register, then log in.  After a valid registration for a free
    address, a login with the same address and a password that bcrypt
    accepts for the stored hash is answered 200 with the registered id,
    name and address and with a token that verifies to that id and address
    until it expires. *)
Theorem register_then_login (LJ : JoseLaws J)
    (env : Env) (secret : string) (span now now' t : Z) (i : Input)
    (committed : list UserRow) :
  getJWTSecret env = Returned secret ->
  ms (JWT_EXPIRES_IN env) = Some span ->
  accepted i = true -> keyTaken (freshId i) (email i) committed = false ->
  comparePassword (password i) (hashedPassword i) = true ->
  t < (now' / 1000 + span / 1000) * 1000 ->
  exists s committed' logged token,
    register env now i committed = (s, committed', logged) /\
    Session.login comparePassword env now' (Session.mkCredentials [] (email i) (password i))
      committed' =
      (mkResponse 200 true (DataLogin token (freshId i) (name i) (email i))
         (Some "Login successful") None,
       [mkLog Info "User logged in"
          [("userId", JStr (freshId i)); ("email", JStr (email i))]]) /\
    verifyToken env t token =
      Returned (Some (mkIdentity (JStr (freshId i)) (JStr (email i)))).
Proof.
  intros Hs Hms Hacc Hkey Hcmp Ht.
  destruct (accepted_passes i Hacc) as [_ Hblank].
  apply orb_false_iff in Hblank as [Hblank Hpw]. apply orb_false_iff in Hblank as [_ Hem].
  rewrite (register_alone env now i committed Hacc Hkey).
  rewrite (generateToken_issued env secret span now _ _ Hs Hms).
  do 4 eexists. split; [reflexivity|].
  unfold Session.login, Session.loginAttempt.
  cbn [Session.validationErrors Session.email Session.password].
  rewrite Hem, Hpw. cbn [orb].
  rewrite List.filter_app. destruct (key_free_filters _ _ _ Hkey) as [-> _].
  cbn [List.filter user_email app]. rewrite String.eqb_refl.
  cbn [user_password user_id user_name user_email]. rewrite Hcmp. cbn [negb].
  rewrite (generateToken_issued env secret span now' _ _ Hs Hms). cbn [bind].
  split; [reflexivity|].
  rewrite (verifyToken_issued LJ env secret _ _ t _ _ Hs).
  apply before_expiry in Ht.
  destruct (Z.leb_spec (now' / 1000 + span / 1000) (t / 1000)); [lia | reflexivity].
Qed.

(** X30.  Register, then ask who I am.  With the token a valid
    registration returned, GET /auth/me answers, until the token expires,
    with the id, name and address that were registered. *)
Theorem me_after_register (LJ : JoseLaws J)
    (env : Env) (secret token : string) (span now t : Z) (i : Input)
    (committed : list UserRow) (req : Request) :
  getJWTSecret env = Returned secret ->
  ms (JWT_EXPIRES_IN env) = Some span ->
  accepted i = true -> keyTaken (freshId i) (email i) committed = false ->
  generateToken env now (freshId i) (email i) = Returned token ->
  meToken req = Some token ->
  t < (now / 1000 + span / 1000) * 1000 ->
  exists s committed' logged,
    register env now i committed = (s, committed', logged) /\
    answer s = Some (mkResponse 201 true (DataLogin token (freshId i) (name i) (email i))
                       (Some "User registered successfully") None) /\
    Session.me env t req committed' = Session.UserInfo (freshId i) (name i) (email i).
Proof.
  intros Hs Hms Hacc Hkey Hgen Hreq Ht.
  rewrite (register_alone env now i committed Hacc Hkey). rewrite Hgen.
  do 3 eexists. split; [reflexivity|]. split; [reflexivity|].
  rewrite (generateToken_issued env secret span now _ _ Hs Hms) in Hgen.
  injection Hgen as <-.
  unfold Session.me. rewrite Hreq, compact_nonempty.
  rewrite (verifyToken_issued LJ env secret _ _ t _ _ Hs).
  apply before_expiry in Ht.
  destruct (Z.leb_spec (now / 1000 + span / 1000) (t / 1000)); [lia|].
  cbn [AuthUtils.userId].
  rewrite List.filter_app. destruct (key_free_filters _ _ _ Hkey) as [_ ->].
  cbn [List.filter user_id app matches]. rewrite String.eqb_refl. reflexivity.
Qed.

End SessionFacts.

Section SessionWitnesses.
Import Js Jwt AuthUtils Http Db AuthRoutes Register.


Lemma register_without_secret_leaves_the_account_witness :
  exists s committed' logged,
    @register ToyJose.toy ∅ 1762041600000 Samples.adaFirst Samples.otherUsers
      = (s, committed', logged) /\
    answer s = Some (failure 500
      "JWT_SECRET environment variable is required. Please set it in your .env file.") /\
    committed' = Samples.otherUsers ++ [mkUser "id-1" "Ada" "ada@example.org" "hash-1" 1762041600000] /\
    @register ToyJose.toy ∅ 1762041600001 Samples.adaSecond committed' =
      (mkSession (Answered (failure 409 "User with this email already exists")) [],
       committed', []).
Proof.
  apply (@register_without_secret_leaves_the_account ToyJose.toy ∅ 1762041600000 1762041600001
           (Error "JWT_SECRET environment variable is required. Please set it in your .env file.")
           Samples.adaFirst Samples.adaSecond Samples.otherUsers);
    reflexivity.
Defined.

Lemma login_does_not_tell_unknown_from_wrong_witness :
  @Session.login ToyJose.toy (fun password hash => String.eqb hash ("hash of " ++ password))
    Samples.env 1762041600000
    (Session.mkCredentials [] "grace@example.org" "Passw0rd") Samples.otherUsers =
    (failure 401 "Invalid email or password", []).
Proof.
  apply (@login_does_not_tell_unknown_from_wrong ToyJose.toy).
  - reflexivity.
  - discriminate.
  - discriminate.
  - right. do 2 eexists. split; reflexivity.
Defined.

Lemma register_then_login_witness :
  exists s committed' logged token,
    @register ToyJose.toy Samples.env 1762041600000
      (mkInput [] "Ada" "ada@example.org" "Passw0rd" "hash of Passw0rd" "id-1")
      Samples.otherUsers = (s, committed', logged) /\
    @Session.login ToyJose.toy (fun password hash => String.eqb hash ("hash of " ++ password))
      Samples.env 1762128000000
      (Session.mkCredentials [] "ada@example.org" "Passw0rd") committed' =
      (mkResponse 200 true (DataLogin token "id-1" "Ada" "ada@example.org")
         (Some "Login successful") None,
       [mkLog Info "User logged in"
          [("userId", JStr "id-1"); ("email", JStr "ada@example.org")]]) /\
    @verifyToken ToyJose.toy Samples.env 1762300800000 token =
      Returned (Some (mkIdentity (JStr "id-1") (JStr "ada@example.org"))).
Proof.
  apply (@register_then_login ToyJose.toy
           (fun password hash => String.eqb hash ("hash of " ++ password)) toy_laws
           Samples.env "not-a-real-secret" 604800000 1762041600000 1762128000000 1762300800000
           (mkInput [] "Ada" "ada@example.org" "Passw0rd" "hash of Passw0rd" "id-1")
           Samples.otherUsers); vm_compute; reflexivity.
Defined.

Lemma me_after_register_witness :
  exists s committed' logged,
    @register ToyJose.toy Samples.env 1762041600000 Samples.adaFirst Samples.otherUsers
      = (s, committed', logged) /\
    answer s = Some (mkResponse 201 true
                       (DataLogin Samples.registeredToken "id-1" "Ada" "ada@example.org")
                       (Some "User registered successfully") None) /\
    @Session.me ToyJose.toy Samples.env 1762300800000 Samples.whoAmI committed' =
      Session.UserInfo "id-1" "Ada" "ada@example.org".
Proof.
  apply (@me_after_register ToyJose.toy toy_laws Samples.env "not-a-real-secret"
           Samples.registeredToken 604800000 1762041600000 1762300800000
           Samples.adaFirst Samples.otherUsers Samples.whoAmI);
    vm_compute; reflexivity.
Defined.

End SessionWitnesses.
